(** * resume-analyzer: the express authentication backend

    A shallow embedding of the auth controller
    (signup, verifyEmail, regenerateVerificationToken, logout, login,
    forgotPassword, resetPassword, checkAuth, google), of
    utils/generateTokenAndSetCookie.ts and of mail-service/emails.ts.

    The handlers are async functions over three mutable things: the Prisma
    store, the SES mailer and the express response object.  They are
    embedded in a state-and-exception monad over a record holding the three
    (plus the list of Prisma calls made, so that "no store read" can be
    stated).  A handler either returns, having called [res.status] and
    [res.json], or throws after [res.status]; the wrapper [asyncHandler] and
    the error middleware that turn a thrown error into the response body are
    not part of the sources, so "responds 400 with message m" reads here as
    "sets status 400 and throws [Error m]".

    Libraries the code calls (bcryptjs, validator, jsonwebtoken,
    google-auth-library, SES) and the declarations of the Prisma schema are
    parameters of the development, gathered in the class [Externals].  The
    clock and the random sources a request reads are its [Runtime].

    Fields read off a request are absent or strings, the type under which
    the callees of the handlers (validator, bcryptjs, the String columns of
    Prisma) are declared.  Every handler tests each field with [!v] before
    any other use, so a falsy value of another type (null, false, 0) takes
    the branch of an absent field.  A truthy value of another type (a JSON
    number, an object) is handed to library code that is not part of the
    sources (validator.isEmail throws a TypeError on it); such requests are
    outside the development, and every statement below is about requests
    whose fields are absent or strings. *)

From Stdlib Require Import ZArith List String Ascii Bool Lia.
From Stdlib Require Floats.SpecFloat.
Import ListNotations.
Local Open Scope string_scope.
Local Open Scope Z_scope.

(** ** JavaScript values read off a request *)

(** A field of [req.body], [req.params] or [req.cookies]: absent or a string.
    [!v] is true for [undefined] and for the empty string. *)
Definition falsy (v : option string) : bool :=
  match v with
  | None => true
  | Some s => String.eqb s ""
  end.

(** The string held by a field that passed the [!v] test. *)
Definition str (v : option string) : string :=
  match v with
  | Some s => s
  | None => ""
  end.

(** ** IEEE 754 binary64, non-negative finite values

    [Math.random() * 900000] and [100000 + ...] are double operations.  A
    non-negative finite double is held as the integer number of units of
    2^-1074 (the least subnormal) it is worth, so that every quantity of the
    computation is an integer.  Rounding is to nearest, ties to even, at 53
    bits of precision.  Overflow to Infinity (values from 2^1024 on) is not
    represented. *)
Module F64.

Definition t := Z.

Definition prec : Z := 53.
Definition scale : Z := 1074.

(** Number of bits of a non-negative integer. *)
Definition bitlen (n : Z) : Z :=
  if n <=? 0 then 0 else Z.log2 n + 1.

(** [n / 2^s] rounded to the nearest integer, ties to even. *)
Definition round_ne (n s : Z) : Z :=
  let q := n / 2 ^ s in
  let r := n mod 2 ^ s in
  if 2 * r <? 2 ^ s then q
  else if 2 ^ s <? 2 * r then q + 1
  else if Z.even q then q else q + 1.

(** [n] is an exact value in units of 2^-(1074+k); the result is the double
    nearest to it, in units of 2^-1074. *)
Definition shift (n k : Z) : Z := Z.max (bitlen n - prec) k.

Definition round_to (n k : Z) : t :=
  let s := shift n k in
  round_ne n s * 2 ^ (s - k).

Definition of_int (z : Z) : t := z * 2 ^ scale.

Definition mul (a b : t) : t := round_to (a * b) scale.

Definition add (a b : t) : t := round_to (a + b) 0.

(** [Math.floor], as the integer it denotes. *)
Definition floor (a : t) : Z := a / 2 ^ scale.

(** The values a double can take: at most 53 significant bits. *)
Definition representable (a : t) : Prop :=
  0 <= a /\ a mod 2 ^ (Z.max (bitlen a - prec) 0) = 0.

(** The range of [Math.random()]: a double in [0, 1). *)
Definition unit_interval (a : t) : Prop :=
  representable a /\ a < 2 ^ scale.

(** The largest double below 1. *)
Definition pred_one : t := 2 ^ scale - 2 ^ (scale - prec).

(** The same values in the Standard Library's specification of floats. *)
Definition to_spec (a : t) : SpecFloat.spec_float :=
  match a with
  | Zpos p =>
      let s := Z.max (bitlen a - prec) 0 in
      match a / 2 ^ s with
      | Zpos m => SpecFloat.S754_finite false m (s - scale)
      | _ => SpecFloat.S754_nan
      end
  | _ => SpecFloat.S754_zero false
  end.

Definition of_spec (f : SpecFloat.spec_float) : option t :=
  match f with
  | SpecFloat.S754_zero _ => Some 0
  | SpecFloat.S754_finite false m e => Some (Zpos m * 2 ^ (e + scale))
  | _ => None
  end.

(** Values computed by IEEE 754 hardware: a double [r], then [r * 900000],
    [100000 + r * 900000] and the floor of the latter. *)
Definition ieee_samples : list (t * t * t * Z) :=
  [
    ((2916826238065975 * 2 ^ (scale - 53)),
     (5007064083594089 * 2 ^ (scale - 34)),
     (6725051001994089 * 2 ^ (scale - 34)), 391449);
    ((339682141737767 * 2 ^ (scale - 51)),
     (1166206083541833 * 2 ^ (scale - 33)),
     (2025199542741833 * 2 ^ (scale - 33)), 235764);
    ((5863096500449791 * 2 ^ (scale - 53)),
     (2516168046190649 * 2 ^ (scale - 32)),
     (2945664775790649 * 2 ^ (scale - 32)), 685841);
    ((20389002102753 * 2 ^ (scale - 48)),
     (8960010689686377 * 2 ^ (scale - 37)),
     (2837988254610797 * 2 ^ (scale - 34)), 165192);
    ((150837374681885 * 2 ^ (scale - 48)),
     (8285744458843781 * 2 ^ (scale - 34)),
     (2500932844310945 * 2 ^ (scale - 32)), 582293);
    ((3293832939882081 * 2 ^ (scale - 53)),
     (2827119489568589 * 2 ^ (scale - 33)),
     (3686112948768589 * 2 ^ (scale - 33)), 429120);
    ((9007199254740991 * 2 ^ (scale - 53)),
     (7730941132799999 * 2 ^ (scale - 33)),
     (8589934591999999 * 2 ^ (scale - 33)), 999999);
    ((1 * 2 ^ (scale - 1074)),
     (28125 * 2 ^ (scale - 1069)),
     (3125 * 2 ^ (scale + 5)), 100000);
    ((3602879701896397 * 2 ^ (scale - 55)),
     (5625 * 2 ^ (scale + 4)),
     (11875 * 2 ^ (scale + 4)), 190000);
    ((6004799503160661 * 2 ^ (scale - 54)),
     (9375 * 2 ^ (scale + 5)),
     (3125 * 2 ^ (scale + 7)), 400000);
    ((1099511627777 * 2 ^ (scale - 70)),
     (7730941132807031 * 2 ^ (scale - 63)),
     (3355443228125 * 2 ^ (scale - 25)), 100000)
  ].

Definition agrees_with_sample (x : t * t * t * Z) : bool :=
  let '(r, product, sum, code) := x in
  (mul r (of_int 900000) =? product)
  && (add (of_int 100000) product =? sum)
  && (floor sum =? code).

End F64.

(** [Number.prototype.toString] on a non-negative integer: its decimal
    digits. *)
Definition digit_char (d : Z) : ascii := ascii_of_nat (48 + Z.to_nat d).

Fixpoint decimal_digits (fuel : nat) (n : Z) (acc : string) : string :=
  match fuel with
  | O => acc
  | S fuel' =>
      let acc' := String (digit_char (n mod 10)) acc in
      if n <? 10 then acc' else decimal_digits fuel' (n / 10) acc'
  end.

Definition Number_toString (n : Z) : string :=
  decimal_digits (S (Z.to_nat (Z.log2 n))) n "".

(** [Math.floor(100000 + Math.random() * 900000).toString()], with [r] the
    value [Math.random()] returned. *)
Definition verificationCode_number (r : F64.t) : Z :=
  F64.floor (F64.add (F64.of_int 100000) (F64.mul r (F64.of_int 900000))).

Definition verificationCode (r : F64.t) : string :=
  Number_toString (verificationCode_number r).

(** [Buffer.toString("hex")]. *)
Definition hex_digit (n : N) : ascii :=
  match n with
  | 0%N => "0" | 1%N => "1" | 2%N => "2" | 3%N => "3"
  | 4%N => "4" | 5%N => "5" | 6%N => "6" | 7%N => "7"
  | 8%N => "8" | 9%N => "9" | 10%N => "a" | 11%N => "b"
  | 12%N => "c" | 13%N => "d" | 14%N => "e" | _ => "f"
  end%char.

Fixpoint Buffer_toString_hex (bytes : list Byte.byte) : string :=
  match bytes with
  | [] => ""
  | b :: rest =>
      let n := Byte.to_N b in
      String (hex_digit (n / 16)) (String (hex_digit (n mod 16)) (Buffer_toString_hex rest))
  end.

(** ** The credential store

    The rows of the three Prisma models the controller uses.  The schema
    file is not part of the sources; the columns are those the controller
    reads and writes. *)

Record User := {
  user_id : string;
  user_email : string;
  user_password : string;
  user_name : string;
  user_isVerified : bool
}.

(** A row of [verificationToken] or of [passwordResetToken]; [expiresAt] is
    a [Date], held as milliseconds since the epoch. *)
Record Token := {
  tok_id : string;
  tok_token : string;
  tok_expiresAt : Z;
  tok_userId : string
}.

(** Tables keep their rows in insertion order; the three counters are the
    sources of the primary keys. *)
Record Store := {
  users : list User;
  verificationTokens : list Token;
  passwordResetTokens : list Token;
  next_user : nat;
  next_verificationToken : nat;
  next_passwordResetToken : nat
}.

Definition empty_store : Store :=
  {| users := []; verificationTokens := []; passwordResetTokens := [];
     next_user := 0; next_verificationToken := 0; next_passwordResetToken := 0 |}.

(** The calls made on the Prisma client. *)
Inductive PrismaCall :=
| user_findUnique
| user_create
| user_update
| verificationToken_create
| verificationToken_findFirst
| verificationToken_delete
| passwordResetToken_create
| passwordResetToken_findFirst
| passwordResetToken_delete.

(** ** The notifier

    mail-service/emails.ts: four functions, each building one
    [SendEmailCommand] from a recipient and one parameter and handing it to
    [sesClient.send].  Template rendering is outside the model: a message is
    its kind, its recipient and its parameter. *)
Inductive Mail :=
| VerificationEmail (to verificationToken : string)
| WelcomeEmail (to name : string)
| PasswordResetEmail (to resetURL : string)
| ResetSuccessEmail (to : string).

(** ** The express response *)

Record CookieOptions := {
  httpOnly : bool;
  secure : bool;
  sameSite : string;
  maxAge : option Z;
  domain : option string;
  path : string
}.

(** [res.cookie] and [res.clearCookie] each add one Set-Cookie header. *)
Inductive SetCookie :=
| Cookie (name value : string) (options : CookieOptions)
| ClearCookie (name : string) (options : CookieOptions).

Record UserData := {
  ud_userId : string;
  ud_email : string;
  ud_isVerified : bool
}.

Record Json := {
  success : bool;
  message : string;
  userData : option UserData
}.

Record Response := {
  statusCode : Z;
  setCookie : list SetCookie;
  body : option Json
}.

Definition new_response : Response :=
  {| statusCode := 200; setCookie := []; body := None |}.

(** ** State and exceptions *)

(** What a handler can change: the store, the commands handed to
    [sesClient.send] (in order), the Prisma calls made (in order) and the
    response object. *)
Record State := {
  db : Store;
  sent : list Mail;
  calls : list PrismaCall;
  res : Response
}.

(** What is thrown: [new Error(message)] by the controller and the mail
    service, or a rejection coming from a library. *)
Inductive exn :=
| Error (message : string)
| PrismaError (code : string)
| LibraryError (origin : string).

Inductive outcome (A : Type) :=
| Returned (a : A)
| Thrown (e : exn).
Arguments Returned {A} a.
Arguments Thrown {A} e.

Definition M (A : Type) : Type := State -> outcome A * State.

Definition ret {A} (a : A) : M A := fun s => (Returned a, s).

Definition bind {A B} (m : M A) (k : A -> M B) : M B :=
  fun s =>
    match m s with
    | (Returned a, s') => k a s'
    | (Thrown e, s') => (Thrown e, s')
    end.

Definition throw {A} (e : exn) : M A := fun s => (Thrown e, s).

Declare Scope handler_scope.
Delimit Scope handler_scope with handler.
Notation "x <- m ;; k" := (bind m (fun x => k))
  (at level 61, m at next level, right associativity) : handler_scope.
Notation "m ;; k" := (bind m (fun _ => k))
  (at level 61, right associativity) : handler_scope.
Local Open Scope handler_scope.

Definition with_db (f : Store -> Store) (s : State) : State :=
  {| db := f (db s); sent := sent s; calls := calls s; res := res s |}.

Definition with_res (f : Response -> Response) (s : State) : State :=
  {| db := db s; sent := sent s; calls := calls s; res := f (res s) |}.

Definition log_call (c : PrismaCall) (s : State) : State :=
  {| db := db s; sent := sent s; calls := calls s ++ [c]; res := res s |}.

Definition log_mail (m : Mail) (s : State) : State :=
  {| db := db s; sent := sent s ++ [m]; calls := calls s; res := res s |}.

(** [res.status(code)] *)
Definition res_status (code : Z) : M unit :=
  fun s => (Returned tt,
            with_res (fun r => {| statusCode := code; setCookie := setCookie r; body := body r |}) s).

(** [res.json(value)] *)
Definition res_json (j : Json) : M unit :=
  fun s => (Returned tt,
            with_res (fun r => {| statusCode := statusCode r; setCookie := setCookie r; body := Some j |}) s).

(** [res.cookie(name, value, options)] *)
Definition res_cookie (name value : string) (o : CookieOptions) : M unit :=
  fun s => (Returned tt,
            with_res (fun r => {| statusCode := statusCode r;
                                  setCookie := setCookie r ++ [Cookie name value o];
                                  body := body r |}) s).

(** [res.clearCookie(name, options)] *)
Definition res_clearCookie (name : string) (o : CookieOptions) : M unit :=
  fun s => (Returned tt,
            with_res (fun r => {| statusCode := statusCode r;
                                  setCookie := setCookie r ++ [ClearCookie name o];
                                  body := body r |}) s).

(** The pattern [res.status(code); throw new Error(message)]. *)
Definition fail {A} (code : Z) (msg : string) : M A :=
  res_status code ;; throw (Error msg).

(** ** What the controller takes from outside *)

Record JwtPayload := {
  jwt_userId : string;
  jwt_email : string
}.

(** The payload of a verified Google ID token: the three fields read. *)
Record TokenPayload := {
  gp_email : option string;
  gp_name : option string;
  gp_email_verified : option bool
}.

(** [client.verifyIdToken] rejects, or gives a ticket whose [getPayload()]
    may be undefined. *)
Inductive LoginTicket :=
| VerifyRejected
| Ticket (payload : option TokenPayload).

(** [process.env] *)
Record ProcessEnv := {
  JWT_SECRET : string;
  NODE_ENV : option string;
  COOKIE_DOMAIN : option string;
  CLIENT_URL : option string;
  GOOGLE_CLIENT_ID : option string
}.

(** The libraries called, and the two declarations of the Prisma schema
    the controller depends on: how a primary key is made from the table's
    counter, and the default of [User.isVerified]. *)
Class Externals := {
  (** [bcryptjs.hash(s, rounds)], with the salt it draws *)
  bcrypt_hash : string -> Z -> string -> string;
  (** [bcryptjs.compare(s, hash)] *)
  bcrypt_compare : string -> string -> bool;
  (** [validator.isEmail] *)
  isEmail : string -> bool;
  (** [jwt.sign(payload, secret, { expiresIn })] at a given time *)
  jwt_sign : JwtPayload -> string -> string -> Z -> string;
  (** [jwt.verify(token, secret)] at a given time; [None] when it throws *)
  jwt_verify : string -> string -> Z -> option JwtPayload;
  (** [new OAuth2Client(clientId).verifyIdToken({ idToken, audience })] *)
  verifyIdToken : option string -> string -> option string -> LoginTicket;
  (** [sesClient.send]: [None] when the command is accepted, the message of
      the error otherwise *)
  ses_send : Mail -> option string;
  new_id : nat -> string;
  isVerified_default : bool;
  env : ProcessEnv
}.

(** What one request draws from the clock and the random sources. *)
Record Runtime := {
  date_now : Z;                       (* Date.now(), new Date() *)
  math_random : F64.t;                (* Math.random() *)
  crypto_randomBytes : list Byte.byte; (* crypto.randomBytes(32) *)
  nanoid : string;                    (* nanoid(8) *)
  bcrypt_salt : string                (* the salt bcryptjs.hash generates *)
}.

Section Controller.

Context {ext : Externals}.

(** ** The Prisma client *)

Definition user_by_email (email : string) (d : Store) : option User :=
  find (fun u => String.eqb (user_email u) email) (users d).

Definition user_by_id (id : string) (d : Store) : option User :=
  find (fun u => String.eqb (user_id u) id) (users d).

Definition token_by_id (id : string) (table : list Token) : option Token :=
  find (fun t => String.eqb (tok_id t) id) table.

(** [prisma.user.findUnique({ where: { email } })] *)
Definition prisma_user_findUnique_email (email : string) : M (option User) :=
  fun s => (Returned (user_by_email email (db s)), log_call user_findUnique s).

(** [prisma.user.findUnique({ where: { id } })] *)
Definition prisma_user_findUnique_id (id : string) : M (option User) :=
  fun s => (Returned (user_by_id id (db s)), log_call user_findUnique s).

Definition insert_user (u : User) (d : Store) : Store :=
  {| users := users d ++ [u];
     verificationTokens := verificationTokens d;
     passwordResetTokens := passwordResetTokens d;
     next_user := S (next_user d);
     next_verificationToken := next_verificationToken d;
     next_passwordResetToken := next_passwordResetToken d |}.

(** [prisma.user.create({ data: { email, password, name, isVerified? } })]:
    [email] is a unique column (it is a [findUnique] key), so a second row
    with the same email is refused. *)
Definition prisma_user_create (email password name : string) (isVerified : option bool)
  : M User :=
  fun s =>
    let s := log_call user_create s in
    match user_by_email email (db s) with
    | Some _ => (Thrown (PrismaError "P2002"), s)
    | None =>
        let u := {| user_id := new_id (next_user (db s));
                    user_email := email;
                    user_password := password;
                    user_name := name;
                    user_isVerified := match isVerified with
                                       | Some b => b
                                       | None => isVerified_default
                                       end |} in
        (Returned u, with_db (insert_user u) s)
    end.

Definition update_user (id : string) (f : User -> User) (d : Store) : Store :=
  {| users := map (fun u => if String.eqb (user_id u) id then f u else u) (users d);
     verificationTokens := verificationTokens d;
     passwordResetTokens := passwordResetTokens d;
     next_user := next_user d;
     next_verificationToken := next_verificationToken d;
     next_passwordResetToken := next_passwordResetToken d |}.

(** [prisma.user.update({ where: { id }, data })]; [data] is the change [f]
    of the columns it names.  Rejects when no row has the id. *)
Definition prisma_user_update (id : string) (f : User -> User) : M User :=
  fun s =>
    let s := log_call user_update s in
    match user_by_id id (db s) with
    | None => (Thrown (PrismaError "P2025"), s)
    | Some u => (Returned (f u), with_db (update_user id f) s)
    end.

(** [data: { isVerified: true }] *)
Definition set_isVerified (u : User) : User :=
  {| user_id := user_id u; user_email := user_email u; user_password := user_password u;
     user_name := user_name u; user_isVerified := true |}.

(** [data: { password }] *)
Definition set_password (password : string) (u : User) : User :=
  {| user_id := user_id u; user_email := user_email u; user_password := password;
     user_name := user_name u; user_isVerified := user_isVerified u |}.

Definition insert_verificationToken (t : Token) (d : Store) : Store :=
  {| users := users d;
     verificationTokens := verificationTokens d ++ [t];
     passwordResetTokens := passwordResetTokens d;
     next_user := next_user d;
     next_verificationToken := S (next_verificationToken d);
     next_passwordResetToken := next_passwordResetToken d |}.

(** [prisma.verificationToken.create({ data: { token, expiresAt, userId } })].
    The controller looks token rows up with [findFirst] and deletes them by
    [id]: the primary key is the only unique column of the two token tables
    it relies on, and a row is inserted whatever the table holds. *)
Definition prisma_verificationToken_create (token : string) (expiresAt : Z) (userId : string)
  : M Token :=
  fun s =>
    let s := log_call verificationToken_create s in
    let t := {| tok_id := new_id (next_verificationToken (db s));
                tok_token := token; tok_expiresAt := expiresAt; tok_userId := userId |} in
    (Returned t, with_db (insert_verificationToken t) s).

(** [prisma.verificationToken.findFirst({ where: { userId, token,
    expiresAt: { gt } } })] *)
Definition prisma_verificationToken_findFirst (userId token : string) (gt : Z)
  : M (option Token) :=
  fun s =>
    (Returned (find (fun t => String.eqb (tok_userId t) userId
                              && String.eqb (tok_token t) token
                              && (gt <? tok_expiresAt t))
                    (verificationTokens (db s))),
     log_call verificationToken_findFirst s).

Definition remove_token (id : string) (table : list Token) : list Token :=
  filter (fun t => negb (String.eqb (tok_id t) id)) table.

Definition delete_verificationToken (id : string) (d : Store) : Store :=
  {| users := users d;
     verificationTokens := remove_token id (verificationTokens d);
     passwordResetTokens := passwordResetTokens d;
     next_user := next_user d;
     next_verificationToken := next_verificationToken d;
     next_passwordResetToken := next_passwordResetToken d |}.

(** [prisma.verificationToken.delete({ where: { id } })] *)
Definition prisma_verificationToken_delete (id : string) : M Token :=
  fun s =>
    let s := log_call verificationToken_delete s in
    match token_by_id id (verificationTokens (db s)) with
    | None => (Thrown (PrismaError "P2025"), s)
    | Some t => (Returned t, with_db (delete_verificationToken id) s)
    end.

Definition insert_passwordResetToken (t : Token) (d : Store) : Store :=
  {| users := users d;
     verificationTokens := verificationTokens d;
     passwordResetTokens := passwordResetTokens d ++ [t];
     next_user := next_user d;
     next_verificationToken := next_verificationToken d;
     next_passwordResetToken := S (next_passwordResetToken d) |}.

(** [prisma.passwordResetToken.create({ data: { token, expiresAt, userId } })] *)
Definition prisma_passwordResetToken_create (token : string) (expiresAt : Z) (userId : string)
  : M Token :=
  fun s =>
    let s := log_call passwordResetToken_create s in
    let t := {| tok_id := new_id (next_passwordResetToken (db s));
                tok_token := token; tok_expiresAt := expiresAt; tok_userId := userId |} in
    (Returned t, with_db (insert_passwordResetToken t) s).

(** [prisma.passwordResetToken.findFirst({ where: { token,
    expiresAt: { gt } } })] *)
Definition prisma_passwordResetToken_findFirst (token : string) (gt : Z)
  : M (option Token) :=
  fun s =>
    (Returned (find (fun t => String.eqb (tok_token t) token && (gt <? tok_expiresAt t))
                    (passwordResetTokens (db s))),
     log_call passwordResetToken_findFirst s).

Definition delete_passwordResetToken (id : string) (d : Store) : Store :=
  {| users := users d;
     verificationTokens := verificationTokens d;
     passwordResetTokens := remove_token id (passwordResetTokens d);
     next_user := next_user d;
     next_verificationToken := next_verificationToken d;
     next_passwordResetToken := next_passwordResetToken d |}.

(** [prisma.passwordResetToken.delete({ where: { id } })] *)
Definition prisma_passwordResetToken_delete (id : string) : M Token :=
  fun s =>
    let s := log_call passwordResetToken_delete s in
    match token_by_id id (passwordResetTokens (db s)) with
    | None => (Thrown (PrismaError "P2025"), s)
    | Some t => (Returned t, with_db (delete_passwordResetToken id) s)
    end.

(** ** mail-service/emails.ts *)

(** [try { await sesClient.send(command) } catch (error) { throw new
    Error(`Failed to send <what>: ${error.message}`) }] *)
Definition send_command (m : Mail) (what : string) : M unit :=
  fun s =>
    let s := log_mail m s in
    match ses_send m with
    | None => (Returned tt, s)
    | Some error_message =>
        (Thrown (Error ("Failed to send " ++ what ++ ": " ++ error_message)), s)
    end.

Definition sendVerificationEmail (email verificationToken : string) : M unit :=
  send_command (VerificationEmail email verificationToken) "verification email".

Definition sendWelcomeEmail (email name : string) : M unit :=
  send_command (WelcomeEmail email name) "welcome email".

Definition sendPasswordResetEmail (email resetURL : string) : M unit :=
  send_command (PasswordResetEmail email resetURL) "password reset email".

Definition sendResetSuccessEmail (email : string) : M unit :=
  send_command (ResetSuccessEmail email) "password reset success email".

(** ** utils/generateTokenAndSetCookie.ts *)

Definition generateTokenAndSetCookie (now : Z) (userId email : string) : M string :=
  let token :=
    jwt_sign {| jwt_userId := userId; jwt_email := email |} (JWT_SECRET env) "7d" now in
  let isProduction :=
    if negb (falsy (NODE_ENV env))
    then String.eqb (str (NODE_ENV env)) "production"
    else true in
  res_cookie "token" token
    {| httpOnly := true;
       secure := isProduction;
       sameSite := "strict";
       maxAge := Some (1000 * 60 * 60 * 24 * 7);
       domain := if isProduction then COOKIE_DOMAIN env else None;
       path := "/" |} ;;
  ret token.

(** ** The controller *)

(** The constant the two verification-code expiries add to [Date.now()]. *)
Definition verification_lifetime : Z := 1000 * 60 * 60 * 24.

(** The constant the reset-token expiry adds to [Date.now()]. *)
Definition reset_lifetime : Z := 1000 * 60 * 60.

Definition userData_of (u : User) : UserData :=
  {| ud_userId := user_id u; ud_email := user_email u; ud_isVerified := user_isVerified u |}.

Definition signup (rt : Runtime) (email password name : option string) : M unit :=
  if falsy email || falsy name || falsy password then
    fail 400 "All fields are required"
  else if negb (isEmail (str email)) then
    fail 400 "Please enter a valid email"
  else
    userAlreadyExists <- prisma_user_findUnique_email (str email) ;;
    match userAlreadyExists with
    | Some _ => fail 400 "User already exists"
    | None =>
        let hashedPassword := bcrypt_hash (str password) 10 (bcrypt_salt rt) in
        user <- prisma_user_create (str email) hashedPassword (str name) None ;;
        let verificationToken := verificationCode (math_random rt) in
        _ <- prisma_verificationToken_create verificationToken
               (date_now rt + verification_lifetime) (user_id user) ;;
        sendWelcomeEmail (user_email user) (user_name user) ;;
        sendVerificationEmail (user_email user) verificationToken ;;
        _ <- generateTokenAndSetCookie (date_now rt) (user_id user) (user_email user) ;;
        res_status 201 ;;
        res_json {| success := true;
                    message := "User created successfully";
                    userData := Some (userData_of user) |}
    end.

Definition verifyEmail (rt : Runtime) (code email : option string) : M unit :=
  if falsy code || falsy email then
    fail 400 "Please fill all the details"
  else if negb (isEmail (str email)) then
    fail 400 "Please enter a valid email"
  else
    user <- prisma_user_findUnique_email (str email) ;;
    match user with
    | None => fail 404 "User not found"
    | Some user =>
        validToken <- prisma_verificationToken_findFirst (user_id user) (str code) (date_now rt) ;;
        match validToken with
        | None => fail 403 "Invalid or expired verification code"
        | Some validToken =>
            updatedUser <- prisma_user_update (user_id user) set_isVerified ;;
            _ <- prisma_verificationToken_delete (tok_id validToken) ;;
            _ <- generateTokenAndSetCookie (date_now rt)
                   (user_id updatedUser) (user_email updatedUser) ;;
            res_status 200 ;;
            res_json {| success := true;
                        message := "Email verified successfully";
                        userData := Some (userData_of updatedUser) |}
        end
    end.

Definition regenerateVerificationToken (rt : Runtime) (email : option string) : M unit :=
  if falsy email then
    fail 400 "Please fill all the details"
  else if negb (isEmail (str email)) then
    fail 400 "Please enter a valid email"
  else
    user <- prisma_user_findUnique_email (str email) ;;
    match user with
    | None => fail 400 "Invalid user"
    | Some user =>
        if user_isVerified user then
          fail 400 "User already verified"
        else
          let verificationToken := verificationCode (math_random rt) in
          _ <- prisma_verificationToken_create verificationToken
                 (date_now rt + verification_lifetime) (user_id user) ;;
          sendVerificationEmail (user_email user) verificationToken ;;
          res_status 200 ;;
          res_json {| success := true;
                      message := "Verification token regenerated successfully";
                      userData := Some (userData_of user) |}
    end.

Definition logout : M unit :=
  let isProduction :=
    match NODE_ENV env with
    | Some v => String.eqb v "production"
    | None => false
    end in
  res_clearCookie "token"
    {| httpOnly := true;
       secure := isProduction;
       sameSite := "strict";
       maxAge := None;
       domain := if isProduction then COOKIE_DOMAIN env else None;
       path := "/" |} ;;
  res_status 200 ;;
  res_json {| success := true; message := "Logged out successfully"; userData := None |}.

Definition login (rt : Runtime) (email password : option string) : M unit :=
  if falsy email || falsy password then
    fail 400 "Please provide both email and password"
  else if negb (isEmail (str email)) then
    fail 400 "Please enter a valid email"
  else
    user <- prisma_user_findUnique_email (str email) ;;
    match user with
    | None => fail 400 "User does not exist"
    | Some user =>
        let isPasswordValid := bcrypt_compare (str password) (user_password user) in
        if negb isPasswordValid then
          fail 400 "Invalid credentials"
        else
          _ <- generateTokenAndSetCookie (date_now rt) (user_id user) (user_email user) ;;
          res_status 200 ;;
          res_json {| success := true;
                      message := "User logged in successfully";
                      userData := Some (userData_of user) |}
    end.

(** [`${process.env.CLIENT_URL}/reset-password/${resetPasswordToken}`] *)
Definition resetURL_of (resetPasswordToken : string) : string :=
  match CLIENT_URL env with
  | Some url => url
  | None => "undefined"
  end ++ "/reset-password/" ++ resetPasswordToken.

Definition forgotPassword (rt : Runtime) (email : option string) : M unit :=
  if falsy email then
    fail 400 "Email is required"
  else if negb (isEmail (str email)) then
    fail 400 "Please enter a valid email"
  else
    user <- prisma_user_findUnique_email (str email) ;;
    match user with
    | None => fail 400 "Invalid credentials"
    | Some user =>
        let resetPasswordToken := Buffer_toString_hex (crypto_randomBytes rt) in
        let resetPasswordExpiresAt := date_now rt + reset_lifetime in
        _ <- prisma_passwordResetToken_create resetPasswordToken resetPasswordExpiresAt
               (user_id user) ;;
        let resetURL := resetURL_of resetPasswordToken in
        sendPasswordResetEmail (user_email user) resetURL ;;
        res_status 200 ;;
        res_json {| success := true;
                    message := "Password reset link sent to your email";
                    userData := None |}
    end.

(** [token] comes from [req.params], [password] from [req.body]. *)
Definition resetPassword (rt : Runtime) (token password : option string) : M unit :=
  if falsy token || falsy password then
    fail 400 "Reset token and new password are required"
  else
    resetToken <- prisma_passwordResetToken_findFirst (str token) (date_now rt) ;;
    match resetToken with
    | None => fail 400 "Invalid or expired reset token"
    | Some resetToken =>
        let hashedPassword := bcrypt_hash (str password) 10 (bcrypt_salt rt) in
        _ <- prisma_user_update (tok_userId resetToken) (set_password hashedPassword) ;;
        _ <- prisma_passwordResetToken_delete (tok_id resetToken) ;;
        user <- prisma_user_findUnique_id (tok_userId resetToken) ;;
        match user with
        | Some user => sendResetSuccessEmail (user_email user)
        | None => ret tt
        end ;;
        res_status 200 ;;
        res_json {| success := true; message := "Password reset successful"; userData := None |}
    end.

(** [token] is [req.cookies.token].  The two assignments to [req] leave the
    store, the mailer and the response alone and are not represented. *)
Definition checkAuth (rt : Runtime) (token : option string) : M unit :=
  if falsy token then
    fail 401 "Unauthorized – no token provided"
  else
    match jwt_verify (str token) (JWT_SECRET env) (date_now rt) with
    | None => fail 401 "Unauthorized – Invalid or expired token"
    | Some decoded =>
        user <- prisma_user_findUnique_id (jwt_userId decoded) ;;
        match user with
        | None => fail 401 "Unauthorized – User no longer exists"
        | Some user =>
            res_status 200 ;;
            res_json {| success := true;
                        message := "User verified successfully";
                        userData := Some (userData_of user) |}
        end
    end.

(** [email_verified] is an optional boolean: [!email_verified]. *)
Definition not_verified (v : option bool) : bool :=
  match v with
  | Some true => false
  | _ => true
  end.

Definition google (rt : Runtime) (idToken : option string) : M unit :=
  if falsy idToken then
    fail 400 "Google ID token is required"
  else
    match verifyIdToken (GOOGLE_CLIENT_ID env) (str idToken) (GOOGLE_CLIENT_ID env) with
    | VerifyRejected => throw (LibraryError "google-auth-library")
    | Ticket None => fail 400 "Invalid Google token payload"
    | Ticket (Some payload) =>
        let email := gp_email payload in
        let name := gp_name payload in
        if falsy email || falsy name then
          fail 400 "Google account must have an email and name"
        else if not_verified (gp_email_verified payload) then
          fail 403 "Email not verified by Google"
        else
          found <- prisma_user_findUnique_email (str email) ;;
          user <- match found with
                  | None =>
                      let hashedPassword := bcrypt_hash (nanoid rt) 10 (bcrypt_salt rt) in
                      user <- prisma_user_create (str email) hashedPassword (str name)
                                (Some true) ;;
                      sendWelcomeEmail (user_email user) (user_name user) ;;
                      ret user
                  | Some user =>
                      if negb (user_isVerified user)
                      then prisma_user_update (user_id user) set_isVerified
                      else ret user
                  end ;;
          _ <- generateTokenAndSetCookie (date_now rt) (user_id user) (user_email user) ;;
          res_status 200 ;;
          res_json {| success := true;
                      message := "User logged in successfully";
                      userData := Some {| ud_userId := user_id user;
                                          ud_email := user_email user;
                                          ud_isVerified := true |} |}
    end.

(** ** Requests

    The nine exported handlers, each with the fields it reads off the
    request. *)
Inductive Request :=
| Signup (email password name : option string)
| VerifyEmail (code email : option string)
| RegenerateVerificationToken (email : option string)
| Logout
| Login (email password : option string)
| ForgotPassword (email : option string)
| ResetPassword (token password : option string)
| CheckAuth (token : option string)
| Google (idToken : option string).

Definition handler (rt : Runtime) (rq : Request) : M unit :=
  match rq with
  | Signup email password name => signup rt email password name
  | VerifyEmail code email => verifyEmail rt code email
  | RegenerateVerificationToken email => regenerateVerificationToken rt email
  | Logout => logout
  | Login email password => login rt email password
  | ForgotPassword email => forgotPassword rt email
  | ResetPassword token password => resetPassword rt token password
  | CheckAuth token => checkAuth rt token
  | Google idToken => google rt idToken
  end.

(** A request meets the state left by the requests before it, with a
    response object of its own. *)
Definition fresh (s : State) : State :=
  {| db := db s; sent := sent s; calls := calls s; res := new_response |}.

Definition serve (rt : Runtime) (rq : Request) (s : State) : outcome unit * State :=
  handler rt rq (fresh s).

Definition initial_state (d : Store) : State :=
  {| db := d; sent := []; calls := []; res := new_response |}.

(** The state after a sequence of requests, each with its own draws. *)
Fixpoint serve_all (rqs : list (Runtime * Request)) (s : State) : State :=
  match rqs with
  | [] => s
  | (rt, rq) :: rest => serve_all rest (snd (serve rt rq s))
  end.

End Controller.

(** ** A sample deployment

    Stand-ins for the libraries, on which the model runs by computation.
    They are used to evaluate the handlers on concrete requests; no property
    of the controller is derived from them. *)

Fixpoint contains_at (s : string) : bool :=
  match s with
  | EmptyString => false
  | String c rest => Ascii.eqb c "@" || contains_at rest
  end.

Definition sample_env : ProcessEnv :=
  {| JWT_SECRET := "secret";
     NODE_ENV := Some "development";
     COOKIE_DOMAIN := None;
     CLIENT_URL := Some "http://localhost:5173";
     GOOGLE_CLIENT_ID := Some "client-id" |}.

Definition sample : Externals :=
  {| bcrypt_hash := fun s _ salt => "$2a$10$" ++ salt ++ "$" ++ s;
     bcrypt_compare := fun s hash => String.eqb hash ("$2a$10$salt$" ++ s);
     isEmail := contains_at;
     jwt_sign := fun p secret _ _ => secret ++ "." ++ jwt_userId p;
     jwt_verify := fun token _ _ =>
       if String.eqb token "" then None
       else Some {| jwt_userId := "u0"; jwt_email := token |};
     verifyIdToken := fun _ idToken _ =>
       Ticket (Some {| gp_email := Some idToken; gp_name := Some "G";
                       gp_email_verified := Some true |});
     ses_send := fun _ => None;
     new_id := fun n => Number_toString (Z.of_nat n);
     isVerified_default := false;
     env := sample_env |}.

Definition sample_runtime : Runtime :=
  {| date_now := 1000;
     math_random := 2 ^ 1073;
     crypto_randomBytes := [Byte.x0a; Byte.xff];
     nanoid := "V1StGXR8";
     bcrypt_salt := "salt" |}.

Definition alice : User :=
  {| user_id := "0"; user_email := "a@x.io"; user_password := "$2a$10$salt$pw";
     user_name := "Alice"; user_isVerified := false |}.

(** Alice with two unexpired verification codes and one reset token. *)
Definition sample_store : Store :=
  {| users := [alice];
     verificationTokens :=
       [ {| tok_id := "0"; tok_token := "550000"; tok_expiresAt := 5000; tok_userId := "0" |};
         {| tok_id := "1"; tok_token := "325000"; tok_expiresAt := 6000; tok_userId := "0" |} ];
     passwordResetTokens :=
       [ {| tok_id := "0"; tok_token := "0aff"; tok_expiresAt := 5000; tok_userId := "0" |} ];
     next_user := 1;
     next_verificationToken := 2;
     next_passwordResetToken := 1 |}.

(** A later request, whose [Math.random()] differs from the first one's and
    rounds to the same code. *)
Definition later_runtime : Runtime :=
  {| date_now := 2000;
     math_random := 2 ^ 1073 + 2 ^ 1040;
     crypto_randomBytes := [Byte.x0a; Byte.xff];
     nanoid := "Uakgb_J5";
     bcrypt_salt := "salt" |}.

(** A request between the two, whose [Math.random()] is 0.25 and gives
    another code, and whose random bytes give another reset token. *)
Definition third_runtime : Runtime :=
  {| date_now := 1500;
     math_random := 2 ^ 1072;
     crypto_randomBytes := [Byte.x12; Byte.x34];
     nanoid := "dBv1Zk0q";
     bcrypt_salt := "salt" |}.

(** A second deployment: keys are tallies, a session token is the id and the
    email around a colon and can be read back, the ID token "forged" is
    rejected by Google, and SES refuses welcome mails. *)
Fixpoint tally (n : nat) : string :=
  match n with
  | O => "k"
  | S n => String "i" (tally n)
  end.

Fixpoint before_colon (s : string) : option string :=
  match s with
  | EmptyString => None
  | String c rest =>
      if Ascii.eqb c ":" then Some EmptyString
      else match before_colon rest with
           | Some head => Some (String c head)
           | None => None
           end
  end.

Fixpoint after_colon (s : string) : string :=
  match s with
  | EmptyString => EmptyString
  | String c rest => if Ascii.eqb c ":" then rest else after_colon rest
  end.

Definition second : Externals :=
  {| bcrypt_hash := fun s _ salt => "$2a$10$" ++ salt ++ "$" ++ s;
     bcrypt_compare := fun s hash => String.eqb hash ("$2a$10$salt$" ++ s);
     isEmail := contains_at;
     jwt_sign := fun p _ _ _ => jwt_userId p ++ ":" ++ jwt_email p;
     jwt_verify := fun token _ _ =>
       match before_colon token with
       | Some id => Some {| jwt_userId := id; jwt_email := after_colon token |}
       | None => None
       end;
     verifyIdToken := fun _ idToken _ =>
       if String.eqb idToken "forged" then VerifyRejected
       else Ticket (Some {| gp_email := Some idToken; gp_name := Some "G";
                            gp_email_verified := Some true |});
     ses_send := fun mail =>
       match mail with
       | WelcomeEmail _ _ => Some "Throttling"
       | _ => None
       end;
     new_id := tally;
     isVerified_default := false;
     env := sample_env |}.

(** The state after Bob has signed up with an empty store, in each of the
    two deployments. *)
Definition bob_signed_up : State :=
  snd (@serve sample sample_runtime (Signup (Some "b@x.io") (Some "hunter2") (Some "Bob"))
         (initial_state empty_store)).

Definition bob_signed_up_second : State :=
  snd (@serve second sample_runtime (Signup (Some "b@x.io") (Some "hunter2") (Some "Bob"))
         (initial_state empty_store)).

(** ** Proof support *)

(** Unfolds one layer of the monad and of the primitives over the state. *)
Ltac step :=
  unfold bind, ret, throw, fail, res_status, res_json, res_cookie, res_clearCookie,
    with_res, with_db, log_call, log_mail, fresh,
    insert_user, update_user, insert_verificationToken, delete_verificationToken,
    insert_passwordResetToken, delete_passwordResetToken in *;
  cbn [fst snd db sent calls res statusCode setCookie body
       users verificationTokens passwordResetTokens
       next_user next_verificationToken next_passwordResetToken] in *.

(** Case analysis on whatever the goal branches on. *)
Ltac branch :=
  match goal with
  | |- context [match ?x with _ => _ end] =>
      lazymatch x with
      | match _ with _ => _ end => fail
      | (match _ with _ => _ end) _ => fail
      | _ => destruct x eqn:?
      end
  end.

(** Closes a goal made of conjunctions and existentials over facts that hold
    by computation. *)
Ltac by_computation :=
  repeat match goal with
         | |- _ /\ _ => split
         | |- exists _, _ => eexists
         end;
  reflexivity.

(** ** Vocabulary of the properties *)

Section Vocabulary.

Context {ext : Externals}.

(** The filter of [verificationToken.findFirst], as a proposition. *)
Definition valid_verificationToken (userId code : string) (now : Z) (t : Token) : Prop :=
  tok_userId t = userId /\ tok_token t = code /\ now < tok_expiresAt t.

(** The filter of [passwordResetToken.findFirst], as a proposition. *)
Definition valid_passwordResetToken (token : string) (now : Z) (t : Token) : Prop :=
  tok_token t = token /\ now < tok_expiresAt t.

(** A required field of the request is missing, or the email supplied
    fails [validator.isEmail]: per handler, the fields it requires. *)
Definition missing_or_invalid (rq : Request) : bool :=
  match rq with
  | Signup email password name =>
      falsy email || falsy name || falsy password || negb (isEmail (str email))
  | VerifyEmail code email =>
      falsy code || falsy email || negb (isEmail (str email))
  | RegenerateVerificationToken email =>
      falsy email || negb (isEmail (str email))
  | Logout => false
  | Login email password =>
      falsy email || falsy password || negb (isEmail (str email))
  | ForgotPassword email =>
      falsy email || negb (isEmail (str email))
  | ResetPassword token password =>
      falsy token || falsy password
  | CheckAuth token => falsy token
  | Google idToken => falsy idToken
  end.

(** The request gets through the checks a handler makes before it turns to
    the store.  [logout] makes none. *)
Definition passes_validation (rt : Runtime) (rq : Request) : bool :=
  match rq with
  | Logout => false
  | CheckAuth token =>
      negb (falsy token) &&
      match jwt_verify (str token) (JWT_SECRET env) (date_now rt) with
      | Some _ => true
      | None => false
      end
  | Google idToken =>
      negb (falsy idToken) &&
      match verifyIdToken (GOOGLE_CLIENT_ID env) (str idToken) (GOOGLE_CLIENT_ID env) with
      | Ticket (Some payload) =>
          negb (falsy (gp_email payload) || falsy (gp_name payload)) &&
          negb (not_verified (gp_email_verified payload))
      | _ => false
      end
  | _ => negb (missing_or_invalid rq)
  end.

(** The value is an output of [bcryptjs.hash] at cost 10. *)
Definition bcrypt_hashed (h : string) : Prop :=
  exists plain salt, h = bcrypt_hash plain 10 salt.

(** Every persisted user record holds a hashed password. *)
Definition passwords_hashed (d : Store) : Prop :=
  Forall (fun u => bcrypt_hashed (user_password u)) (users d).

(** The plaintext a request can cause to be written to a password column:
    the password submitted to [signup] or [resetPassword], the random
    placeholder of [google]. *)
Definition password_submitted (rt : Runtime) (rq : Request) : option string :=
  match rq with
  | Signup _ password _ => Some (str password)
  | ResetPassword _ password => Some (str password)
  | Google _ => Some (nanoid rt)
  | _ => None
  end.

(** Every row of the two token tables refers to an existing user (the
    relation from a token to its user). *)
Definition references_users (d : Store) : Prop :=
  forall t, In t (verificationTokens d) \/ In t (passwordResetTokens d) ->
            exists u, user_by_id (tok_userId t) d = Some u.

(** [resetPassword] has accepted the submitted token: it matched a stored,
    unexpired row carrying it, stored the hash of the new password for the
    user of that row and deleted the row; it answers 200 unless SES rejects
    the confirmation mail. *)
Definition resetPassword_accepted (rt : Runtime) (token password : option string)
    (s : State) : Prop :=
  let r := serve rt (ResetPassword token password) s in
  exists found,
    In found (passwordResetTokens (db s)) /\
    valid_passwordResetToken (str token) (date_now rt) found /\
    db (snd r) =
    delete_passwordResetToken (tok_id found)
      (update_user (tok_userId found)
         (set_password (bcrypt_hash (str password) 10 (bcrypt_salt rt))) (db s)) /\
    (fst r = Returned tt /\ statusCode (res (snd r)) = 200 \/
     exists error_message,
       fst r = Thrown (Error ("Failed to send password reset success email: "
                              ++ error_message))).

(** The states the server can be in: it starts on an empty store and
    serves one request after the other. *)
Inductive reachable : State -> Prop :=
| reachable_start : reachable (initial_state empty_store)
| reachable_serve rt rq s : reachable s -> reachable (snd (serve rt rq s)).

(** The primary keys of a table: pairwise distinct, each made from a value
    the table's counter has already passed. *)
Definition keyed (ids : list string) (counter : nat) : Prop :=
  NoDup ids /\
  forall id, In id ids -> exists k, (k < counter)%nat /\ id = new_id k.

Definition well_keyed (d : Store) : Prop :=
  keyed (map user_id (users d)) (next_user d) /\
  keyed (map tok_id (verificationTokens d)) (next_verificationToken d) /\
  keyed (map tok_id (passwordResetTokens d)) (next_passwordResetToken d).

(** The value of a hexadecimal digit, to read [Buffer_toString_hex]
    back. *)
Definition hex_value (c : ascii) : N :=
  match c with
  | "0" => 0 | "1" => 1 | "2" => 2 | "3" => 3 | "4" => 4
  | "5" => 5 | "6" => 6 | "7" => 7 | "8" => 8 | "9" => 9
  | "a" => 10 | "b" => 11 | "c" => 12 | "d" => 13 | "e" => 14 | "f" => 15
  | _ => 16
  end%char%N.

(** Every character of the string passes the test. *)
Fixpoint all_chars (p : ascii -> bool) (s : string) : bool :=
  match s with
  | EmptyString => true
  | String c rest => p c && all_chars p rest
  end.

(** The list [l'] is [l] with at least one element added at its end. *)
Definition grows {A} (l l' : list A) : Prop :=
  exists x more, l' = (l ++ x :: more)%list.

End Vocabulary.

Ltac unfold_controller :=
  unfold serve, handler, signup, verifyEmail, regenerateVerificationToken, logout, login,
    forgotPassword, resetPassword, checkAuth, google,
    prisma_user_findUnique_email, prisma_user_findUnique_id, prisma_user_create,
    prisma_user_update, prisma_verificationToken_create, prisma_verificationToken_findFirst,
    prisma_verificationToken_delete, prisma_passwordResetToken_create,
    prisma_passwordResetToken_findFirst, prisma_passwordResetToken_delete,
    sendVerificationEmail, sendWelcomeEmail, sendPasswordResetEmail, sendResetSuccessEmail,
    send_command, generateTokenAndSetCookie in *.

(** Runs a handler symbolically, splitting on every test it makes. *)
Ltac run_all := unfold_controller; step; repeat (branch; step).

(** ** Rounding *)

Module F64Facts.
Import F64.

Lemma pow2_pos s : 0 <= s -> 0 < 2 ^ s.
Proof. intros. apply Z.pow_pos_nonneg; lia. Qed.

Lemma round_ne_mono n n' s :
  0 <= s -> n <= n' -> round_ne n s <= round_ne n' s.
Proof.
  intros Hs Hn. unfold round_ne.
  pose proof (pow2_pos s Hs) as HP.
  pose proof (Z.div_mod n (2 ^ s) ltac:(lia)) as E.
  pose proof (Z.div_mod n' (2 ^ s) ltac:(lia)) as E'.
  pose proof (Z.mod_pos_bound n (2 ^ s) HP) as B.
  pose proof (Z.mod_pos_bound n' (2 ^ s) HP) as B'.
  pose proof (Z.div_le_mono n n' (2 ^ s) HP Hn) as Q.
  set (P := 2 ^ s) in *. set (q := n / P) in *. set (q' := n' / P) in *.
  set (r := n mod P) in *. set (r' := n' mod P) in *.
  destruct (Z.eq_dec q q') as [Eq | Nq].
  - rewrite <- Eq in *.
    assert (r <= r') by nia.
    destruct (Z.ltb_spec (2 * r) P), (Z.ltb_spec (2 * r') P),
             (Z.ltb_spec P (2 * r)), (Z.ltb_spec P (2 * r')),
             (Z.even q); lia.
  - assert (q + 1 <= q') by lia.
    destruct (Z.ltb_spec (2 * r) P), (Z.ltb_spec (2 * r') P),
             (Z.ltb_spec P (2 * r)), (Z.ltb_spec P (2 * r')),
             (Z.even q), (Z.even q'); lia.
Qed.

Lemma round_ne_exact a s : 0 <= s -> round_ne (a * 2 ^ s) s = a.
Proof.
  intros Hs. unfold round_ne. pose proof (pow2_pos s Hs) as HP.
  rewrite Z.div_mul by lia. rewrite Z.mod_mul by lia.
  destruct (Z.ltb_spec (2 * 0) (2 ^ s)); [reflexivity | lia].
Qed.

(** Rounding does not cross a multiple of the unit it rounds to. *)
Lemma round_ne_le n s a : 0 <= s -> n <= a * 2 ^ s -> round_ne n s <= a.
Proof.
  intros Hs H. rewrite <- (round_ne_exact a s Hs). apply round_ne_mono; assumption.
Qed.

Lemma round_ne_ge n s a : 0 <= s -> a * 2 ^ s <= n -> a <= round_ne n s.
Proof.
  intros Hs H. rewrite <- (round_ne_exact a s Hs) at 1. apply round_ne_mono; assumption.
Qed.

Lemma bitlen_nonneg n : 0 <= bitlen n.
Proof.
  unfold bitlen. destruct (Z.leb_spec n 0); [lia|].
  pose proof (Z.log2_nonneg n). lia.
Qed.

Lemma bitlen_mono n n' : n <= n' -> bitlen n <= bitlen n'.
Proof.
  intros H. unfold bitlen.
  destruct (Z.leb_spec n 0), (Z.leb_spec n' 0); try lia.
  - pose proof (Z.log2_nonneg n'). lia.
  - pose proof (Z.log2_le_mono n n' H). lia.
Qed.

Lemma bitlen_upper n : 0 <= n -> n < 2 ^ bitlen n.
Proof.
  intros H. unfold bitlen. destruct (Z.leb_spec n 0).
  - replace n with 0 by lia. reflexivity.
  - pose proof (Z.log2_spec n ltac:(lia)). replace (Z.log2 n + 1) with (Z.succ (Z.log2 n)) by lia.
    lia.
Qed.

Lemma bitlen_lower n : 0 < n -> 2 ^ (bitlen n - 1) <= n.
Proof.
  intros H. unfold bitlen. destruct (Z.leb_spec n 0); [lia|].
  pose proof (Z.log2_spec n ltac:(lia)). replace (Z.log2 n + 1 - 1) with (Z.log2 n) by lia.
  lia.
Qed.

Lemma bitlen_le n j : 0 <= j -> n < 2 ^ j -> bitlen n <= j.
Proof.
  intros Hj H. unfold bitlen. destruct (Z.leb_spec n 0); [lia|].
  assert (Z.log2 n < j); [|lia].
  apply Z.log2_lt_pow2; lia.
Qed.

Lemma round_to_upper n k :
  0 <= n -> 0 <= k -> round_to n k <= 2 ^ Z.max (bitlen n - k) 0.
Proof.
  intros Hn Hk. unfold round_to. cbv zeta.
  pose proof (bitlen_upper n Hn) as U. pose proof (bitlen_nonneg n) as L0.
  assert (Hs : k <= shift n k) by (unfold shift; lia).
  set (s := shift n k) in *.
  destruct (Z.le_gt_cases s (bitlen n)) as [Hle | Hgt].
  - (* the shift leaves bits *)
    assert (round_ne n s <= 2 ^ (bitlen n - s)).
    { apply round_ne_le; [lia|]. rewrite <- Z.pow_add_r by lia.
      replace (bitlen n - s + s) with (bitlen n) by lia. lia. }
    replace (Z.max (bitlen n - k) 0) with ((bitlen n - s) + (s - k)) by lia.
    rewrite Z.pow_add_r by lia.
    pose proof (pow2_pos (s - k) ltac:(lia)). nia.
  - (* every bit is shifted out: here s = k *)
    assert (s = k) by (unfold s, shift, prec in *; lia).
    replace (s - k) with 0 by lia. rewrite Z.mul_1_r.
    assert (round_ne n s <= 1).
    { apply round_ne_le; [lia|]. rewrite Z.mul_1_l.
      assert (2 ^ bitlen n <= 2 ^ s) by (apply Z.pow_le_mono_r; lia). lia. }
    pose proof (pow2_pos (Z.max (bitlen n - k) 0) ltac:(lia)). lia.
Qed.

Lemma round_to_lower n k :
  0 < n -> 0 <= k -> k < bitlen n - prec -> 2 ^ (bitlen n - 1 - k) <= round_to n k.
Proof.
  intros Hn Hk Hb. unfold round_to. cbv zeta.
  assert (Hs : shift n k = bitlen n - prec) by (unfold shift; lia).
  rewrite Hs. unfold prec in *.
  assert (2 ^ 52 <= round_ne n (bitlen n - 53)).
  { apply round_ne_ge; [lia|]. rewrite <- Z.pow_add_r by lia.
    replace (52 + (bitlen n - 53)) with (bitlen n - 1) by lia.
    apply bitlen_lower. exact Hn. }
  replace (bitlen n - 1 - k) with (52 + (bitlen n - 53 - k)) by lia.
  rewrite Z.pow_add_r by lia.
  pose proof (pow2_pos (bitlen n - 53 - k) ltac:(lia)). nia.
Qed.

(** Rounding to the nearest double is monotone. *)
Lemma round_to_mono n n' k :
  0 <= n -> n <= n' -> 0 <= k -> round_to n k <= round_to n' k.
Proof.
  intros Hn Hle Hk.
  pose proof (bitlen_mono n n' Hle) as Hb.
  destruct (Z.eq_dec (shift n k) (shift n' k)) as [Es | Ns].
  - unfold round_to. cbv zeta. rewrite <- Es.
    assert (k <= shift n k) by (unfold shift; lia).
    pose proof (pow2_pos (shift n k - k) ltac:(lia)).
    pose proof (round_ne_mono n n' (shift n k) ltac:(lia) Hle). nia.
  - (* [n'] lies in a higher binade *)
    assert (Hk' : k < bitlen n' - prec) by (unfold shift in *; lia).
    assert (Hlt : bitlen n < bitlen n') by (unfold shift in *; lia).
    assert (Hn' : 0 < n').
    { destruct (Z.leb_spec n' 0) as [Hz|]; [|lia].
      unfold bitlen in Hlt. destruct (Z.leb_spec n' 0); [|lia].
      pose proof (bitlen_nonneg n). unfold bitlen in *. lia. }
    pose proof (round_to_upper n k Hn Hk) as U.
    pose proof (round_to_lower n' k Hn' Hk Hk') as L.
    assert (2 ^ Z.max (bitlen n - k) 0 <= 2 ^ (bitlen n' - 1 - k)).
    { apply Z.pow_le_mono_r; [lia|]. unfold prec in *. lia. }
    lia.
Qed.

Lemma mul_mono a a' b : 0 <= a -> a <= a' -> 0 <= b -> mul a b <= mul a' b.
Proof.
  intros Ha Hle Hb. unfold mul. apply round_to_mono; unfold scale; nia.
Qed.

Lemma add_mono a b b' : 0 <= a -> 0 <= b -> b <= b' -> add a b <= add a b'.
Proof.
  intros Ha Hb Hle. unfold add. apply round_to_mono; lia.
Qed.

Lemma floor_mono a a' : a <= a' -> floor a <= floor a'.
Proof.
  intros H. unfold floor. apply Z.div_le_mono; [apply pow2_pos; unfold scale; lia | exact H].
Qed.

Lemma unit_interval_le r : unit_interval r -> 0 <= r <= pred_one.
Proof.
  intros [[H0 Hm] H1]. split; [exact H0|].
  unfold pred_one, scale, prec in *.
  destruct (Z.le_gt_cases (bitlen r) 53) as [Hs | Hl].
  - pose proof (bitlen_upper r H0).
    assert (2 ^ bitlen r <= 2 ^ 53) by (apply Z.pow_le_mono_r; lia).
    assert (2 ^ 53 <= 2 ^ 1074 - 2 ^ 1021) by (vm_compute; discriminate).
    lia.
  - replace (Z.max (bitlen r - 53) 0) with (bitlen r - 53) in Hm by lia.
    set (e := bitlen r - 53) in *.
    assert (He : 0 < e <= 1021).
    { pose proof (bitlen_le r 1074 ltac:(lia) H1). lia. }
    pose proof (pow2_pos e ltac:(lia)) as HP.
    pose proof (Z.div_mod r (2 ^ e) ltac:(lia)) as E. rewrite Hm in E.
    pose proof (bitlen_upper r H0) as U.
    replace (bitlen r) with (53 + e) in U by lia. rewrite Z.pow_add_r in U by lia.
    assert (r / 2 ^ e <= 2 ^ 53 - 1) by nia.
    assert (2 ^ e <= 2 ^ 1021) by (apply Z.pow_le_mono_r; lia).
    replace (2 ^ 1074 - 2 ^ 1021) with ((2 ^ 53 - 1) * 2 ^ 1021) by (vm_compute; reflexivity).
    nia.
Qed.

(** The model agrees with [SpecFloat] (binary64: precision 53, emax 1024)
    on the operations of the verification code, at the ends of the range of
    [Math.random()] and inside it. *)
Example mul_agrees_at_pred_one :
  of_spec (SpecFloat.SFmul 53 1024 (to_spec pred_one) (to_spec (of_int 900000)))
  = Some (mul pred_one (of_int 900000)).
Proof. vm_compute. reflexivity. Qed.

Example add_agrees_at_pred_one :
  of_spec (SpecFloat.SFadd 53 1024 (to_spec (of_int 100000))
             (to_spec (mul pred_one (of_int 900000))))
  = Some (add (of_int 100000) (mul pred_one (of_int 900000))).
Proof. vm_compute. reflexivity. Qed.

(** 0.1, a double whose product with 900000 must be rounded. *)
Example mul_agrees_at_one_tenth :
  let r := 3602879701896397 * 2 ^ (scale - 55) in
  of_spec (SpecFloat.SFmul 53 1024 (to_spec r) (to_spec (of_int 900000)))
  = Some (mul r (of_int 900000)) /\
  of_spec (SpecFloat.SFadd 53 1024 (to_spec (of_int 100000)) (to_spec (mul r (of_int 900000))))
  = Some (add (of_int 100000) (mul r (of_int 900000))).
Proof. vm_compute. split; reflexivity. Qed.

(** The model reproduces what IEEE 754 hardware computes on the samples. *)
Example ieee_samples_agree : forallb agrees_with_sample ieee_samples = true.
Proof. vm_compute. reflexivity. Qed.

(** The least subnormal. *)
Example mul_agrees_at_min :
  of_spec (SpecFloat.SFmul 53 1024 (to_spec 1) (to_spec (of_int 900000)))
  = Some (mul 1 (of_int 900000)) /\
  of_spec (SpecFloat.SFadd 53 1024 (to_spec (of_int 100000)) (to_spec (mul 1 (of_int 900000))))
  = Some (add (of_int 100000) (mul 1 (of_int 900000))).
Proof. vm_compute. split; reflexivity. Qed.

End F64Facts.

(** ** The verification code *)

Lemma verificationCode_number_range r :
  F64.unit_interval r -> 100000 <= verificationCode_number r <= 999999.
Proof.
  intros H. apply F64Facts.unit_interval_le in H as [H0 H1].
  unfold verificationCode_number.
  assert (C9 : 0 <= F64.of_int 900000) by (vm_compute; discriminate).
  assert (C1 : 0 <= F64.of_int 100000) by (vm_compute; discriminate).
  pose proof (F64Facts.mul_mono r F64.pred_one _ H0 H1 C9) as Hu.
  pose proof (F64Facts.mul_mono 0 r _ (Z.le_refl 0) H0 C9) as Hl.
  change (F64.mul 0 (F64.of_int 900000)) with 0 in Hl.
  pose proof (F64Facts.add_mono _ _ _ C1 Hl Hu) as Au.
  pose proof (F64Facts.add_mono _ _ _ C1 (Z.le_refl 0) Hl) as Al.
  apply F64Facts.floor_mono in Au, Al.
  replace (F64.floor (F64.add (F64.of_int 100000) 0)) with 100000 in Al
    by (vm_compute; reflexivity).
  replace (F64.floor (F64.add (F64.of_int 100000) (F64.mul F64.pred_one (F64.of_int 900000))))
    with 999999 in Au by (vm_compute; reflexivity).
  lia.
Qed.

Lemma decimal_digits_six fuel n acc :
  (6 <= fuel)%nat -> 100000 <= n <= 999999 ->
  String.length (decimal_digits fuel n acc) = (6 + String.length acc)%nat.
Proof.
  intros Hf Hn.
  do 6 (destruct fuel as [|fuel]; [lia|]).
  cbn [decimal_digits].
  destruct (Z.ltb_spec n 10); [lia|].
  destruct (Z.ltb_spec (n / 10) 10);
    [Z.to_euclidean_division_equations; lia|].
  destruct (Z.ltb_spec (n / 10 / 10) 10);
    [Z.to_euclidean_division_equations; lia|].
  destruct (Z.ltb_spec (n / 10 / 10 / 10) 10);
    [Z.to_euclidean_division_equations; lia|].
  destruct (Z.ltb_spec (n / 10 / 10 / 10 / 10) 10);
    [Z.to_euclidean_division_equations; lia|].
  destruct (Z.ltb_spec (n / 10 / 10 / 10 / 10 / 10) 10);
    [|Z.to_euclidean_division_equations; lia].
  reflexivity.
Qed.

Lemma Number_toString_six n :
  100000 <= n <= 999999 -> String.length (Number_toString n) = 6%nat.
Proof.
  intros Hn. unfold Number_toString.
  rewrite decimal_digits_six; [reflexivity | | exact Hn].
  assert (16 <= Z.log2 n); [|lia].
  change 16 with (Z.log2 (2 ^ 16)). apply Z.log2_le_mono. lia.
Qed.

(** The six characters are the six decimal digits, most significant
    first. *)
Lemma Number_toString_digits n :
  100000 <= n <= 999999 ->
  Number_toString n =
  String (digit_char (n / 100000))
    (String (digit_char (n / 10000 mod 10))
       (String (digit_char (n / 1000 mod 10))
          (String (digit_char (n / 100 mod 10))
             (String (digit_char (n / 10 mod 10))
                (String (digit_char (n mod 10)) ""))))).
Proof.
  intros Hn. unfold Number_toString.
  assert (Hf : (6 <= S (Z.to_nat (Z.log2 n)))%nat).
  { assert (16 <= Z.log2 n); [|lia].
    change 16 with (Z.log2 (2 ^ 16)). apply Z.log2_le_mono. lia. }
  destruct (S (Z.to_nat (Z.log2 n))) as [|fuel]; [lia|].
  do 5 (destruct fuel as [|fuel]; [lia|]).
  cbn [decimal_digits].
  destruct (Z.ltb_spec n 10); [lia|].
  destruct (Z.ltb_spec (n / 10) 10);
    [Z.to_euclidean_division_equations; lia|].
  destruct (Z.ltb_spec (n / 10 / 10) 10);
    [Z.to_euclidean_division_equations; lia|].
  destruct (Z.ltb_spec (n / 10 / 10 / 10) 10);
    [Z.to_euclidean_division_equations; lia|].
  destruct (Z.ltb_spec (n / 10 / 10 / 10 / 10) 10);
    [Z.to_euclidean_division_equations; lia|].
  destruct (Z.ltb_spec (n / 10 / 10 / 10 / 10 / 10) 10);
    [|Z.to_euclidean_division_equations; lia].
  repeat match goal with
         | |- String _ _ = String _ _ =>
             apply f_equal2;
             [apply (f_equal digit_char); Z.to_euclidean_division_equations; lia|]
         end.
  reflexivity.
Qed.

Example Number_toString_550000 : Number_toString 550000 = "550000".
Proof. reflexivity. Qed.

Section Properties.

Context {ext : Externals}.

(** ** The token and cookie utility *)

Lemma generateTokenAndSetCookie_run now userId email s :
  generateTokenAndSetCookie now userId email s =
  (Returned (jwt_sign {| jwt_userId := userId; jwt_email := email |} (JWT_SECRET env) "7d" now),
   with_res (fun r =>
     {| statusCode := statusCode r;
        setCookie := setCookie r ++
          [Cookie "token"
             (jwt_sign {| jwt_userId := userId; jwt_email := email |} (JWT_SECRET env) "7d" now)
             {| httpOnly := true;
                secure := if negb (falsy (NODE_ENV env))
                          then String.eqb (str (NODE_ENV env)) "production" else true;
                sameSite := "strict";
                maxAge := Some (1000 * 60 * 60 * 24 * 7);
                domain := if (if negb (falsy (NODE_ENV env))
                              then String.eqb (str (NODE_ENV env)) "production" else true)
                          then COOKIE_DOMAIN env else None;
                path := "/" |}];
        body := body r |}) s).
Proof. reflexivity. Qed.

(** C1.  For every user id and email, [generateTokenAndSetCookie] returns
    the token [jwt.sign] makes from the payload holding exactly that user id
    and email under the server's [JWT_SECRET]; it adds to the response one
    cookie, named "token", whose value is that token and whose [httpOnly]
    option is true; it touches nothing else. *)
Theorem generateTokenAndSetCookie_signs_and_sets_cookie :
  forall (now : Z) (userId email : string) (s : State),
  exists (token : string) (options : CookieOptions) (s' : State),
    generateTokenAndSetCookie now userId email s = (Returned token, s') /\
    token = jwt_sign {| jwt_userId := userId; jwt_email := email |} (JWT_SECRET env) "7d" now /\
    setCookie (res s') = (setCookie (res s) ++ [Cookie "token" token options])%list /\
    httpOnly options = true /\
    statusCode (res s') = statusCode (res s) /\ body (res s') = body (res s) /\
    db s' = db s /\ sent s' = sent s /\ calls s' = calls s.
Proof.
  intros now userId email s.
  rewrite generateTokenAndSetCookie_run.
  eexists _, _, _. split; [reflexivity|].
  cbn. repeat split; reflexivity.
Qed.

(** ** Lookups *)

Lemma find_in_some {A} (f : A -> bool) (l : list A) (x : A) :
  In x l -> f x = true -> exists y, find f l = Some y.
Proof.
  intros Hin Hf. destruct (find f l) eqn:E; [eauto|].
  rewrite (find_none f l E x Hin) in Hf. discriminate.
Qed.

Lemma find_none_of {A} (f : A -> bool) (l : list A) :
  (forall x, In x l -> f x = false) -> find f l = None.
Proof.
  intros H. destruct (find f l) as [x|] eqn:E; [|reflexivity].
  apply find_some in E as [Hin Hf]. rewrite (H x Hin) in Hf. discriminate.
Qed.

Lemma find_map_preserved {A} (p : A -> bool) (g : A -> A) (l : list A) :
  (forall x, p (g x) = p x) -> find p (map g l) = option_map g (find p l).
Proof.
  intros Hp. induction l as [|x l IH]; [reflexivity|].
  cbn. rewrite Hp. destruct (p x); [reflexivity | exact IH].
Qed.

(** An update of some columns of the users with a given id, where the
    change [f] keeps the id: lookups by id see the changed rows. *)
Lemma user_by_id_update id' id f d :
  (forall u, user_id (f u) = user_id u) ->
  user_by_id id' (update_user id f d) =
  option_map (fun u => if String.eqb (user_id u) id then f u else u) (user_by_id id' d).
Proof.
  intros Hf. unfold user_by_id, update_user. cbn [users].
  apply find_map_preserved. intros u.
  destruct (String.eqb (user_id u) id); [rewrite Hf|]; reflexivity.
Qed.

Lemma user_by_email_update email id f d :
  (forall u, user_email (f u) = user_email u) ->
  user_by_email email (update_user id f d) =
  option_map (fun u => if String.eqb (user_id u) id then f u else u) (user_by_email email d).
Proof.
  intros Hf. unfold user_by_email, update_user. cbn [users].
  apply find_map_preserved. intros u.
  destruct (String.eqb (user_id u) id); [rewrite Hf|]; reflexivity.
Qed.

Lemma user_by_email_in email d u :
  user_by_email email d = Some u -> In u (users d) /\ user_email u = email.
Proof.
  unfold user_by_email. intros E. apply find_some in E as [Hin He].
  apply String.eqb_eq in He. auto.
Qed.

Lemma user_by_id_of_member u d :
  In u (users d) -> exists u', user_by_id (user_id u) d = Some u'.
Proof.
  intros Hin. apply (find_in_some _ _ u Hin). apply String.eqb_refl.
Qed.

Lemma token_by_id_of_member t table :
  In t table -> exists t', token_by_id (tok_id t) table = Some t'.
Proof.
  intros Hin. apply (find_in_some _ _ t Hin). apply String.eqb_refl.
Qed.

Lemma valid_verificationToken_test userId code now t :
  String.eqb (tok_userId t) userId && String.eqb (tok_token t) code && (now <? tok_expiresAt t)
  = true <-> valid_verificationToken userId code now t.
Proof.
  unfold valid_verificationToken.
  rewrite !andb_true_iff, !String.eqb_eq, Z.ltb_lt. tauto.
Qed.

(** ** verifyEmail *)

(** The filter of [verificationToken.findFirst], as the code has it. *)
Lemma verifyEmail_found rt code email s user t :
  falsy code = false ->
  falsy email = false ->
  isEmail (str email) = true ->
  user_by_email (str email) (db s) = Some user ->
  find (fun t => String.eqb (tok_userId t) (user_id user)
                 && String.eqb (tok_token t) (str code)
                 && (date_now rt <? tok_expiresAt t))
       (verificationTokens (db s)) = Some t ->
  let r := serve rt (VerifyEmail code email) s in
  fst r = Returned tt /\
  statusCode (res (snd r)) = 200 /\
  db (snd r) =
  delete_verificationToken (tok_id t) (update_user (user_id user) set_isVerified (db s)).
Proof.
  intros Hcode Hemail Hvalid Huser Hfind r.
  subst r. unfold serve, handler, verifyEmail.
  rewrite Hcode, Hemail, Hvalid. cbn [orb negb].
  unfold prisma_user_findUnique_email, prisma_verificationToken_findFirst. step.
  rewrite Huser. step. rewrite Hfind.
  apply find_some in Hfind as [Hin _].
  apply user_by_email_in in Huser as [Hmem _].
  destruct (user_by_id_of_member _ _ Hmem) as [u' Hu'].
  destruct (token_by_id_of_member _ _ Hin) as [t' Ht'].
  unfold prisma_user_update, prisma_verificationToken_delete. step.
  rewrite Hu'. step. rewrite Ht'. step.
  rewrite generateTokenAndSetCookie_run. step. auto.
Qed.

Lemma verifyEmail_not_found rt code email s user :
  falsy code = false ->
  falsy email = false ->
  isEmail (str email) = true ->
  user_by_email (str email) (db s) = Some user ->
  find (fun t => String.eqb (tok_userId t) (user_id user)
                 && String.eqb (tok_token t) (str code)
                 && (date_now rt <? tok_expiresAt t))
       (verificationTokens (db s)) = None ->
  let r := serve rt (VerifyEmail code email) s in
  fst r = Thrown (Error "Invalid or expired verification code") /\
  statusCode (res (snd r)) = 403 /\
  db (snd r) = db s.
Proof.
  intros Hcode Hemail Hvalid Huser Hfind r.
  subst r. unfold serve, handler, verifyEmail.
  rewrite Hcode, Hemail, Hvalid. cbn [orb negb].
  unfold prisma_user_findUnique_email, prisma_verificationToken_findFirst. step.
  rewrite Huser. step. rewrite Hfind. step. auto.
Qed.

(** What a successful [verifyEmail] has done. *)
Lemma verifyEmail_returned rt code email s :
  fst (serve rt (VerifyEmail code email) s) = Returned tt ->
  exists user t,
    falsy code = false /\ falsy email = false /\ isEmail (str email) = true /\
    user_by_email (str email) (db s) = Some user /\
    In t (verificationTokens (db s)) /\
    valid_verificationToken (user_id user) (str code) (date_now rt) t /\
    db (snd (serve rt (VerifyEmail code email) s)) =
    delete_verificationToken (tok_id t) (update_user (user_id user) set_isVerified (db s)) /\
    statusCode (res (snd (serve rt (VerifyEmail code email) s))) = 200.
Proof.
  unfold serve, handler, verifyEmail.
  destruct (falsy code) eqn:Hc; [step; discriminate|].
  destruct (falsy email) eqn:He; [step; discriminate|].
  destruct (isEmail (str email)) eqn:Hv; [|step; discriminate].
  cbn [orb negb]. unfold_controller. step.
  destruct (user_by_email (str email) (db s)) as [user|] eqn:Hu; [|step; discriminate].
  step.
  destruct (find _ (verificationTokens (db s))) as [t|] eqn:Ht; [|step; discriminate].
  step. repeat (branch; step); try discriminate. intros _.
  apply find_some in Ht as [Hin Ht]. apply valid_verificationToken_test in Ht.
  exists user, t. repeat split; auto; apply Ht.
Qed.

(** C2.  [verifyEmail] succeeds (returns, with status 200) if and only if
    the request passes validation, its email is looked up to a user, and the
    verification-token table holds a row whose [userId] is that user's id,
    whose [token] is the submitted code and whose [expiresAt] is strictly
    later than the current time.  When the user is found and there is no
    such row, it sets status 403, throws "Invalid or expired verification
    code" and leaves the whole store, hence the user's verification flag and
    the token table, as it was. *)
Theorem verifyEmail_succeeds_iff_valid_token :
  forall (rt : Runtime) (code email : option string) (s : State),
    let r := serve rt (VerifyEmail code email) s in
    let stored user :=
      exists t, In t (verificationTokens (db s)) /\
                valid_verificationToken (user_id user) (str code) (date_now rt) t in
    ((fst r = Returned tt /\ statusCode (res (snd r)) = 200) <->
     (falsy code = false /\ falsy email = false /\ isEmail (str email) = true /\
      exists user, user_by_email (str email) (db s) = Some user /\ stored user)) /\
    (forall user,
       falsy code = false ->
       falsy email = false ->
       isEmail (str email) = true ->
       user_by_email (str email) (db s) = Some user ->
       ~ stored user ->
       fst r = Thrown (Error "Invalid or expired verification code") /\
       statusCode (res (snd r)) = 403 /\
       db (snd r) = db s).
Proof.
  intros rt code email s r stored. split; [split|].
  - (* a success went through every check and found a row *)
    intros [Hret Hstatus].
    destruct (verifyEmail_returned rt code email s Hret)
      as (user & t & Hc & He & Hv & Hu & Hin & Hval & _).
    repeat (split; [assumption|]). exists user. split; [exact Hu|]. exists t. auto.
  - (* a stored, valid row makes findFirst return one *)
    intros (Hc & He & Hv & user & Hu & t & Hin & Hval).
    apply valid_verificationToken_test in Hval.
    destruct (find_in_some
                (fun t => String.eqb (tok_userId t) (user_id user)
                          && String.eqb (tok_token t) (str code)
                          && (date_now rt <? tok_expiresAt t))
                _ t Hin Hval) as [found Hfound].
    destruct (verifyEmail_found rt code email s user found Hc He Hv Hu Hfound)
      as (Hret & Hstatus & _).
    split; assumption.
  - (* no stored row is valid: findFirst returns nothing *)
    intros user Hc He Hv Hu Hnone.
    apply (verifyEmail_not_found rt code email s user Hc He Hv Hu).
    apply find_none_of. intros t Hin.
    destruct (_ && _) eqn:Hval; [exfalso | reflexivity].
    apply valid_verificationToken_test in Hval. apply Hnone. exists t. auto.
Qed.

(** ** login *)

(** C8.  [login] never modifies the store.  A request without an email or
    without a password (absent or empty) is answered 400 "Please provide
    both email and password", and one whose email fails the format check 400
    "Please enter a valid email", whether or not a user has that email.  On
    a request that carries an email of valid format and a password, it sets
    status 400 and throws "User does not exist" when no user record has the
    email; sets status 400 and throws "Invalid credentials" when
    [bcryptjs.compare] rejects the password against the stored hash; and
    otherwise sets the session cookie and answers 200 with the user's id,
    email and verification flag. *)
Theorem login_validates_credentials :
  forall (rt : Runtime) (email password : option string) (s : State),
    let r := serve rt (Login email password) s in
    db (snd r) = db s /\
    (falsy email || falsy password = true ->
     fst r = Thrown (Error "Please provide both email and password") /\
     statusCode (res (snd r)) = 400) /\
    (falsy email = false ->
     falsy password = false ->
     isEmail (str email) = false ->
     fst r = Thrown (Error "Please enter a valid email") /\
     statusCode (res (snd r)) = 400) /\
    (falsy email = false ->
     falsy password = false ->
     isEmail (str email) = true ->
     (user_by_email (str email) (db s) = None ->
      fst r = Thrown (Error "User does not exist") /\ statusCode (res (snd r)) = 400) /\
     (forall user,
        user_by_email (str email) (db s) = Some user ->
        bcrypt_compare (str password) (user_password user) = false ->
        fst r = Thrown (Error "Invalid credentials") /\ statusCode (res (snd r)) = 400) /\
     (forall user,
        user_by_email (str email) (db s) = Some user ->
        bcrypt_compare (str password) (user_password user) = true ->
        fst r = Returned tt /\
        statusCode (res (snd r)) = 200 /\
        (exists options,
           setCookie (res (snd r)) =
           [Cookie "token"
              (jwt_sign {| jwt_userId := user_id user; jwt_email := user_email user |}
                 (JWT_SECRET env) "7d" (date_now rt))
              options]) /\
        body (res (snd r)) =
        Some {| success := true;
                message := "User logged in successfully";
                userData := Some {| ud_userId := user_id user;
                                    ud_email := user_email user;
                                    ud_isVerified := user_isVerified user |} |})).
Proof.
  intros rt email password s r. split.
  { (* no path of login writes to the store *)
    subst r. run_all; reflexivity. }
  split.
  { (* a field is missing *)
    intros Hmissing. subst r. unfold serve, handler, login.
    rewrite Hmissing. step. split; reflexivity. }
  split.
  { (* the email is not one *)
    intros Hemail Hpassword Hinvalid. subst r. unfold serve, handler, login.
    rewrite Hemail, Hpassword, Hinvalid. cbn [orb negb]. step. split; reflexivity. }
  intros Hemail Hpassword Hvalid.
  subst r. unfold serve, handler, login.
  rewrite Hemail, Hpassword, Hvalid. cbn [orb negb].
  unfold prisma_user_findUnique_email. step.
  destruct (user_by_email (str email) (db s)) as [user|] eqn:Huser.
  - destruct (bcrypt_compare (str password) (user_password user)) eqn:Hcmp; cbn [negb].
    + rewrite generateTokenAndSetCookie_run. step.
      split; [discriminate|]. split.
      * intros u Hu Hf. inversion Hu; subst u. rewrite Hcmp in Hf. discriminate.
      * intros u Hu _. inversion Hu; subst u.
        split; [reflexivity|]. split; [reflexivity|]. split; [|reflexivity].
        eexists. reflexivity.
    + step. split; [discriminate|]. split.
      * intros u Hu _. auto.
      * intros u Hu Ht. inversion Hu; subst u. rewrite Hcmp in Ht. discriminate.
  - step. split; [auto|]. split; intros u Hu; discriminate.
Qed.

(** ** Validation comes first *)

Lemma rejected_run rt rq s :
  missing_or_invalid rq = true ->
  exists msg,
    serve rt rq s =
    (Thrown (Error msg),
     {| db := db s; sent := sent s; calls := calls s;
        res := {| statusCode := match rq with CheckAuth _ => 401 | _ => 400 end;
                  setCookie := [];
                  body := None |} |}).
Proof.
  destruct rq; cbn [missing_or_invalid]; intros H; try discriminate H;
    unfold_controller; step;
    repeat match goal with
           | |- context [if ?b then _ else _] =>
               lazymatch b with
               | context [if _ then _ else _] => fail
               | _ => destruct b eqn:?; cbn [orb negb andb] in *; step
               end
           end;
    try discriminate; eexists; reflexivity.
Qed.

(** C6, as the code has it.  For every handler, on a request whose fields
    are absent or strings: when a required field is missing (or empty) or
    the supplied email fails the format check, the handler throws after
    setting the status, 400 in every handler but [checkAuth], which answers
    a missing token cookie with 401; no Prisma call is made, the store is as
    before and no mail is handed to SES. *)
Theorem validation_precedes_store_access :
  forall (rt : Runtime) (rq : Request) (s : State),
    missing_or_invalid rq = true ->
    let r := serve rt rq s in
    (exists msg, fst r = Thrown (Error msg)) /\
    statusCode (res (snd r)) = match rq with CheckAuth _ => 401 | _ => 400 end /\
    db (snd r) = db s /\ sent (snd r) = sent s /\ calls (snd r) = calls s.
Proof.
  intros rt rq s H r. subst r.
  destruct rq; cbn [missing_or_invalid] in H; unfold serve, handler;
    try discriminate.
  - (* signup *)
    unfold signup. destruct (falsy email || falsy name || falsy password); step.
    + by_computation.
    + cbn [orb] in H. rewrite H. step. by_computation.
  - (* verifyEmail *)
    unfold verifyEmail. destruct (falsy code || falsy email); step.
    + by_computation.
    + cbn [orb] in H. rewrite H. step. by_computation.
  - (* regenerateVerificationToken *)
    unfold regenerateVerificationToken. destruct (falsy email); step.
    + by_computation.
    + cbn [orb] in H. rewrite H. step. by_computation.
  - (* login *)
    unfold login. destruct (falsy email || falsy password); step.
    + by_computation.
    + cbn [orb] in H. rewrite H. step. by_computation.
  - (* forgotPassword *)
    unfold forgotPassword. destruct (falsy email); step.
    + by_computation.
    + cbn [orb] in H. rewrite H. step. by_computation.
  - (* resetPassword *)
    unfold resetPassword. rewrite H. step. by_computation.
  - (* checkAuth *)
    unfold checkAuth. rewrite H. step. by_computation.
  - (* google *)
    unfold google. rewrite H. step. by_computation.
Qed.


(** ** Sessions *)

(** C5.  Every session is issued with one fixed expiry of seven days:
    [generateTokenAndSetCookie] signs with [expiresIn] "7d" and sets the
    cookie's [maxAge] to seven days in milliseconds; every cookie any handler
    sets is such a cookie, at most one per response; and [checkAuth], the one
    handler that receives an existing session token, sets no cookie, so no
    handler refreshes, rotates or extends a session. *)
Theorem sessions_expire_after_seven_days :
  forall (rt : Runtime) (rq : Request) (s : State),
    (forall userId email,
       exists options s',
         generateTokenAndSetCookie (date_now rt) userId email s =
         (Returned (jwt_sign {| jwt_userId := userId; jwt_email := email |}
                      (JWT_SECRET env) "7d" (date_now rt)), s') /\
         setCookie (res s') =
         (setCookie (res s) ++
          [Cookie "token"
             (jwt_sign {| jwt_userId := userId; jwt_email := email |}
                (JWT_SECRET env) "7d" (date_now rt)) options])%list /\
         maxAge options = Some (7 * 24 * 60 * 60 * 1000)) /\
    let r := serve rt rq s in
    (forall name value options,
       In (Cookie name value options) (setCookie (res (snd r))) ->
       name = "token" /\
       maxAge options = Some (7 * 24 * 60 * 60 * 1000) /\
       exists payload, value = jwt_sign payload (JWT_SECRET env) "7d" (date_now rt)) /\
    (List.length (setCookie (res (snd r))) <= 1)%nat /\
    (forall token, rq = CheckAuth token -> setCookie (res (snd r)) = []).
Proof.
  intros rt rq s. split.
  { intros userId email. rewrite generateTokenAndSetCookie_run.
    eexists _, _. split; [reflexivity|]. split; reflexivity. }
  cbv zeta. destruct rq; run_all;
    (split; [| split; [cbn; lia | intros ? E; try discriminate E; reflexivity]]);
    intros cname value options Hin; cbn in Hin;
    repeat match goal with
           | H : _ \/ _ |- _ => destruct H
           | H : False |- _ => destruct H
           | H : Cookie _ _ _ = Cookie _ _ _ |- _ => inversion H; clear H; subst
           | H : ClearCookie _ _ = Cookie _ _ _ |- _ => discriminate H
           end;
    (split; [reflexivity | split; [reflexivity | eexists; reflexivity]]).
Qed.

(** ** What each handler does *)

Lemma logout_run rt s :
  exists options,
    serve rt Logout s =
    (Returned tt,
     {| db := db s; sent := sent s; calls := calls s;
        res := {| statusCode := 200;
                  setCookie := [ClearCookie "token" options];
                  body := Some {| success := true;
                                  message := "Logged out successfully";
                                  userData := None |} |} |}).
Proof. eexists. reflexivity. Qed.

Lemma no_mail_from rt rq s :
  match rq with
  | VerifyEmail _ _ | Login _ _ | Logout | CheckAuth _ => sent (snd (serve rt rq s)) = sent s
  | _ => True
  end.
Proof. destruct rq; try exact I; run_all; reflexivity. Qed.

Lemma grows_one {A} (l : list A) x : grows l (l ++ [x]).
Proof. exists x, []. reflexivity. Qed.

Lemma grows_trans {A} (l l' : list A) x : grows l l' -> grows l (l' ++ [x]).
Proof.
  intros [y [more E]]. exists y, (more ++ [x])%list. rewrite E, <- app_assoc. reflexivity.
Qed.

Lemma store_accessed rt rq s :
  passes_validation rt rq = true -> grows (calls s) (calls (snd (serve rt rq s))).
Proof.
  destruct rq; cbn [passes_validation missing_or_invalid]; intros H;
    try discriminate H; unfold_controller; step.
  all: repeat match type of H with
         | negb _ = true => apply negb_true_iff in H
         | _ && _ = true => apply andb_true_iff in H; destruct H as [? H]
         | _ || _ = false => apply orb_false_iff in H; destruct H as [? H]
         end.
  all: repeat match goal with
         | E : negb _ = true |- _ => apply negb_true_iff in E
         | E : _ || _ = false |- _ => apply orb_false_iff in E; destruct E
         end.
  all: repeat match goal with
         | E : ?b = _ |- context [?b] => rewrite E
         end; cbn [orb negb andb]; step.
  all: repeat (branch; step); try discriminate;
    repeat first [apply grows_one | apply grows_trans].
Qed.

Lemma mail_on_success rt rq s :
  fst (serve rt rq s) = Returned tt ->
  match rq with
  | Signup _ _ _ | RegenerateVerificationToken _ | ForgotPassword _ | ResetPassword _ _ =>
      grows (sent s) (sent (snd (serve rt rq s)))
  | _ => True
  end.
Proof.
  destruct rq; try (intros; exact I); run_all; intros E; try discriminate E;
    repeat first [apply grows_one | apply grows_trans].
  (* resetPassword: the user it has just updated is found again *)
  exfalso.
  match goal with
  | H : user_by_id ?i ?d = None, H0 : user_by_id ?i (db s) = Some _ |- _ =>
      change d with (delete_passwordResetToken (tok_id t)
                       (update_user i (set_password
                          (bcrypt_hash (str password) 10 (bcrypt_salt rt))) (db s))) in H;
      unfold user_by_id, delete_passwordResetToken in H; cbn [users] in H;
      fold (user_by_id i (update_user i (set_password
              (bcrypt_hash (str password) 10 (bcrypt_salt rt))) (db s))) in H;
      rewrite user_by_id_update in H by reflexivity;
      rewrite H0 in H; discriminate H
  end.
Qed.

Lemma google_mail rt idToken s :
  fst (serve rt (Google idToken) s) = Returned tt ->
  (exists u,
     users (db (snd (serve rt (Google idToken) s))) = (users (db s) ++ [u])%list /\
     sent (snd (serve rt (Google idToken) s)) =
     (sent s ++ [WelcomeEmail (user_email u) (user_name u)])%list)
  \/
  (List.length (users (db (snd (serve rt (Google idToken) s)))) = List.length (users (db s)) /\
   sent (snd (serve rt (Google idToken) s)) = sent s).
Proof.
  run_all; intros E; try discriminate E.
  - right. split; [apply length_map | reflexivity].
  - right. split; reflexivity.
  - left. eexists. split; reflexivity.
Qed.

(** C7, as the code has it.  Each of the nine handlers is one
    request/response function, and:
    - [logout] validates nothing, makes no Prisma call and sends no mail: it
      always answers 200;
    - every other handler rejects a request whose required field is missing
      (or whose email is malformed) before any Prisma call, and makes at
      least one Prisma call once the request passes its checks;
    - [verifyEmail], [login], [logout] and [checkAuth] never send mail;
    - [signup], [regenerateVerificationToken], [forgotPassword] and
      [resetPassword] have sent mail whenever they return;
    - [google], when it returns, has sent the welcome mail if it created
      the user and no mail otherwise. *)
Theorem handlers_validate_access_store_and_notify :
  forall (rt : Runtime) (rq : Request) (s : State),
    let r := serve rt rq s in
    match rq with
    | Logout =>
        fst r = Returned tt /\ statusCode (res (snd r)) = 200 /\
        db (snd r) = db s /\ calls (snd r) = calls s /\ sent (snd r) = sent s
    | _ =>
        (missing_or_invalid rq = true ->
         (exists msg, fst r = Thrown (Error msg)) /\
         db (snd r) = db s /\ calls (snd r) = calls s /\ sent (snd r) = sent s) /\
        (passes_validation rt rq = true -> grows (calls s) (calls (snd r)))
    end /\
    match rq with
    | VerifyEmail _ _ | Login _ _ | Logout | CheckAuth _ =>
        sent (snd r) = sent s
    | Signup _ _ _ | RegenerateVerificationToken _ | ForgotPassword _ | ResetPassword _ _ =>
        fst r = Returned tt -> grows (sent s) (sent (snd r))
    | Google _ =>
        fst r = Returned tt ->
        (exists u,
           users (db (snd r)) = (users (db s) ++ [u])%list /\
           sent (snd r) = (sent s ++ [WelcomeEmail (user_email u) (user_name u)])%list)
        \/
        (List.length (users (db (snd r))) = List.length (users (db s)) /\
         sent (snd r) = sent s)
    end.
Proof.
  intros rt rq s r.
  assert (V : missing_or_invalid rq = true ->
              (exists msg, fst r = Thrown (Error msg)) /\
              db (snd r) = db s /\ calls (snd r) = calls s /\ sent (snd r) = sent s).
  { intros H. destruct (rejected_run rt rq s H) as [msg E].
    subst r. rewrite E. cbn. eauto. }
  pose proof (store_accessed rt rq s) as A.
  pose proof (no_mail_from rt rq s) as N.
  pose proof (mail_on_success rt rq s) as Y.
  destruct rq; try (split; [split; assumption | first [exact N | exact Y]]).
  - (* logout *)
    destruct (logout_run rt s) as [o E]. subst r. rewrite E. cbn.
    repeat split; reflexivity.
  - (* google *)
    split; [split; assumption|]. exact (google_mail rt idToken s).
Qed.

(** ** Passwords *)

(** What a request can do to the users table. *)
Lemma users_after rt rq s :
  let users' := users (db (snd (serve rt rq s))) in
  users' = users (db s)
  \/ (exists u plain,
        users' = (users (db s) ++ [u])%list /\
        password_submitted rt rq = Some plain /\
        user_password u = bcrypt_hash plain 10 (bcrypt_salt rt))
  \/ (exists id,
        users' = map (fun u => if String.eqb (user_id u) id then set_isVerified u else u)
                     (users (db s)))
  \/ (exists id plain,
        password_submitted rt rq = Some plain /\
        users' = map (fun u => if String.eqb (user_id u) id
                               then set_password (bcrypt_hash plain 10 (bcrypt_salt rt)) u
                               else u)
                     (users (db s))).
Proof.
  destruct rq; run_all;
    first [ left; reflexivity
          | right; left; eexists _, _; split; [reflexivity | split; reflexivity]
          | right; right; left; eexists; reflexivity
          | right; right; right; eexists _, _; split; reflexivity ].
Qed.

(** Where the password column of a record after a request comes from. *)
Lemma password_written rt rq s u' :
  In u' (users (db (snd (serve rt rq s)))) ->
  (exists u, In u (users (db s)) /\ user_id u = user_id u' /\
             user_password u' = user_password u)
  \/
  (exists plain, password_submitted rt rq = Some plain /\
                 user_password u' = bcrypt_hash plain 10 (bcrypt_salt rt)).
Proof.
  intros Hin.
  destruct (users_after rt rq s)
    as [E | [(u & plain & E & Hp & Hu) | [(id & E) | (id & plain & Hp & E)]]];
    cbv zeta in E; rewrite E in Hin.
  - left. exists u'. auto.
  - apply in_app_or in Hin as [Hin | [Hin | []]].
    + left. exists u'. auto.
    + subst u'. right. exists plain. auto.
  - apply in_map_iff in Hin as (u & Hu & Hin). left. exists u.
    destruct (String.eqb (user_id u) id); subst u'; auto.
  - apply in_map_iff in Hin as (u & Hu & Hin).
    destruct (String.eqb (user_id u) id); subst u'.
    + right. exists plain. cbn. auto.
    + left. exists u. auto.
Qed.

Lemma passwords_hashed_preserved rt rq s :
  passwords_hashed (db s) -> passwords_hashed (db (snd (serve rt rq s))).
Proof.
  unfold passwords_hashed. rewrite !Forall_forall. intros Hinv u' Hin.
  destruct (password_written rt rq s u' Hin) as [(u & Hu & _ & Hp) | (plain & _ & Hp)];
    rewrite Hp.
  - apply Hinv, Hu.
  - exists plain, (bcrypt_salt rt). reflexivity.
Qed.

(** In every state the server reaches, all user records hold hashed
    passwords. *)
Lemma reachable_passwords_hashed s : reachable s -> passwords_hashed (db s).
Proof.
  induction 1 as [|rt rq s _ IH].
  - constructor.
  - apply passwords_hashed_preserved, IH.
Qed.

(** C4.  Whatever the request, every user record in the store after it
    either keeps the password column of the record with the same id before
    it, or holds [bcryptjs.hash] (cost 10) of the plaintext the request
    submitted: the password given to [signup] or [resetPassword], the random
    placeholder drawn by [google].  With a [bcryptjs.hash] that never returns
    its input, the value written is never the plaintext.  Hence every
    handler preserves the invariant that all persisted records hold hashed
    passwords. *)
Theorem passwords_are_stored_hashed :
  forall (rt : Runtime) (rq : Request) (s : State),
    (forall plain salt, bcrypt_hash plain 10 salt <> plain) ->
    let d' := db (snd (serve rt rq s)) in
    (forall u', In u' (users d') ->
       (exists u, In u (users (db s)) /\ user_id u = user_id u' /\
                  user_password u' = user_password u)
       \/
       (exists plain, password_submitted rt rq = Some plain /\
                      user_password u' = bcrypt_hash plain 10 (bcrypt_salt rt) /\
                      user_password u' <> plain)) /\
    (passwords_hashed (db s) -> passwords_hashed d').
Proof.
  intros rt rq s Hne d'. subst d'. split.
  - intros u' Hin.
    destruct (password_written rt rq s u' Hin) as [Hkept | (plain & Hp & Hu)].
    + left. exact Hkept.
    + right. exists plain. split; [exact Hp|]. split; [exact Hu|].
      rewrite Hu. apply Hne.
  - apply passwords_hashed_preserved.
Qed.

(** ** The token tables *)

(** What a request can do to the verification-token table: nothing, add
    the row made from this request's draw, or remove the rows of one id. *)
Lemma verificationTokens_after rt rq s :
  let table := verificationTokens (db s) in
  let table' := verificationTokens (db (snd (serve rt rq s))) in
  table' = table
  \/ (exists user,
        In user (users (db (snd (serve rt rq s)))) /\
        table' = (table ++ [{| tok_id := new_id (next_verificationToken (db s));
                               tok_token := verificationCode (math_random rt);
                               tok_expiresAt := date_now rt + verification_lifetime;
                               tok_userId := user_id user |}])%list /\
        match rq with
        | Signup _ _ _ | RegenerateVerificationToken _ => True
        | _ => False
        end)
  \/ (exists id, table' = remove_token id table /\
                 match rq with VerifyEmail _ _ => True | _ => False end).
Proof.
  destruct rq; run_all;
    first [ left; reflexivity
          | right; right; eexists; split; [reflexivity | exact I]
          | right; left; eexists; split;
            [ first [ apply in_or_app; right; left; reflexivity
                    | eapply user_by_email_in; eassumption ]
            | split; [reflexivity | exact I] ] ].
Qed.

Lemma passwordResetTokens_after rt rq s :
  let table := passwordResetTokens (db s) in
  let table' := passwordResetTokens (db (snd (serve rt rq s))) in
  table' = table
  \/ (exists user,
        In user (users (db (snd (serve rt rq s)))) /\
        table' = (table ++ [{| tok_id := new_id (next_passwordResetToken (db s));
                               tok_token := Buffer_toString_hex (crypto_randomBytes rt);
                               tok_expiresAt := date_now rt + reset_lifetime;
                               tok_userId := user_id user |}])%list /\
        match rq with ForgotPassword _ => True | _ => False end)
  \/ (exists id, table' = remove_token id table /\
                 match rq with ResetPassword _ _ => True | _ => False end).
Proof.
  destruct rq; run_all;
    first [ left; reflexivity
          | right; right; eexists; split; [reflexivity | exact I]
          | right; left; eexists; split;
            [ first [ apply in_or_app; right; left; reflexivity
                    | eapply user_by_email_in; eassumption ]
            | split; [reflexivity | exact I] ] ].
Qed.

Lemma remove_token_in id table t :
  In t (remove_token id table) <-> In t table /\ tok_id t <> id.
Proof.
  unfold remove_token. rewrite filter_In, negb_true_iff, String.eqb_neq. tauto.
Qed.

Lemma valid_passwordResetToken_test token now t :
  String.eqb (tok_token t) token && (now <? tok_expiresAt t) = true
  <-> valid_passwordResetToken token now t.
Proof.
  unfold valid_passwordResetToken. rewrite andb_true_iff, String.eqb_eq, Z.ltb_lt. tauto.
Qed.

(** What a successful [resetPassword] has done. *)
Lemma resetPassword_returned rt token password s :
  fst (serve rt (ResetPassword token password) s) = Returned tt ->
  exists t,
    falsy token = false /\ falsy password = false /\
    In t (passwordResetTokens (db s)) /\
    valid_passwordResetToken (str token) (date_now rt) t /\
    db (snd (serve rt (ResetPassword token password) s)) =
    delete_passwordResetToken (tok_id t)
      (update_user (tok_userId t)
         (set_password (bcrypt_hash (str password) 10 (bcrypt_salt rt))) (db s)) /\
    statusCode (res (snd (serve rt (ResetPassword token password) s))) = 200.
Proof.
  unfold serve, handler, resetPassword.
  destruct (falsy token) eqn:Hc; [step; discriminate|].
  destruct (falsy password) eqn:He; [step; discriminate|].
  cbn [orb]. unfold_controller. step.
  destruct (find _ (passwordResetTokens (db s))) as [t|] eqn:Ht; [|step; discriminate].
  step. repeat (branch; step); try discriminate; intros _;
    apply find_some in Ht as [Hin Ht]; apply valid_passwordResetToken_test in Ht;
    exists t; repeat split; auto; apply Ht.
Qed.

Lemma resetPassword_no_row rt token password s :
  falsy token = false ->
  falsy password = false ->
  (forall t, In t (passwordResetTokens (db s)) ->
             ~ valid_passwordResetToken (str token) (date_now rt) t) ->
  let r := serve rt (ResetPassword token password) s in
  fst r = Thrown (Error "Invalid or expired reset token") /\
  statusCode (res (snd r)) = 400 /\
  db (snd r) = db s.
Proof.
  intros Ht Hp Hnone r. subst r. unfold serve, handler, resetPassword.
  rewrite Ht, Hp. cbn [orb]. unfold prisma_passwordResetToken_findFirst. step.
  rewrite find_none_of; [step; auto|].
  intros t Hin. destruct (_ && _) eqn:E; [|reflexivity].
  apply valid_passwordResetToken_test in E. destruct (Hnone t Hin E).
Qed.

(** A row of a token table after a request was there before, or holds the
    value drawn in this request under the key made from the table's
    counter. *)
Lemma verificationToken_origin rt rq s t :
  In t (verificationTokens (db (snd (serve rt rq s)))) ->
  In t (verificationTokens (db s)) \/
  tok_id t = new_id (next_verificationToken (db s)) /\
  tok_token t = verificationCode (math_random rt).
Proof.
  intros Hin.
  destruct (verificationTokens_after rt rq s) as [E | [(u & Hu & E & _) | (id & E & _)]];
    cbv zeta in E; rewrite E in Hin.
  - left. exact Hin.
  - apply in_app_or in Hin as [Hin | [Hin | []]]; [left; exact Hin | right].
    subst t. split; reflexivity.
  - left. apply remove_token_in in Hin. apply Hin.
Qed.

Lemma passwordResetToken_origin rt rq s t :
  In t (passwordResetTokens (db (snd (serve rt rq s)))) ->
  In t (passwordResetTokens (db s)) \/
  tok_id t = new_id (next_passwordResetToken (db s)) /\
  tok_token t = Buffer_toString_hex (crypto_randomBytes rt).
Proof.
  intros Hin.
  destruct (passwordResetTokens_after rt rq s) as [E | [(u & Hu & E & _) | (id & E & _)]];
    cbv zeta in E; rewrite E in Hin.
  - left. exact Hin.
  - apply in_app_or in Hin as [Hin | [Hin | []]]; [left; exact Hin | right].
    subst t. split; reflexivity.
  - left. apply remove_token_in in Hin. apply Hin.
Qed.

(** A value no row holds stays absent as long as no request draws it. *)
Lemma verification_value_stays_absent value rqs : forall s,
  (forall t, In t (verificationTokens (db s)) -> tok_token t <> value) ->
  Forall (fun x => verificationCode (math_random (fst x)) <> value) rqs ->
  forall t, In t (verificationTokens (db (serve_all rqs s))) -> tok_token t <> value.
Proof.
  induction rqs as [|[rt rq] rqs IH]; intros s Habs Hdraws; [exact Habs|].
  inversion Hdraws as [|x l Hd Hrest]; subst. cbn [serve_all fst] in *.
  apply IH; [|exact Hrest].
  intros t Hin. destruct (verificationToken_origin rt rq s t Hin) as [Hold | [_ Hnew]].
  - apply Habs, Hold.
  - rewrite Hnew. exact Hd.
Qed.

Lemma reset_value_stays_absent value rqs : forall s,
  (forall t, In t (passwordResetTokens (db s)) -> tok_token t <> value) ->
  Forall (fun x => Buffer_toString_hex (crypto_randomBytes (fst x)) <> value) rqs ->
  forall t, In t (passwordResetTokens (db (serve_all rqs s))) -> tok_token t <> value.
Proof.
  induction rqs as [|[rt rq] rqs IH]; intros s Habs Hdraws; [exact Habs|].
  inversion Hdraws as [|x l Hd Hrest]; subst. cbn [serve_all fst] in *.
  apply IH; [|exact Hrest].
  intros t Hin. destruct (passwordResetToken_origin rt rq s t Hin) as [Hold | [_ Hnew]].
  - apply Habs, Hold.
  - rewrite Hnew. exact Hd.
Qed.

(** ** Consumed tokens *)

(** C3, as the code has it.  When [verifyEmail] or [resetPassword] returns,
    it has deleted, in that same request, the row it matched.  If that row
    was the only unexpired one holding the submitted value (for
    [verifyEmail]: for that user), a second submission of the same token on
    the resulting state, at the same or a later time, fails: 403 "Invalid or
    expired verification code", respectively 400 "Invalid or expired reset
    token", and the store is not touched.  No handler puts a row back: a row
    of a token table after a request was there before it, or it is the row
    created in this request, keyed from the table's counter and holding the
    value drawn in this request.  So a value that no row holds any more
    stays unusable through any sequence of requests, until one of them
    draws it again. *)
Theorem consumed_tokens_are_deleted :
  forall (rt rt' : Runtime) (s : State),
    (forall code email,
       let r := serve rt (VerifyEmail code email) s in
       fst r = Returned tt ->
       exists user t,
         user_by_email (str email) (db s) = Some user /\
         In t (verificationTokens (db s)) /\
         valid_verificationToken (user_id user) (str code) (date_now rt) t /\
         verificationTokens (db (snd r)) = remove_token (tok_id t) (verificationTokens (db s)) /\
         ~ In t (verificationTokens (db (snd r))) /\
         ((forall t', In t' (verificationTokens (db s)) ->
                      valid_verificationToken (user_id user) (str code) (date_now rt) t' ->
                      tok_id t' = tok_id t) ->
          date_now rt <= date_now rt' ->
          let r2 := serve rt' (VerifyEmail code email) (snd r) in
          fst r2 = Thrown (Error "Invalid or expired verification code") /\
          statusCode (res (snd r2)) = 403 /\
          db (snd r2) = db (snd r))) /\
    (forall token password,
       let r := serve rt (ResetPassword token password) s in
       fst r = Returned tt ->
       exists t,
         In t (passwordResetTokens (db s)) /\
         valid_passwordResetToken (str token) (date_now rt) t /\
         passwordResetTokens (db (snd r)) = remove_token (tok_id t) (passwordResetTokens (db s)) /\
         ~ In t (passwordResetTokens (db (snd r))) /\
         ((forall t', In t' (passwordResetTokens (db s)) ->
                      valid_passwordResetToken (str token) (date_now rt) t' ->
                      tok_id t' = tok_id t) ->
          date_now rt <= date_now rt' ->
          let r2 := serve rt' (ResetPassword token password) (snd r) in
          fst r2 = Thrown (Error "Invalid or expired reset token") /\
          statusCode (res (snd r2)) = 400 /\
          db (snd r2) = db (snd r))) /\
    (forall rq t,
       let d' := db (snd (serve rt rq s)) in
       (In t (verificationTokens d') ->
        In t (verificationTokens (db s)) \/
        tok_id t = new_id (next_verificationToken (db s)) /\
        tok_token t = verificationCode (math_random rt)) /\
       (In t (passwordResetTokens d') ->
        In t (passwordResetTokens (db s)) \/
        tok_id t = new_id (next_passwordResetToken (db s)) /\
        tok_token t = Buffer_toString_hex (crypto_randomBytes rt))) /\
    (forall value rqs,
       ((forall t, In t (verificationTokens (db s)) -> tok_token t <> value) ->
        Forall (fun x => verificationCode (math_random (fst x)) <> value) rqs ->
        forall t, In t (verificationTokens (db (serve_all rqs s))) -> tok_token t <> value) /\
       ((forall t, In t (passwordResetTokens (db s)) -> tok_token t <> value) ->
        Forall (fun x => Buffer_toString_hex (crypto_randomBytes (fst x)) <> value) rqs ->
        forall t, In t (passwordResetTokens (db (serve_all rqs s))) -> tok_token t <> value)).
Proof.
  intros rt rt' s. split; [|split; [|split]].
  - (* verifyEmail *)
    intros code email r Hret. subst r.
    destruct (verifyEmail_returned rt code email s Hret)
      as (user & t & Hc & He & Hv & Hu & Hin & Hval & Hdb & _).
    exists user, t. rewrite Hdb. cbn [verificationTokens delete_verificationToken update_user].
    repeat (split; [assumption || reflexivity|]). split.
    { rewrite remove_token_in. intros [_ Hne]. apply Hne. reflexivity. }
    intros Hsole Hlater.
    set (s1 := snd (serve rt (VerifyEmail code email) s)) in *.
    assert (Hu1 : user_by_email (str email) (db s1) = Some (set_isVerified user)).
    { rewrite Hdb. unfold user_by_email, delete_verificationToken. cbn [users].
      fold (user_by_email (str email) (update_user (user_id user) set_isVerified (db s))).
      rewrite user_by_email_update by reflexivity. rewrite Hu. cbn.
      rewrite String.eqb_refl. reflexivity. }
    rewrite <- Hdb. apply (verifyEmail_not_found rt' code email s1 _ Hc He Hv Hu1).
    apply find_none_of. intros t' Hin'.
    destruct (_ && _) eqn:Hval'; [exfalso | reflexivity].
    apply valid_verificationToken_test in Hval'.
    rewrite Hdb in Hin'. cbn [verificationTokens delete_verificationToken update_user] in Hin'.
    apply remove_token_in in Hin' as [Hin' Hne]. apply Hne, Hsole; [assumption|].
    destruct Hval' as (H1 & H2 & H3). repeat split; [exact H1 | exact H2 | lia].
  - (* resetPassword *)
    intros token password r Hret. subst r.
    destruct (resetPassword_returned rt token password s Hret)
      as (t & Hc & Hp & Hin & Hval & Hdb & _).
    exists t. rewrite Hdb. cbn [passwordResetTokens delete_passwordResetToken update_user].
    repeat (split; [assumption || reflexivity|]). split.
    { rewrite remove_token_in. intros [_ Hne]. apply Hne. reflexivity. }
    intros Hsole Hlater.
    set (s1 := snd (serve rt (ResetPassword token password) s)) in *.
    rewrite <- Hdb. apply (resetPassword_no_row rt' token password s1 Hc Hp).
    intros t' Hin' Hval'.
    rewrite Hdb in Hin'. cbn [passwordResetTokens delete_passwordResetToken update_user] in Hin'.
    apply remove_token_in in Hin' as [Hin' Hne]. apply Hne, Hsole; [assumption|].
    destruct Hval' as (H1 & H2). split; [exact H1 | lia].
  - (* no row is put back *)
    intros rq t d'. subst d'. split.
    + apply verificationToken_origin.
    + apply passwordResetToken_origin.
  - (* an absent value stays absent until it is drawn again *)
    intros value rqs. split.
    + apply verification_value_stays_absent.
    + apply reset_value_stays_absent.
Qed.

(** ** Tokens refer to users *)

Lemma find_app_some {A} (f : A -> bool) (l l' : list A) (x : A) :
  find f l = Some x -> find f (l ++ l') = Some x.
Proof.
  induction l as [|y l IH]; [discriminate|].
  cbn. destruct (f y); [auto | exact IH].
Qed.

(** No request makes a user disappear. *)
Lemma user_by_id_kept rt rq s id u :
  user_by_id id (db s) = Some u ->
  exists u', user_by_id id (db (snd (serve rt rq s))) = Some u'.
Proof.
  unfold user_by_id. intros H.
  destruct (users_after rt rq s)
    as [E | [(x & plain & E & _) | [(i & E) | (i & plain & _ & E)]]];
    cbv zeta in E; rewrite E.
  - eauto.
  - exists u. apply find_app_some, H.
  - rewrite find_map_preserved, H; [cbn; eauto|].
    intros y. destruct (String.eqb (user_id y) i); reflexivity.
  - rewrite find_map_preserved, H; [cbn; eauto|].
    intros y. destruct (String.eqb (user_id y) i); reflexivity.
Qed.

Lemma references_users_preserved rt rq s :
  references_users (db s) -> references_users (db (snd (serve rt rq s))).
Proof.
  intros H t [Hin | Hin].
  - destruct (verificationTokens_after rt rq s) as [E | [(u & Hu & E & _) | (id & E & _)]];
      cbv zeta in E; rewrite E in Hin.
    + destruct (H t (or_introl Hin)) as [u Hu]. eapply user_by_id_kept, Hu.
    + apply in_app_or in Hin as [Hin | [Hin | []]].
      * destruct (H t (or_introl Hin)) as [u' Hu']. eapply user_by_id_kept, Hu'.
      * subst t. cbn [tok_userId]. apply user_by_id_of_member, Hu.
    + apply remove_token_in in Hin as [Hin _].
      destruct (H t (or_introl Hin)) as [u Hu]. eapply user_by_id_kept, Hu.
  - destruct (passwordResetTokens_after rt rq s) as [E | [(u & Hu & E & _) | (id & E & _)]];
      cbv zeta in E; rewrite E in Hin.
    + destruct (H t (or_intror Hin)) as [u Hu]. eapply user_by_id_kept, Hu.
    + apply in_app_or in Hin as [Hin | [Hin | []]].
      * destruct (H t (or_intror Hin)) as [u' Hu']. eapply user_by_id_kept, Hu'.
      * subst t. cbn [tok_userId]. apply user_by_id_of_member, Hu.
    + apply remove_token_in in Hin as [Hin _].
      destruct (H t (or_intror Hin)) as [u Hu]. eapply user_by_id_kept, Hu.
Qed.

(** In every state the server reaches, token rows refer to existing
    users. *)
Lemma reachable_references_users s : reachable s -> references_users (db s).
Proof.
  induction 1 as [|rt rq s _ IH].
  - intros t [[] | []].
  - apply references_users_preserved, IH.
Qed.

(** ** Several tokens at once *)

Lemma resetPassword_accepts rt token password s t :
  falsy token = false ->
  falsy password = false ->
  In t (passwordResetTokens (db s)) ->
  valid_passwordResetToken (str token) (date_now rt) t ->
  references_users (db s) ->
  let r := serve rt (ResetPassword token password) s in
  exists found,
    In found (passwordResetTokens (db s)) /\
    valid_passwordResetToken (str token) (date_now rt) found /\
    db (snd r) =
    delete_passwordResetToken (tok_id found)
      (update_user (tok_userId found)
         (set_password (bcrypt_hash (str password) 10 (bcrypt_salt rt))) (db s)) /\
    (fst r = Returned tt /\ statusCode (res (snd r)) = 200 \/
     exists error_message,
       fst r = Thrown (Error ("Failed to send password reset success email: " ++ error_message))).
Proof.
  intros Ht Hp Hin Hval Href r. subst r.
  unfold serve, handler, resetPassword. rewrite Ht, Hp. cbn [orb].
  unfold prisma_passwordResetToken_findFirst. step.
  apply valid_passwordResetToken_test in Hval.
  destruct (find_in_some
              (fun t => String.eqb (tok_token t) (str token) && (date_now rt <? tok_expiresAt t))
              _ t Hin Hval) as [found Hfound].
  rewrite Hfound.
  apply find_some in Hfound as [Hfin Hfval]. apply valid_passwordResetToken_test in Hfval.
  destruct (Href found (or_intror Hfin)) as [u Hu].
  destruct (token_by_id_of_member _ _ Hfin) as [t' Ht'].
  exists found. split; [exact Hfin|]. split; [exact Hfval|].
  unfold prisma_user_update, prisma_passwordResetToken_delete, prisma_user_findUnique_id. step.
  rewrite Hu. step. rewrite Ht'. step.
  match goal with
  | |- context [user_by_id ?i ?d] =>
      lazymatch d with
      | db s => fail
      | _ =>
        assert (E : user_by_id i d =
                    Some (set_password (bcrypt_hash (str password) 10 (bcrypt_salt rt)) u))
      end
  end.
  { unfold user_by_id. cbn [users].
    rewrite find_map_preserved.
    - fold (user_by_id (tok_userId found) (db s)). rewrite Hu. cbn.
      apply find_some in Hu as [_ Hu]. rewrite Hu. reflexivity.
    - intros x. destruct (String.eqb (user_id x) (tok_userId found)) eqn:Ex;
        cbn [user_id set_password]; rewrite ?Ex; reflexivity. }
  rewrite E. unfold sendResetSuccessEmail, send_command. step.
  destruct (ses_send _) as [msg|]; step.
  - split; [reflexivity|]. right. exists msg. reflexivity.
  - split; [reflexivity|]. left. split; reflexivity.
Qed.

Lemma regenerateVerificationToken_frame rt email s :
  let d' := db (snd (serve rt (RegenerateVerificationToken email) s)) in
  users d' = users (db s) /\
  passwordResetTokens d' = passwordResetTokens (db s) /\
  (verificationTokens d' = verificationTokens (db s) \/
   exists t, verificationTokens d' = (verificationTokens (db s) ++ [t])%list).
Proof.
  run_all; (split; [reflexivity|]; split; [reflexivity|]);
    first [left; reflexivity | right; eexists; reflexivity].
Qed.

Lemma forgotPassword_frame rt email s :
  let d' := db (snd (serve rt (ForgotPassword email) s)) in
  users d' = users (db s) /\
  verificationTokens d' = verificationTokens (db s) /\
  (passwordResetTokens d' = passwordResetTokens (db s) \/
   exists t, passwordResetTokens d' = (passwordResetTokens (db s) ++ [t])%list).
Proof.
  run_all; (split; [reflexivity|]; split; [reflexivity|]);
    first [left; reflexivity | right; eexists; reflexivity].
Qed.

(** [verifyEmail] accepts any stored row of the user that carries the
    submitted code and is unexpired. *)
Lemma verifyEmail_accepts rt code email s user t :
  falsy code = false -> falsy email = false -> isEmail (str email) = true ->
  user_by_email (str email) (db s) = Some user ->
  In t (verificationTokens (db s)) ->
  valid_verificationToken (user_id user) (str code) (date_now rt) t ->
  let r := serve rt (VerifyEmail code email) s in
  fst r = Returned tt /\ statusCode (res (snd r)) = 200.
Proof.
  intros Hc He Hv Hu Hin Hval r.
  apply valid_verificationToken_test in Hval.
  destruct (find_in_some
              (fun t => String.eqb (tok_userId t) (user_id user)
                        && String.eqb (tok_token t) (str code)
                        && (date_now rt <? tok_expiresAt t))
              _ t Hin Hval) as [found Hfound].
  destruct (verifyEmail_found rt code email s user found Hc He Hv Hu Hfound)
    as (Hret & Hstatus & _).
  split; assumption.
Qed.

(** ** Verification codes *)

Lemma code_issued rt rq s :
  match rq with
  | Signup _ _ _ | RegenerateVerificationToken _ =>
      fst (serve rt rq s) = Returned tt ->
      exists t, verificationTokens (db (snd (serve rt rq s)))
                = (verificationTokens (db s) ++ [t])%list
  | _ => True
  end.
Proof.
  destruct rq; try exact I; run_all; intros E; try discriminate E; eexists; reflexivity.
Qed.

(** C9.  With [Math.random()] a double in [0, 1), every row that [signup]
    or [regenerateVerificationToken] (indeed any handler) adds to the
    verification-token table carries as its code the decimal string of an
    integer between 100000 and 999999, six characters long, and expires 24
    hours (in milliseconds) after the [Date.now()] of the request; and the
    two handlers add such a row whenever they return. *)
Theorem verification_codes_have_six_digits :
  forall (rt : Runtime) (rq : Request) (s : State),
    F64.unit_interval (math_random rt) ->
    let r := serve rt rq s in
    (forall t,
       In t (verificationTokens (db (snd r))) ->
       ~ In t (verificationTokens (db s)) ->
       (exists n, 100000 <= n <= 999999 /\ tok_token t = Number_toString n) /\
       String.length (tok_token t) = 6%nat /\
       tok_expiresAt t = date_now rt + 24 * 60 * 60 * 1000) /\
    match rq with
    | Signup _ _ _ | RegenerateVerificationToken _ =>
        fst r = Returned tt ->
        exists t, verificationTokens (db (snd r)) = (verificationTokens (db s) ++ [t])%list
    | _ => True
    end.
Proof.
  intros rt rq s Hr r. split; [|exact (code_issued rt rq s)].
  intros t Hin Hnew. subst r.
  pose proof (verificationCode_number_range _ Hr) as Hn.
  destruct (verificationTokens_after rt rq s) as [E | [(u & Hu & E & _) | (id & E & _)]];
    rewrite E in Hin.
  - contradiction.
  - apply in_app_or in Hin as [Hin | [Hin | []]]; [contradiction|]. subst t.
    cbn [tok_token tok_expiresAt]. split; [|split].
    + exists (verificationCode_number (math_random rt)). split; [exact Hn | reflexivity].
    + apply Number_toString_six. exact Hn.
    + reflexivity.
  - apply remove_token_in in Hin as [Hin _]. contradiction.
Qed.

End Properties.

(** * Further properties of the controller *)

Section Handlers.

Context {ext : Externals}.

(** ** signup *)

Lemma find_app_none {A} (f : A -> bool) (l l' : list A) :
  find f l = None -> find f (l ++ l') = find f l'.
Proof.
  induction l as [|y l IH]; [reflexivity|].
  cbn. destruct (f y); [discriminate | exact IH].
Qed.

Lemma decimal_digits_nonempty fuel : forall n acc,
  acc <> "" -> decimal_digits fuel n acc <> "".
Proof.
  induction fuel as [|fuel IH]; intros n acc Hacc; [exact Hacc|].
  cbn [decimal_digits]. destruct (n <? 10); [discriminate | apply IH; discriminate].
Qed.

Lemma Number_toString_nonempty n : Number_toString n <> "".
Proof.
  unfold Number_toString. cbn [decimal_digits].
  destruct (n <? 10); [discriminate | apply decimal_digits_nonempty; discriminate].
Qed.

(** The store after a [signup] that found the email unused. *)
Lemma signup_fresh_db rt email password name s :
  falsy email = false -> falsy name = false -> falsy password = false ->
  isEmail (str email) = true ->
  user_by_email (str email) (db s) = None ->
  db (snd (serve rt (Signup email password name) s)) =
  insert_verificationToken
    {| tok_id := new_id (next_verificationToken (db s));
       tok_token := verificationCode (math_random rt);
       tok_expiresAt := date_now rt + verification_lifetime;
       tok_userId := new_id (next_user (db s)) |}
    (insert_user
       {| user_id := new_id (next_user (db s));
          user_email := str email;
          user_password := bcrypt_hash (str password) 10 (bcrypt_salt rt);
          user_name := str name;
          user_isVerified := isVerified_default |}
       (db s)).
Proof.
  intros He Hn Hp Hv Hu. unfold serve, handler, signup.
  rewrite He, Hn, Hp, Hv. cbn [orb negb].
  unfold_controller. step. rewrite Hu. step. rewrite Hu. step.
  repeat (branch; step); reflexivity.
Qed.

(** [signup] writes the user and the verification code before it sends any
    mail, and keeps them when SES then rejects a mail: the request fails
    with the mail service's error, without a session cookie, and the rows
    stay. *)
Theorem signup_stores_before_mailing :
  forall (rt : Runtime) (email password name : option string) (s : State),
    falsy email = false -> falsy name = false -> falsy password = false ->
    isEmail (str email) = true ->
    user_by_email (str email) (db s) = None ->
    let user := {| user_id := new_id (next_user (db s));
                   user_email := str email;
                   user_password := bcrypt_hash (str password) 10 (bcrypt_salt rt);
                   user_name := str name;
                   user_isVerified := isVerified_default |} in
    let code := verificationCode (math_random rt) in
    let row := {| tok_id := new_id (next_verificationToken (db s));
                  tok_token := code;
                  tok_expiresAt := date_now rt + verification_lifetime;
                  tok_userId := user_id user |} in
    let r := serve rt (Signup email password name) s in
    db (snd r) = insert_verificationToken row (insert_user user (db s)) /\
    calls (snd r) = (calls s ++ [user_findUnique; user_create; verificationToken_create])%list /\
    match ses_send (WelcomeEmail (str email) (str name)) with
    | Some error_message =>
        fst r = Thrown (Error ("Failed to send welcome email: " ++ error_message)) /\
        sent (snd r) = (sent s ++ [WelcomeEmail (str email) (str name)])%list /\
        setCookie (res (snd r)) = []
    | None =>
        sent (snd r) = (sent s ++ [WelcomeEmail (str email) (str name);
                                   VerificationEmail (str email) code])%list /\
        match ses_send (VerificationEmail (str email) code) with
        | Some error_message =>
            fst r = Thrown (Error ("Failed to send verification email: " ++ error_message)) /\
            setCookie (res (snd r)) = []
        | None =>
            fst r = Returned tt /\
            statusCode (res (snd r)) = 201 /\
            (exists options,
               setCookie (res (snd r)) =
               [Cookie "token"
                  (jwt_sign {| jwt_userId := user_id user; jwt_email := str email |}
                     (JWT_SECRET env) "7d" (date_now rt))
                  options]) /\
            body (res (snd r)) =
            Some {| success := true;
                    message := "User created successfully";
                    userData := Some (userData_of user) |}
        end
    end.
Proof.
  intros rt email password name s He Hn Hp Hv Hu. cbv zeta.
  unfold serve, handler, signup.
  rewrite He, Hn, Hp, Hv. cbn [orb negb].
  unfold_controller. step. rewrite Hu. step. rewrite Hu. step.
  cbn [user_id user_email user_name].
  destruct (ses_send (WelcomeEmail (str email) (str name))) as [e1|]; step.
  - repeat split; rewrite <- ?app_assoc; reflexivity.
  - destruct (ses_send (VerificationEmail (str email) (verificationCode (math_random rt))))
      as [e2|]; step.
    + repeat split; rewrite <- ?app_assoc; reflexivity.
    + split; [reflexivity|]. split; [rewrite <- !app_assoc; reflexivity|].
      split; [rewrite <- app_assoc; reflexivity|].
      split; [reflexivity|]. split; [reflexivity|].
      split; [eexists; reflexivity | reflexivity].
Qed.

(** [signup] refuses an email that is already registered: 400 "User
    already exists", after one lookup and without writing or mailing. *)
Theorem signup_rejects_registered_email :
  forall (rt : Runtime) (email password name : option string) (s : State) (existing : User),
    falsy email = false -> falsy name = false -> falsy password = false ->
    isEmail (str email) = true ->
    user_by_email (str email) (db s) = Some existing ->
    let r := serve rt (Signup email password name) s in
    fst r = Thrown (Error "User already exists") /\
    statusCode (res (snd r)) = 400 /\
    db (snd r) = db s /\ sent (snd r) = sent s /\
    calls (snd r) = (calls s ++ [user_findUnique])%list.
Proof.
  intros rt email password name s existing He Hn Hp Hv Hu r.
  subst r. unfold serve, handler, signup.
  rewrite He, Hn, Hp, Hv. cbn [orb negb].
  unfold_controller. step. rewrite Hu. step. repeat split.
Qed.

Lemma user_by_email_after_insert email u d :
  user_by_email email d = None ->
  user_email u = email ->
  user_by_email email (insert_user u d) = Some u.
Proof.
  intros Hnone He. unfold user_by_email, insert_user in *. cbn [users].
  rewrite find_app_none by exact Hnone. cbn. rewrite He, String.eqb_refl. reflexivity.
Qed.

(** A [signup] that got as far as the store is not undone by a failing
    mail: whatever SES answered, the same email can no longer sign up. *)
Theorem signup_is_not_rolled_back :
  forall (rt rt' : Runtime) (email password name password' name' : option string) (s : State),
    falsy email = false -> falsy name = false -> falsy password = false ->
    falsy name' = false -> falsy password' = false ->
    isEmail (str email) = true ->
    user_by_email (str email) (db s) = None ->
    let s1 := snd (serve rt (Signup email password name) s) in
    let r := serve rt' (Signup email password' name') s1 in
    fst r = Thrown (Error "User already exists") /\
    statusCode (res (snd r)) = 400 /\
    db (snd r) = db s1.
Proof.
  intros rt rt' email password name password' name' s He Hn Hp Hn' Hp' Hv Hu s1 r.
  assert (Hu1 : exists u, user_by_email (str email) (db s1) = Some u).
  { subst s1. rewrite (signup_fresh_db rt email password name s He Hn Hp Hv Hu).
    eexists. unfold user_by_email, insert_verificationToken. cbn [users].
    apply (user_by_email_after_insert (str email) _ (db s) Hu). reflexivity. }
  destruct Hu1 as [u Hu1].
  subst r. unfold serve, handler, signup.
  rewrite He, Hn', Hp', Hv. cbn [orb negb].
  unfold_controller. step. rewrite Hu1. step. repeat split.
Qed.

(** ** signup, then verifyEmail *)

Lemma falsy_Some s : s <> "" -> falsy (Some s) = false.
Proof. intros H. cbn. apply String.eqb_neq. exact H. Qed.

(** Lookups by email do not see the token tables. *)
Lemma user_by_email_delete_verificationToken email id d :
  user_by_email email (delete_verificationToken id d) = user_by_email email d.
Proof. reflexivity. Qed.

Lemma user_by_email_delete_passwordResetToken email id d :
  user_by_email email (delete_passwordResetToken id d) = user_by_email email d.
Proof. reflexivity. Qed.

(** The code [signup] stores (and mails) verifies the new account: submitted
    with the same email before 24 hours have passed, it is accepted, whatever
    SES did with the mails, and the account is then verified, its password
    still the hash made at signup. *)
Theorem signup_then_verifyEmail :
  forall (rt rt' : Runtime) (email password name : option string) (s : State),
    falsy email = false -> falsy name = false -> falsy password = false ->
    isEmail (str email) = true ->
    user_by_email (str email) (db s) = None ->
    date_now rt' < date_now rt + 24 * 60 * 60 * 1000 ->
    let s1 := snd (serve rt (Signup email password name) s) in
    let code := verificationCode (math_random rt) in
    let r := serve rt' (VerifyEmail (Some code) email) s1 in
    fst r = Returned tt /\
    statusCode (res (snd r)) = 200 /\
    exists u,
      user_by_email (str email) (db (snd r)) = Some u /\
      user_id u = new_id (next_user (db s)) /\
      user_isVerified u = true /\
      user_password u = bcrypt_hash (str password) 10 (bcrypt_salt rt).
Proof.
  intros rt rt' email password name s He Hn Hp Hv Hu Hnow s1 code r.
  pose proof (signup_fresh_db rt email password name s He Hn Hp Hv Hu) as Hdb.
  fold s1 in Hdb.
  set (user := {| user_id := new_id (next_user (db s));
                  user_email := str email;
                  user_password := bcrypt_hash (str password) 10 (bcrypt_salt rt);
                  user_name := str name;
                  user_isVerified := isVerified_default |}) in *.
  set (row := {| tok_id := new_id (next_verificationToken (db s));
                 tok_token := verificationCode (math_random rt);
                 tok_expiresAt := date_now rt + verification_lifetime;
                 tok_userId := new_id (next_user (db s)) |}) in *.
  assert (Hu1 : user_by_email (str email) (db s1) = Some user).
  { rewrite Hdb. apply (user_by_email_after_insert (str email) user (db s) Hu). reflexivity. }
  assert (Hcode : falsy (Some code) = false).
  { apply falsy_Some. apply Number_toString_nonempty. }
  assert (Hrow : In row (verificationTokens (db s1))).
  { rewrite Hdb. cbn [verificationTokens insert_verificationToken insert_user].
    apply in_or_app. right. left. reflexivity. }
  assert (Hval : String.eqb (tok_userId row) (user_id user)
                 && String.eqb (tok_token row) (str (Some code))
                 && (date_now rt' <? tok_expiresAt row) = true).
  { cbn [tok_userId tok_token tok_expiresAt row user user_id str]. fold code.
    rewrite !String.eqb_refl. cbn [andb]. apply Z.ltb_lt.
    unfold verification_lifetime. lia. }
  destruct (find_in_some
              (fun t => String.eqb (tok_userId t) (user_id user)
                        && String.eqb (tok_token t) (str (Some code))
                        && (date_now rt' <? tok_expiresAt t))
              _ row Hrow Hval) as [found Hfound].
  destruct (verifyEmail_found rt' (Some code) email s1 user found Hcode He Hv Hu1 Hfound)
    as (Hret & Hstatus & Hdb2).
  fold r in Hret, Hstatus, Hdb2.
  split; [exact Hret|]. split; [exact Hstatus|].
  exists (set_isVerified user). rewrite Hdb2.
  rewrite user_by_email_delete_verificationToken.
  rewrite user_by_email_update by reflexivity. rewrite Hu1. cbn.
  rewrite String.eqb_refl. repeat split.
Qed.

(** ** verifyEmail *)

(** [verifyEmail] answers 404 "User not found" for an email that is not
    registered, after one lookup and without touching the store. *)
Theorem verifyEmail_unknown_user :
  forall (rt : Runtime) (code email : option string) (s : State),
    falsy code = false -> falsy email = false ->
    isEmail (str email) = true ->
    user_by_email (str email) (db s) = None ->
    let r := serve rt (VerifyEmail code email) s in
    fst r = Thrown (Error "User not found") /\
    statusCode (res (snd r)) = 404 /\
    db (snd r) = db s /\ sent (snd r) = sent s /\
    calls (snd r) = (calls s ++ [user_findUnique])%list.
Proof.
  intros rt code email s Hc He Hv Hu r.
  subst r. unfold serve, handler, verifyEmail.
  rewrite Hc, He, Hv. cbn [orb negb].
  unfold_controller. step. rewrite Hu. step. repeat split.
Qed.

(** ** regenerateVerificationToken *)

(** [regenerateVerificationToken], on a request that passes validation:
    refuses an unknown email ("Invalid user") and a verified account ("User
    already verified") with 400 and without writing or mailing; for an
    unverified account it stores a new code expiring in 24 hours and mails
    that same code to the account's address, and it never sets a cookie. *)
Theorem regenerateVerificationToken_outcome :
  forall (rt : Runtime) (email : option string) (s : State),
    falsy email = false ->
    isEmail (str email) = true ->
    let r := serve rt (RegenerateVerificationToken email) s in
    setCookie (res (snd r)) = [] /\
    match user_by_email (str email) (db s) with
    | None =>
        fst r = Thrown (Error "Invalid user") /\ statusCode (res (snd r)) = 400 /\
        db (snd r) = db s /\ sent (snd r) = sent s
    | Some user =>
        if user_isVerified user then
          fst r = Thrown (Error "User already verified") /\ statusCode (res (snd r)) = 400 /\
          db (snd r) = db s /\ sent (snd r) = sent s
        else
          let code := verificationCode (math_random rt) in
          db (snd r) =
          insert_verificationToken
            {| tok_id := new_id (next_verificationToken (db s));
               tok_token := code;
               tok_expiresAt := date_now rt + 24 * 60 * 60 * 1000;
               tok_userId := user_id user |} (db s) /\
          sent (snd r) = (sent s ++ [VerificationEmail (user_email user) code])%list /\
          match ses_send (VerificationEmail (user_email user) code) with
          | Some error_message =>
              fst r = Thrown (Error ("Failed to send verification email: " ++ error_message))
          | None =>
              fst r = Returned tt /\ statusCode (res (snd r)) = 200 /\
              body (res (snd r)) =
              Some {| success := true;
                      message := "Verification token regenerated successfully";
                      userData := Some (userData_of user) |}
          end
    end.
Proof.
  intros rt email s He Hv. cbv zeta.
  unfold serve, handler, regenerateVerificationToken.
  rewrite He, Hv. cbn [negb].
  unfold_controller. step.
  destruct (user_by_email (str email) (db s)) as [user|]; step; [|repeat split].
  destruct (user_isVerified user); step; [repeat split|].
  destruct (ses_send _); step; repeat split.
Qed.

(** Once [verifyEmail] has returned for an email, no further code is
    issued for it: [regenerateVerificationToken] answers 400 "User already
    verified" and leaves the store alone. *)
Theorem no_new_code_after_verification :
  forall (rt rt' : Runtime) (code email : option string) (s : State),
    fst (serve rt (VerifyEmail code email) s) = Returned tt ->
    let s1 := snd (serve rt (VerifyEmail code email) s) in
    let r := serve rt' (RegenerateVerificationToken email) s1 in
    fst r = Thrown (Error "User already verified") /\
    statusCode (res (snd r)) = 400 /\
    db (snd r) = db s1 /\ sent (snd r) = sent s1.
Proof.
  intros rt rt' code email s Hret s1 r.
  destruct (verifyEmail_returned rt code email s Hret)
    as (user & t & _ & He & Hv & Hu & _ & _ & Hdb & _).
  fold s1 in Hdb.
  assert (Hu1 : user_by_email (str email) (db s1) = Some (set_isVerified user)).
  { rewrite Hdb, user_by_email_delete_verificationToken.
    rewrite user_by_email_update by reflexivity. rewrite Hu. cbn.
    rewrite String.eqb_refl. reflexivity. }
  subst r. unfold serve, handler, regenerateVerificationToken.
  rewrite He, Hv. cbn [negb].
  unfold_controller. step. rewrite Hu1. step. repeat split.
Qed.

(** ** forgotPassword *)

Lemma forgotPassword_db rt email s user :
  falsy email = false ->
  isEmail (str email) = true ->
  user_by_email (str email) (db s) = Some user ->
  db (snd (serve rt (ForgotPassword email) s)) =
  insert_passwordResetToken
    {| tok_id := new_id (next_passwordResetToken (db s));
       tok_token := Buffer_toString_hex (crypto_randomBytes rt);
       tok_expiresAt := date_now rt + reset_lifetime;
       tok_userId := user_id user |} (db s).
Proof.
  intros He Hv Hu. unfold serve, handler, forgotPassword.
  rewrite He, Hv. cbn [negb].
  unfold_controller. step. rewrite Hu. step.
  destruct (ses_send _); reflexivity.
Qed.

(** [forgotPassword], on a request that passes validation: answers an
    unregistered email with 400 "Invalid credentials", untouched store and
    no mail; for a registered one it stores the hex string of the random
    bytes as a reset token expiring in one hour and mails the account the
    link [CLIENT_URL/reset-password/<that token>]; it never sets a cookie. *)
Theorem forgotPassword_outcome :
  forall (rt : Runtime) (email : option string) (s : State),
    falsy email = false ->
    isEmail (str email) = true ->
    let r := serve rt (ForgotPassword email) s in
    setCookie (res (snd r)) = [] /\
    match user_by_email (str email) (db s) with
    | None =>
        fst r = Thrown (Error "Invalid credentials") /\ statusCode (res (snd r)) = 400 /\
        db (snd r) = db s /\ sent (snd r) = sent s
    | Some user =>
        let token := Buffer_toString_hex (crypto_randomBytes rt) in
        let link := (match CLIENT_URL env with Some url => url | None => "undefined" end)
                    ++ "/reset-password/" ++ token in
        db (snd r) =
        insert_passwordResetToken
          {| tok_id := new_id (next_passwordResetToken (db s));
             tok_token := token;
             tok_expiresAt := date_now rt + 60 * 60 * 1000;
             tok_userId := user_id user |} (db s) /\
        sent (snd r) = (sent s ++ [PasswordResetEmail (user_email user) link])%list /\
        match ses_send (PasswordResetEmail (user_email user) link) with
        | Some error_message =>
            fst r = Thrown (Error ("Failed to send password reset email: " ++ error_message))
        | None =>
            fst r = Returned tt /\ statusCode (res (snd r)) = 200 /\
            body (res (snd r)) =
            Some {| success := true;
                    message := "Password reset link sent to your email";
                    userData := None |}
        end
    end.
Proof.
  intros rt email s He Hv. cbv zeta.
  unfold serve, handler, forgotPassword.
  rewrite He, Hv. cbn [negb].
  unfold_controller. step.
  destruct (user_by_email (str email) (db s)) as [user|]; step; [|repeat split].
  unfold resetURL_of. destruct (ses_send _); step; repeat split.
Qed.

(** ** resetPassword *)

Lemma resetPassword_found rt token password s found u0 :
  falsy token = false ->
  falsy password = false ->
  find (fun t => String.eqb (tok_token t) (str token) && (date_now rt <? tok_expiresAt t))
       (passwordResetTokens (db s)) = Some found ->
  user_by_id (tok_userId found) (db s) = Some u0 ->
  let r := serve rt (ResetPassword token password) s in
  db (snd r) =
  delete_passwordResetToken (tok_id found)
    (update_user (tok_userId found)
       (set_password (bcrypt_hash (str password) 10 (bcrypt_salt rt))) (db s)) /\
  (fst r = Returned tt /\ statusCode (res (snd r)) = 200 \/
   exists error_message,
     fst r = Thrown (Error ("Failed to send password reset success email: " ++ error_message))).
Proof.
  intros Ht Hp Hfound Hu r. subst r.
  unfold serve, handler, resetPassword. rewrite Ht, Hp. cbn [orb].
  unfold prisma_passwordResetToken_findFirst. step. rewrite Hfound.
  apply find_some in Hfound as [Hfin _].
  destruct (token_by_id_of_member _ _ Hfin) as [t' Ht'].
  unfold prisma_user_update, prisma_passwordResetToken_delete, prisma_user_findUnique_id. step.
  rewrite Hu. step. rewrite Ht'. step.
  match goal with
  | |- context [user_by_id ?i ?d] =>
      lazymatch d with
      | db s => fail
      | _ =>
        assert (E : user_by_id i d =
                    Some (set_password (bcrypt_hash (str password) 10 (bcrypt_salt rt)) u0))
      end
  end.
  { unfold user_by_id. cbn [users].
    rewrite find_map_preserved.
    - fold (user_by_id (tok_userId found) (db s)). rewrite Hu. cbn.
      apply find_some in Hu as [_ Hu]. rewrite Hu. reflexivity.
    - intros x. destruct (String.eqb (user_id x) (tok_userId found)) eqn:Ex;
        cbn [user_id set_password]; rewrite ?Ex; reflexivity. }
  rewrite E. unfold sendResetSuccessEmail, send_command. step.
  destruct (ses_send _) as [msg|]; step.
  - split; [reflexivity|]. right. exists msg. reflexivity.
  - split; [reflexivity|]. left. split; reflexivity.
Qed.

(** What [login] decides once the account is found. *)
Lemma login_found rt email password s user :
  falsy email = false -> falsy password = false ->
  isEmail (str email) = true ->
  user_by_email (str email) (db s) = Some user ->
  (fst (serve rt (Login email password) s) = Returned tt <->
   bcrypt_compare (str password) (user_password user) = true).
Proof.
  intros He Hp Hv Hu. unfold serve, handler, login.
  rewrite He, Hp, Hv. cbn [orb negb].
  unfold_controller. step. rewrite Hu. step.
  destruct (bcrypt_compare (str password) (user_password user)); step.
  - split; reflexivity.
  - split; discriminate.
Qed.

(** The link [forgotPassword] mails resets the password of the account it
    was requested for.  When no earlier row holds the same token value,
    submitting the token with a new password within the hour stores the hash
    of that password for the account and leaves no row holding the token
    (even if SES then rejects the confirmation mail); from then on [login]
    with that email accepts exactly the passwords that [bcryptjs.compare]
    matches against the new hash. *)
Theorem forgotPassword_then_resetPassword :
  forall (rt rt' rt'' : Runtime) (email password : option string) (s : State) (user : User),
    falsy email = false ->
    isEmail (str email) = true ->
    user_by_email (str email) (db s) = Some user ->
    crypto_randomBytes rt <> [] ->
    falsy password = false ->
    date_now rt' < date_now rt + 60 * 60 * 1000 ->
    (forall t, In t (passwordResetTokens (db s)) ->
               tok_token t <> Buffer_toString_hex (crypto_randomBytes rt)) ->
    let token := Buffer_toString_hex (crypto_randomBytes rt) in
    let s1 := snd (serve rt (ForgotPassword email) s) in
    let r := serve rt' (ResetPassword (Some token) password) s1 in
    let hashed := bcrypt_hash (str password) 10 (bcrypt_salt rt') in
    user_by_email (str email) (db (snd r)) = Some (set_password hashed user) /\
    (forall t, In t (passwordResetTokens (db (snd r))) -> tok_token t <> token) /\
    (fst r = Returned tt /\ statusCode (res (snd r)) = 200 \/
     exists error_message,
       fst r = Thrown (Error ("Failed to send password reset success email: "
                              ++ error_message))) /\
    (forall attempt,
       falsy attempt = false ->
       (fst (serve rt'' (Login email attempt) (snd r)) = Returned tt <->
        bcrypt_compare (str attempt) hashed = true)).
Proof.
  intros rt rt' rt'' email password s user He Hv Hu Hbytes Hp Hnow Hfresh token s1 r hashed.
  (* the state forgotPassword leaves *)
  pose proof (forgotPassword_db rt email s user He Hv Hu) as Hdb1. fold s1 token in Hdb1.
  set (row := {| tok_id := new_id (next_passwordResetToken (db s));
                 tok_token := token;
                 tok_expiresAt := date_now rt + reset_lifetime;
                 tok_userId := user_id user |}) in *.
  assert (Htoken : falsy (Some token) = false).
  { apply falsy_Some. subst token. destruct (crypto_randomBytes rt); [congruence | discriminate]. }
  (* findFirst returns the new row *)
  assert (Hfind : find (fun t => String.eqb (tok_token t) (str (Some token))
                                 && (date_now rt' <? tok_expiresAt t))
                       (passwordResetTokens (db s1)) = Some row).
  { rewrite Hdb1. cbn [passwordResetTokens insert_passwordResetToken str].
    rewrite find_app_none.
    - cbn [find tok_token tok_expiresAt row]. rewrite String.eqb_refl. cbn [andb].
      replace (date_now rt' <? date_now rt + reset_lifetime) with true; [reflexivity|].
      symmetry. apply Z.ltb_lt. unfold reset_lifetime. lia.
    - apply find_none_of. intros t Hin.
      apply andb_false_iff. left. apply String.eqb_neq. apply Hfresh, Hin. }
  assert (Hu1 : user_by_email (str email) (db s1) = Some user).
  { rewrite Hdb1. exact Hu. }
  destruct (user_by_email_in _ _ _ Hu) as [Hmem _].
  destruct (user_by_id_of_member user (db s1)) as [u0 Hu0].
  { rewrite Hdb1. exact Hmem. }
  destruct (resetPassword_found rt' (Some token) password s1 row u0 Htoken Hp Hfind Hu0)
    as [Hdb2 Hout].
  fold r hashed in Hdb2, Hout. cbn [tok_userId tok_id row] in Hdb2.
  assert (Hu2 : user_by_email (str email) (db (snd r)) = Some (set_password hashed user)).
  { rewrite Hdb2, user_by_email_delete_passwordResetToken.
    rewrite user_by_email_update by reflexivity. rewrite Hu1. cbn.
    rewrite String.eqb_refl. reflexivity. }
  split; [exact Hu2|]. split; [|split; [exact Hout|]].
  - intros t Hin Heq. rewrite Hdb2 in Hin.
    cbn [passwordResetTokens delete_passwordResetToken update_user] in Hin.
    apply remove_token_in in Hin as [Hin Hne].
    rewrite Hdb1 in Hin. cbn [passwordResetTokens insert_passwordResetToken] in Hin.
    apply in_app_or in Hin as [Hin | [Hin | []]].
    + exact (Hfresh t Hin Heq).
    + subst t. apply Hne. reflexivity.
  - intros attempt Ha.
    apply (login_found rt'' email attempt (snd r) _ He Ha Hv Hu2).
Qed.

(** ** login *)

(** After [signup] has stored an account, [login] with its email accepts
    exactly the passwords that [bcryptjs.compare] matches against the hash
    made at signup, whether or not the account has been verified. *)
Theorem signup_then_login :
  forall (rt rt' : Runtime) (email password name attempt : option string) (s : State),
    falsy email = false -> falsy name = false -> falsy password = false ->
    isEmail (str email) = true ->
    user_by_email (str email) (db s) = None ->
    falsy attempt = false ->
    let s1 := snd (serve rt (Signup email password name) s) in
    (fst (serve rt' (Login email attempt) s1) = Returned tt <->
     bcrypt_compare (str attempt) (bcrypt_hash (str password) 10 (bcrypt_salt rt)) = true).
Proof.
  intros rt rt' email password name attempt s He Hn Hp Hv Hu Ha s1.
  pose proof (signup_fresh_db rt email password name s He Hn Hp Hv Hu) as Hdb.
  fold s1 in Hdb.
  apply (login_found rt' email attempt s1
           {| user_id := new_id (next_user (db s));
              user_email := str email;
              user_password := bcrypt_hash (str password) 10 (bcrypt_salt rt);
              user_name := str name;
              user_isVerified := isVerified_default |} He Ha Hv).
  rewrite Hdb. apply (user_by_email_after_insert (str email) _ (db s) Hu). reflexivity.
Qed.

(** ** checkAuth *)

(** [checkAuth] only reads: it never changes the store, sends mail or sets
    a cookie.  It answers 200, with the record of the user whose id the
    token carries, exactly when the cookie is present, [jwt.verify] accepts
    it and a user with the decoded id exists; every other request is
    answered 401.  The email inside the token is not compared with the
    record. *)
Theorem checkAuth_outcome :
  forall (rt : Runtime) (token : option string) (s : State),
    let r := serve rt (CheckAuth token) s in
    db (snd r) = db s /\ sent (snd r) = sent s /\ setCookie (res (snd r)) = [] /\
    ((fst r = Returned tt /\ statusCode (res (snd r)) = 200) <->
     (falsy token = false /\
      exists decoded user,
        jwt_verify (str token) (JWT_SECRET env) (date_now rt) = Some decoded /\
        user_by_id (jwt_userId decoded) (db s) = Some user)) /\
    (forall decoded user,
       falsy token = false ->
       jwt_verify (str token) (JWT_SECRET env) (date_now rt) = Some decoded ->
       user_by_id (jwt_userId decoded) (db s) = Some user ->
       body (res (snd r)) =
       Some {| success := true;
               message := "User verified successfully";
               userData := Some (userData_of user) |}) /\
    (fst r <> Returned tt ->
     statusCode (res (snd r)) = 401 /\ exists msg, fst r = Thrown (Error msg)).
Proof.
  intros rt token s r. subst r.
  unfold serve, handler, checkAuth.
  destruct (falsy token) eqn:Ht; step.
  { do 3 (split; [reflexivity|]). split; [split|split].
    - intros [H _]. discriminate H.
    - intros [H _]. discriminate H.
    - intros d u H. discriminate H.
    - intros _. split; [reflexivity | eexists; reflexivity]. }
  destruct (jwt_verify (str token) (JWT_SECRET env) (date_now rt)) as [decoded|] eqn:Hj; step.
  2:{ do 3 (split; [reflexivity|]). split; [split|split].
      - intros [H _]. discriminate H.
      - intros (_ & d & u & Hd & _). discriminate Hd.
      - intros d u _ Hd. discriminate Hd.
      - intros _. split; [reflexivity | eexists; reflexivity]. }
  unfold_controller. step.
  destruct (user_by_id (jwt_userId decoded) (db s)) as [user|] eqn:Hu; step.
  - do 3 (split; [reflexivity|]). split; [split|split].
    + intros _. split; [reflexivity|]. exists decoded, user. auto.
    + intros _. split; reflexivity.
    + intros d u _ Hd Hu'. inversion Hd; subst d. rewrite Hu in Hu'.
      inversion Hu'. reflexivity.
    + intros H. exfalso. apply H. reflexivity.
  - do 3 (split; [reflexivity|]). split; [split|split].
    + intros [H _]. discriminate H.
    + intros (_ & d & u & Hd & Hu'). inversion Hd; subst d.
      rewrite Hu in Hu'. discriminate Hu'.
    + intros d u _ Hd Hu'. inversion Hd; subst d. rewrite Hu in Hu'. discriminate Hu'.
    + intros _. split; [reflexivity | eexists; reflexivity].
Qed.

(** The cookie [login] sets opens the session: presented to [checkAuth]
    while [jwt.verify] returns the payload that was signed, it is answered
    200 with the record of the user who logged in, provided that user is the
    one the store finds under that id. *)
Theorem login_then_checkAuth :
  forall (rt rt' : Runtime) (email password : option string) (s : State) (user : User),
    let token := jwt_sign {| jwt_userId := user_id user; jwt_email := user_email user |}
                   (JWT_SECRET env) "7d" (date_now rt) in
    fst (serve rt (Login email password) s) = Returned tt ->
    user_by_email (str email) (db s) = Some user ->
    user_by_id (user_id user) (db s) = Some user ->
    token <> "" ->
    jwt_verify token (JWT_SECRET env) (date_now rt') =
    Some {| jwt_userId := user_id user; jwt_email := user_email user |} ->
    let s1 := snd (serve rt (Login email password) s) in
    (exists options, setCookie (res s1) = [Cookie "token" token options]) /\
    let r := serve rt' (CheckAuth (Some token)) s1 in
    fst r = Returned tt /\ statusCode (res (snd r)) = 200 /\
    body (res (snd r)) =
    Some {| success := true;
            message := "User verified successfully";
            userData := Some (userData_of user) |}.
Proof.
  intros rt rt' email password s user token Hret Hu Hid Hne Hjwt s1.
  assert (Hs1 : db s1 = db s /\
                exists options, setCookie (res s1) = [Cookie "token" token options]).
  { subst s1 token. revert Hret. unfold serve, handler, login.
    destruct (falsy email || falsy password); [step; discriminate|].
    destruct (isEmail (str email)); [|step; discriminate].
    cbn [negb]. unfold_controller. step. rewrite Hu. step.
    destruct (bcrypt_compare (str password) (user_password user)); step; [|discriminate].
    intros _. split; [reflexivity | eexists; reflexivity]. }
  destruct Hs1 as [Hdb Hcookie]. split; [exact Hcookie|].
  cbv zeta. unfold serve, handler, checkAuth.
  rewrite (falsy_Some token Hne). cbn [str]. rewrite Hjwt.
  unfold_controller. step. rewrite Hdb. cbn [jwt_userId]. rewrite Hid. step.
  repeat split.
Qed.

(** ** google *)

(** [google] turns to the store only for a ticket whose payload has an
    email, a name and [email_verified]: a rejected ID token is thrown on as
    the library's error with no status set; a ticket without payload and a
    payload without email or name are answered 400, an unverified Google
    email 403.  None of these makes a Prisma call, writes, mails or sets a
    cookie. *)
Theorem google_rejections :
  forall (rt : Runtime) (idToken : option string) (s : State),
    falsy idToken = false ->
    let r := serve rt (Google idToken) s in
    match verifyIdToken (GOOGLE_CLIENT_ID env) (str idToken) (GOOGLE_CLIENT_ID env) with
    | VerifyRejected =>
        fst r = Thrown (LibraryError "google-auth-library") /\
        statusCode (res (snd r)) = 200 /\
        db (snd r) = db s /\ sent (snd r) = sent s /\ calls (snd r) = calls s /\
        setCookie (res (snd r)) = []
    | Ticket None =>
        fst r = Thrown (Error "Invalid Google token payload") /\
        statusCode (res (snd r)) = 400 /\
        db (snd r) = db s /\ sent (snd r) = sent s /\ calls (snd r) = calls s /\
        setCookie (res (snd r)) = []
    | Ticket (Some payload) =>
        if falsy (gp_email payload) || falsy (gp_name payload) then
          fst r = Thrown (Error "Google account must have an email and name") /\
          statusCode (res (snd r)) = 400 /\
          db (snd r) = db s /\ sent (snd r) = sent s /\ calls (snd r) = calls s /\
          setCookie (res (snd r)) = []
        else
          match gp_email_verified payload with
          | Some true => grows (calls s) (calls (snd r))
          | _ =>
              fst r = Thrown (Error "Email not verified by Google") /\
              statusCode (res (snd r)) = 403 /\
              db (snd r) = db s /\ sent (snd r) = sent s /\ calls (snd r) = calls s /\
              setCookie (res (snd r)) = []
          end
    end.
Proof.
  intros rt idToken s Hid. cbv zeta.
  unfold serve, handler, google. rewrite Hid.
  destruct (verifyIdToken _ _ _) as [|[payload|]]; step; try (repeat split; fail).
  destruct (falsy (gp_email payload) || falsy (gp_name payload)); step;
    [repeat split|].
  destruct (gp_email_verified payload) as [[|]|]; cbn [not_verified]; step;
    try (repeat split; fail).
  unfold_controller. step.
  repeat (branch; step); repeat first [apply grows_one | apply grows_trans].
Qed.

(** A Google sign-in that returns leaves a verified account under the
    Google email: an unknown email gets a new account, created verified,
    with the hash of the random placeholder as password, and is sent the
    welcome mail; a known, unverified account is marked verified; a known,
    verified one is left as it is.  The token tables are not touched, and
    the response says [isVerified: true]. *)
Theorem google_leaves_a_verified_account :
  forall (rt : Runtime) (idToken : option string) (s : State) (payload : TokenPayload),
    falsy idToken = false ->
    verifyIdToken (GOOGLE_CLIENT_ID env) (str idToken) (GOOGLE_CLIENT_ID env)
    = Ticket (Some payload) ->
    falsy (gp_email payload) = false ->
    falsy (gp_name payload) = false ->
    gp_email_verified payload = Some true ->
    let email := str (gp_email payload) in
    let name := str (gp_name payload) in
    let r := serve rt (Google idToken) s in
    verificationTokens (db (snd r)) = verificationTokens (db s) /\
    passwordResetTokens (db (snd r)) = passwordResetTokens (db s) /\
    match user_by_email email (db s) with
    | None =>
        db (snd r) =
        insert_user {| user_id := new_id (next_user (db s));
                       user_email := email;
                       user_password := bcrypt_hash (nanoid rt) 10 (bcrypt_salt rt);
                       user_name := name;
                       user_isVerified := true |} (db s) /\
        sent (snd r) = (sent s ++ [WelcomeEmail email name])%list
    | Some user =>
        sent (snd r) = sent s /\ fst r = Returned tt /\
        db (snd r) = if user_isVerified user then db s
                     else update_user (user_id user) set_isVerified (db s)
    end /\
    (exists account,
       user_by_email email (db (snd r)) = Some account /\
       user_isVerified account = true) /\
    (fst r = Returned tt ->
     statusCode (res (snd r)) = 200 /\
     exists data,
       body (res (snd r)) =
       Some {| success := true; message := "User logged in successfully";
               userData := Some data |} /\
       ud_isVerified data = true).
Proof.
  intros rt idToken s payload Hid Hticket He Hn Hver. cbv zeta.
  unfold serve, handler, google. rewrite Hid, Hticket. step.
  rewrite He, Hn, Hver. cbn [orb not_verified].
  unfold_controller. step.
  destruct (user_by_email (str (gp_email payload)) (db s)) as [user|] eqn:Hu; step.
  - (* a known account *)
    destruct (user_isVerified user) eqn:Hv; cbn [negb]; step.
    + repeat split; try reflexivity.
      * exists user. auto.
      * eexists. split; reflexivity.
    + destruct (user_by_email_in _ _ _ Hu) as [Hmem _].
      destruct (user_by_id_of_member _ _ Hmem) as [u' Hu'].
      rewrite Hu'. step.
      repeat split; try reflexivity.
      * exists (set_isVerified user). split; [|reflexivity].
        change (user_by_email (str (gp_email payload))
                  (update_user (user_id user) set_isVerified (db s))
                = Some (set_isVerified user)).
        rewrite user_by_email_update by reflexivity. rewrite Hu. cbn.
        rewrite String.eqb_refl. reflexivity.
      * eexists. split; reflexivity.
  - (* a new account *)
    rewrite Hu. step. cbn [user_email user_name].
    assert (Hacc : exists account,
               user_by_email (str (gp_email payload))
                 (insert_user {| user_id := new_id (next_user (db s));
                                 user_email := str (gp_email payload);
                                 user_password := bcrypt_hash (nanoid rt) 10 (bcrypt_salt rt);
                                 user_name := str (gp_name payload);
                                 user_isVerified := true |} (db s)) = Some account /\
               user_isVerified account = true).
    { eexists. split; [apply user_by_email_after_insert; [exact Hu | reflexivity]|].
      reflexivity. }
    unfold insert_user in Hacc.
    destruct (ses_send _); step.
    + repeat split; try reflexivity; try exact Hacc; discriminate.
    + repeat split; try reflexivity; try exact Hacc.
      eexists. split; reflexivity.
Qed.

(** ** Accounts persist *)

Lemma account_kept rt rq s email u :
  user_by_email email (db s) = Some u ->
  exists u',
    user_by_email email (db (snd (serve rt rq s))) = Some u' /\
    user_id u' = user_id u /\ user_name u' = user_name u /\
    (user_isVerified u = true -> user_isVerified u' = true).
Proof.
  unfold user_by_email. intros H.
  destruct (users_after rt rq s)
    as [E | [(x & plain & E & _) | [(i & E) | (i & plain & _ & E)]]];
    cbv zeta in E; rewrite E.
  - exists u. auto.
  - exists u. split; [apply find_app_some, H | auto].
  - rewrite find_map_preserved, H.
    + cbn. eexists. split; [reflexivity|].
      destruct (String.eqb (user_id u) i); cbn; auto.
    + intros y. destruct (String.eqb (user_id y) i); reflexivity.
  - rewrite find_map_preserved, H.
    + cbn. eexists. split; [reflexivity|].
      destruct (String.eqb (user_id u) i); cbn; auto.
    + intros y. destruct (String.eqb (user_id y) i); reflexivity.
Qed.

Lemma users_never_shrink rt rq s :
  (List.length (users (db s)) <= List.length (users (db (snd (serve rt rq s)))))%nat.
Proof.
  destruct (users_after rt rq s)
    as [E | [(x & plain & E & _) | [(i & E) | (i & plain & _ & E)]]];
    cbv zeta in E; rewrite E; rewrite ?length_app, ?length_map; lia.
Qed.

(** No sequence of requests removes an account, changes its id or its name,
    or takes its verification back: the account found under an email is
    still found under it afterwards, with the same id and name, and verified
    if it was; and the users table never gets shorter. *)
Theorem accounts_persist :
  forall (rqs : list (Runtime * Request)) (s : State) (email : string) (u : User),
    user_by_email email (db s) = Some u ->
    (exists u',
       user_by_email email (db (serve_all rqs s)) = Some u' /\
       user_id u' = user_id u /\ user_name u' = user_name u /\
       (user_isVerified u = true -> user_isVerified u' = true)) /\
    (List.length (users (db s)) <= List.length (users (db (serve_all rqs s))))%nat.
Proof.
  induction rqs as [|[rt rq] rqs IH]; intros s email u Hu.
  - split; [exists u; auto | reflexivity].
  - cbn [serve_all].
    destruct (account_kept rt rq s email u Hu) as (u1 & Hu1 & Hid & Hname & Hver).
    destruct (IH _ email u1 Hu1) as ((u' & Hu' & Hid' & Hname' & Hver') & Hlen).
    split.
    + exists u'. split; [exact Hu'|]. split; [congruence|]. split; [congruence | auto].
    + pose proof (users_never_shrink rt rq s). lia.
Qed.

(** ** logout *)

(** The Set-Cookie header of [logout] names the cookie "token" and agrees
    with the header that set it in [httpOnly], [sameSite] and [path].  It
    agrees in [secure] and [domain] as well exactly when [NODE_ENV] is set
    (to a non-empty value): with [NODE_ENV] unset the cookie is set with
    [secure] true and cleared with [secure] false. *)
Theorem logout_cookie_options :
  forall (rt : Runtime) (now : Z) (userId email : string) (s s' : State),
  exists value set_options clear_options,
    setCookie (res (snd (generateTokenAndSetCookie now userId email s)))
    = (setCookie (res s) ++ [Cookie "token" value set_options])%list /\
    setCookie (res (snd (serve rt Logout s'))) = [ClearCookie "token" clear_options] /\
    httpOnly clear_options = httpOnly set_options /\
    sameSite clear_options = sameSite set_options /\
    path clear_options = path set_options /\
    maxAge clear_options = None /\
    ((secure clear_options = secure set_options /\
      domain clear_options = domain set_options) <->
     falsy (NODE_ENV env) = false).
Proof.
  intros rt now userId email s s'.
  rewrite generateTokenAndSetCookie_run.
  eexists _, _, _. split; [reflexivity|]. split; [reflexivity|].
  cbn [httpOnly sameSite path maxAge secure domain].
  do 4 (split; [reflexivity|]).
  destruct (NODE_ENV env) as [v|]; cbn [falsy str negb].
  - destruct (String.eqb v "") eqn:Ev; cbn [negb].
    + apply String.eqb_eq in Ev. subst v. cbn. split; [intros [H _]|]; discriminate.
    + split; [reflexivity | intros _; split; reflexivity].
  - cbn. split; [intros [H _]|]; discriminate.
Qed.

(** ** resetPassword: when it refuses *)

(** On a request with token and password, [resetPassword] answers 400
    "Invalid or expired reset token" exactly when no stored row holds the
    token with an [expiresAt] strictly later than the current time (a row
    expiring at this very millisecond is expired); it then leaves the store
    as it was and sends nothing. *)
Theorem resetPassword_refuses_iff_no_valid_row :
  forall (rt : Runtime) (token password : option string) (s : State),
    falsy token = false ->
    falsy password = false ->
    let r := serve rt (ResetPassword token password) s in
    (fst r = Thrown (Error "Invalid or expired reset token") <->
     forall t, In t (passwordResetTokens (db s)) ->
               ~ (tok_token t = str token /\ date_now rt < tok_expiresAt t)) /\
    (fst r = Thrown (Error "Invalid or expired reset token") ->
     statusCode (res (snd r)) = 400 /\ db (snd r) = db s /\ sent (snd r) = sent s).
Proof.
  intros rt token password s Ht Hp r. subst r.
  unfold serve, handler, resetPassword. rewrite Ht, Hp. cbn [orb].
  unfold_controller. step.
  destruct (find _ (passwordResetTokens (db s))) as [found|] eqn:Hfind; step.
  - apply find_some in Hfind as [Hin Hval].
    apply valid_passwordResetToken_test in Hval.
    split.
    + split.
      * repeat (branch; step); intros E; discriminate E.
      * intros Hnone. destruct (Hnone found Hin Hval).
    + repeat (branch; step); intros E; discriminate E.
  - split; [|intros _; repeat split].
    split; [|reflexivity].
    intros _ t Hin Hval. apply valid_passwordResetToken_test in Hval.
    rewrite (find_none _ _ Hfind t Hin) in Hval. discriminate.
Qed.

(** ** Keys and emails *)

(** What a request can do to the users table, with the counter: nothing;
    add one record under the key the counter gives, for an email no record
    has; or change columns other than id and email. *)
Lemma users_after_keyed rt rq s :
  let d := db s in
  let d' := db (snd (serve rt rq s)) in
  (users d' = users d /\ next_user d' = next_user d)
  \/ (exists u,
        users d' = (users d ++ [u])%list /\
        user_id u = new_id (next_user d) /\
        next_user d' = S (next_user d) /\
        user_by_email (user_email u) d = None)
  \/ (exists g,
        users d' = map g (users d) /\
        (forall u, user_id (g u) = user_id u /\ user_email (g u) = user_email u) /\
        next_user d' = next_user d).
Proof.
  destruct rq; run_all;
    first [ left; split; reflexivity
          | right; left; eexists; split; [reflexivity|]; split; [reflexivity|];
            split; [reflexivity | cbn [user_email]; assumption]
          | right; right; eexists; split; [reflexivity|]; split; [|reflexivity];
            let x := fresh "x" in
            intros x; cbv beta;
            match goal with
            | |- context [String.eqb (user_id x) ?i] =>
                destruct (String.eqb (user_id x) i); split; reflexivity
            end ].
Qed.

Lemma verificationTokens_after_keyed rt rq s :
  let d := db s in
  let d' := db (snd (serve rt rq s)) in
  (verificationTokens d' = verificationTokens d /\
   next_verificationToken d' = next_verificationToken d)
  \/ (exists t,
        verificationTokens d' = (verificationTokens d ++ [t])%list /\
        tok_id t = new_id (next_verificationToken d) /\
        next_verificationToken d' = S (next_verificationToken d))
  \/ (exists id,
        verificationTokens d' = remove_token id (verificationTokens d) /\
        next_verificationToken d' = next_verificationToken d).
Proof.
  destruct rq; run_all;
    first [ left; split; reflexivity
          | right; left; eexists; split; [reflexivity|]; split; reflexivity
          | right; right; eexists; split; reflexivity ].
Qed.

Lemma passwordResetTokens_after_keyed rt rq s :
  let d := db s in
  let d' := db (snd (serve rt rq s)) in
  (passwordResetTokens d' = passwordResetTokens d /\
   next_passwordResetToken d' = next_passwordResetToken d)
  \/ (exists t,
        passwordResetTokens d' = (passwordResetTokens d ++ [t])%list /\
        tok_id t = new_id (next_passwordResetToken d) /\
        next_passwordResetToken d' = S (next_passwordResetToken d))
  \/ (exists id,
        passwordResetTokens d' = remove_token id (passwordResetTokens d) /\
        next_passwordResetToken d' = next_passwordResetToken d).
Proof.
  destruct rq; run_all;
    first [ left; split; reflexivity
          | right; left; eexists; split; [reflexivity|]; split; reflexivity
          | right; right; eexists; split; reflexivity ].
Qed.

Lemma keyed_add ids counter :
  (forall a b, new_id a = new_id b -> a = b) ->
  keyed ids counter -> keyed (ids ++ [new_id counter]) (S counter).
Proof.
  intros Hinj [Hnd Hb]. split.
  - apply NoDup_app; [exact Hnd | repeat constructor; intros [] | ].
    intros id Hin [E | []]. subst id.
    destruct (Hb _ Hin) as (k & Hk & E). apply Hinj in E. lia.
  - intros id Hin. apply in_app_or in Hin as [Hin | [E | []]].
    + destruct (Hb _ Hin) as (k & Hk & E). exists k. split; [lia | exact E].
    + exists counter. split; [lia | auto].
Qed.

Lemma filter_keeps_distinct_keys {A B} (key : A -> B) (keep : A -> bool) (rows : list A) :
  NoDup (map key rows) -> NoDup (map key (filter keep rows)).
Proof.
  induction rows as [|row rows IH]; cbn; intros Hnd; [exact Hnd|].
  apply NoDup_cons_iff in Hnd as [Hfresh Hnd].
  destruct (keep row); cbn; [|exact (IH Hnd)].
  apply NoDup_cons; [|exact (IH Hnd)].
  rewrite in_map_iff. intros (other & Hkey & Hin).
  apply filter_In in Hin as [Hin _].
  apply Hfresh, in_map_iff. exists other. split; assumption.
Qed.

Lemma keyed_remove id table counter :
  keyed (map tok_id table) counter -> keyed (map tok_id (remove_token id table)) counter.
Proof.
  intros [Hnd Hb]. split.
  - apply filter_keeps_distinct_keys, Hnd.
  - intros i Hin. apply Hb. apply in_map_iff in Hin as (t & Ht & Hin).
    apply remove_token_in in Hin as [Hin _]. apply in_map_iff. eauto.
Qed.

Lemma well_keyed_preserved rt rq s :
  (forall a b, new_id a = new_id b -> a = b) ->
  well_keyed (db s) -> well_keyed (db (snd (serve rt rq s))).
Proof.
  intros Hinj (Hu & Hv & Hp). split; [|split].
  - destruct (users_after_keyed rt rq s)
      as [[E C] | [(u & E & Hid & C & _) | (g & E & Hg & C)]]; cbv zeta in *; rewrite E, C.
    + exact Hu.
    + rewrite map_app. cbn [map]. rewrite Hid. apply keyed_add; assumption.
    + rewrite map_map. erewrite map_ext; [exact Hu|]. intros u. apply Hg.
  - destruct (verificationTokens_after_keyed rt rq s)
      as [[E C] | [(t & E & Hid & C) | (id & E & C)]]; cbv zeta in *; rewrite E, C.
    + exact Hv.
    + rewrite map_app. cbn [map]. rewrite Hid. apply keyed_add; assumption.
    + apply keyed_remove, Hv.
  - destruct (passwordResetTokens_after_keyed rt rq s)
      as [[E C] | [(t & E & Hid & C) | (id & E & C)]]; cbv zeta in *; rewrite E, C.
    + exact Hp.
    + rewrite map_app. cbn [map]. rewrite Hid. apply keyed_add; assumption.
    + apply keyed_remove, Hp.
Qed.

Lemma reachable_well_keyed s :
  (forall a b, new_id a = new_id b -> a = b) ->
  reachable s -> well_keyed (db s).
Proof.
  intros Hinj. induction 1 as [|rt rq s _ IH].
  - repeat split; try constructor; intros id [].
  - apply well_keyed_preserved; assumption.
Qed.

Lemma emails_unique_preserved rt rq s :
  NoDup (map user_email (users (db s))) ->
  NoDup (map user_email (users (db (snd (serve rt rq s))))).
Proof.
  intros H.
  destruct (users_after_keyed rt rq s)
    as [[E _] | [(u & E & _ & _ & Hfresh) | (g & E & Hg & _)]]; cbv zeta in *; rewrite E.
  - exact H.
  - rewrite map_app. cbn [map].
    apply NoDup_app; [exact H | repeat constructor; intros [] |].
    intros e Hin [Ee | []]. subst e.
    apply in_map_iff in Hin as (x & Hx & Hin).
    unfold user_by_email in Hfresh.
    pose proof (find_none _ _ Hfresh x Hin) as Hne. cbn in Hne.
    rewrite Hx, String.eqb_refl in Hne. discriminate.
  - rewrite map_map. erewrite map_ext; [exact H|]. intros u. apply Hg.
Qed.

Lemma reachable_emails_unique s :
  reachable s -> NoDup (map user_email (users (db s))).
Proof.
  induction 1 as [|rt rq s _ IH].
  - constructor.
  - apply emails_unique_preserved, IH.
Qed.

Lemma find_unique {A} (key : A -> string) (l : list A) (x : A) :
  NoDup (map key l) -> In x l ->
  find (fun y => String.eqb (key y) (key x)) l = Some x.
Proof.
  induction l as [|y l IH]; cbn; [intros _ []|].
  intros Hnd Hin. inversion Hnd as [|k ks Hnin Hnd']; subst.
  destruct Hin as [E | Hin].
  - subst y. rewrite String.eqb_refl. reflexivity.
  - destruct (String.eqb (key y) (key x)) eqn:E.
    + apply String.eqb_eq in E. exfalso. apply Hnin. rewrite E.
      apply in_map. exact Hin.
    + apply IH; assumption.
Qed.

(** When the schema's key generator never repeats a key, every state the
    server reaches has pairwise distinct primary keys in its three tables
    and exact lookups: [findUnique] by id or by email returns the very
    record that carries the id or the email. *)
Theorem primary_keys_are_distinct :
  forall s : State,
    (forall a b, new_id a = new_id b -> a = b) ->
    reachable s ->
    NoDup (map user_id (users (db s))) /\
    NoDup (map tok_id (verificationTokens (db s))) /\
    NoDup (map tok_id (passwordResetTokens (db s))) /\
    (forall u, In u (users (db s)) ->
               user_by_id (user_id u) (db s) = Some u /\
               user_by_email (user_email u) (db s) = Some u).
Proof.
  intros s Hinj Hreach.
  destruct (reachable_well_keyed s Hinj Hreach) as ((Hu & _) & (Hv & _) & (Hp & _)).
  pose proof (reachable_emails_unique s Hreach) as He.
  repeat (split; [assumption|]).
  intros u Hin. split.
  - apply (find_unique user_id); assumption.
  - apply (find_unique user_email); assumption.
Qed.

(** In every state the server reaches, no two user records have the same
    email: [signup] and [google] look the email up before they create a
    record, and no handler changes an email. *)
Theorem emails_are_unique :
  forall s : State, reachable s -> NoDup (map user_email (users (db s))).
Proof.
  intros s Hreach. induction Hreach as [|rt rq s _ IH].
  - (* the empty store *)
    cbn. constructor.
  - (* one more request *)
    exact (emails_unique_preserved rt rq s IH).
Qed.

(** ** Consuming a token removes one row *)

Lemma filter_all {A} (p : A -> bool) (l : list A) :
  (forall y, In y l -> p y = true) -> filter p l = l.
Proof.
  induction l as [|z l IH]; intros H; [reflexivity|].
  cbn. rewrite (H z (or_introl eq_refl)). f_equal. apply IH.
  intros y Hy. apply H. right. exact Hy.
Qed.

Lemma remove_one {A} (key : A -> string) (l : list A) (x : A) :
  NoDup (map key l) -> In x l ->
  S (List.length (filter (fun y => negb (String.eqb (key y) (key x))) l)) = List.length l /\
  forall y, In y (filter (fun y => negb (String.eqb (key y) (key x))) l) <-> In y l /\ y <> x.
Proof.
  intros Hnd Hin. split.
  - induction l as [|z l IH]; [destruct Hin|].
    cbn [map] in Hnd. inversion Hnd as [|k ks Hnin Hnd']; subst.
    cbn [filter]. destruct Hin as [E | Hin].
    + (* the row itself: no later row has its key *)
      subst z. rewrite String.eqb_refl. cbn [negb List.length]. f_equal. f_equal.
      apply filter_all. intros y Hy. apply negb_true_iff, String.eqb_neq.
      intros Ek. apply Hnin. rewrite <- Ek. apply in_map, Hy.
    + (* another row: it is kept *)
      destruct (String.eqb (key z) (key x)) eqn:Ez.
      * exfalso. apply Hnin. apply String.eqb_eq in Ez. rewrite Ez. apply in_map, Hin.
      * cbn [negb List.length]. f_equal. apply IH; assumption.
  - intros y. rewrite filter_In, negb_true_iff, String.eqb_neq. split.
    + intros [Hy Hk]. split; [exact Hy | congruence].
    + intros [Hy Hne]. split; [exact Hy|]. intros Hk. apply Hne.
      pose proof (find_unique key l x Hnd Hin) as Fx.
      pose proof (find_unique key l y Hnd Hy) as Fy.
      rewrite Hk in Fy. congruence.
Qed.

(** With a key generator that never repeats a key, and in a state the
    server reaches, a [verifyEmail] or [resetPassword] that returns has
    removed from its token table exactly the one row it matched: the table
    is one row shorter and holds every other row it held. *)
Theorem consuming_removes_exactly_one_row :
  forall (rt : Runtime) (s : State),
    (forall a b, new_id a = new_id b -> a = b) ->
    reachable s ->
    (forall code email,
       let r := serve rt (VerifyEmail code email) s in
       fst r = Returned tt ->
       exists t,
         In t (verificationTokens (db s)) /\ tok_token t = str code /\
         S (List.length (verificationTokens (db (snd r))))
         = List.length (verificationTokens (db s)) /\
         (forall t', In t' (verificationTokens (db (snd r))) <->
                     In t' (verificationTokens (db s)) /\ t' <> t) /\
         passwordResetTokens (db (snd r)) = passwordResetTokens (db s)) /\
    (forall token password,
       let r := serve rt (ResetPassword token password) s in
       fst r = Returned tt ->
       exists t,
         In t (passwordResetTokens (db s)) /\ tok_token t = str token /\
         S (List.length (passwordResetTokens (db (snd r))))
         = List.length (passwordResetTokens (db s)) /\
         (forall t', In t' (passwordResetTokens (db (snd r))) <->
                     In t' (passwordResetTokens (db s)) /\ t' <> t) /\
         verificationTokens (db (snd r)) = verificationTokens (db s)).
Proof.
  intros rt s Hinj Hreach.
  destruct (reachable_well_keyed s Hinj Hreach) as (_ & (Hv & _) & (Hp & _)).
  split.
  - intros code email r Hret. subst r.
    destruct (verifyEmail_returned rt code email s Hret)
      as (user & t & _ & _ & _ & _ & Hin & (_ & Hcode & _) & Hdb & _).
    exists t. rewrite Hdb.
    cbn [verificationTokens passwordResetTokens delete_verificationToken update_user].
    destruct (remove_one tok_id _ t Hv Hin) as [Hlen Hmem].
    repeat split; try assumption; try reflexivity; apply Hmem; assumption.
  - intros token password r Hret. subst r.
    destruct (resetPassword_returned rt token password s Hret)
      as (t & _ & _ & Hin & (Htoken & _) & Hdb & _).
    exists t. rewrite Hdb.
    cbn [verificationTokens passwordResetTokens delete_passwordResetToken update_user].
    destruct (remove_one tok_id _ t Hp Hin) as [Hlen Hmem].
    repeat split; try assumption; try reflexivity; apply Hmem; assumption.
Qed.

(** ** Reset tokens *)

Lemma hex_value_digit n : (n < 16)%N -> hex_value (hex_digit n) = n.
Proof.
  intros H. destruct n as [|p]; [reflexivity|].
  do 4 (try (destruct p as [p|p|]; try reflexivity)); lia.
Qed.

Lemma hex_digit_lower n :
  existsb (Ascii.eqb (hex_digit n))
    ["0"; "1"; "2"; "3"; "4"; "5"; "6"; "7"; "8"; "9"; "a"; "b"; "c"; "d"; "e"; "f"]%char
  = true.
Proof.
  unfold hex_digit.
  repeat match goal with
         | |- context [match ?x with _ => _ end] => destruct x
         end; reflexivity.
Qed.

Lemma byte_of_hex_digits b b' :
  hex_digit (Byte.to_N b / 16) = hex_digit (Byte.to_N b' / 16) ->
  hex_digit (Byte.to_N b mod 16) = hex_digit (Byte.to_N b' mod 16) ->
  b = b'.
Proof.
  intros Hh Hl.
  pose proof (Byte.to_N_bounded b) as Bb. pose proof (Byte.to_N_bounded b') as Bb'.
  apply (f_equal hex_value) in Hh, Hl.
  rewrite !hex_value_digit in Hh, Hl;
    try (apply N.mod_lt; discriminate);
    try (apply N.Div0.div_lt_upper_bound; lia).
  assert (E : Byte.to_N b = Byte.to_N b').
  { rewrite (N.div_mod (Byte.to_N b) 16), (N.div_mod (Byte.to_N b') 16) by discriminate.
    rewrite Hh, Hl. reflexivity. }
  pose proof (Byte.of_to_N b) as Ob. pose proof (Byte.of_to_N b') as Ob'.
  rewrite E in Ob. congruence.
Qed.

Lemma Buffer_toString_hex_injective bytes : forall bytes',
  Buffer_toString_hex bytes = Buffer_toString_hex bytes' -> bytes = bytes'.
Proof.
  induction bytes as [|b bytes IH]; intros [|b' bytes'] E; cbn in E;
    try reflexivity; try discriminate.
  inversion E as [[Hh Hl Hrest]].
  f_equal; [apply byte_of_hex_digits; assumption | apply IH; assumption].
Qed.

Lemma Buffer_toString_hex_length bytes :
  String.length (Buffer_toString_hex bytes) = (2 * List.length bytes)%nat.
Proof.
  induction bytes as [|b bytes IH]; [reflexivity|].
  cbn [Buffer_toString_hex String.length List.length]. rewrite IH. lia.
Qed.

Lemma Buffer_toString_hex_chars bytes :
  all_chars (fun c => existsb (Ascii.eqb c)
       ["0"; "1"; "2"; "3"; "4"; "5"; "6"; "7"; "8"; "9"; "a"; "b"; "c"; "d"; "e"; "f"]%char)
    (Buffer_toString_hex bytes) = true.
Proof.
  induction bytes as [|b bytes IH]; [reflexivity|].
  cbn [Buffer_toString_hex all_chars]. rewrite !hex_digit_lower, IH. reflexivity.
Qed.

(** Every row a request adds to the reset-token table carries the bytes
    drawn in that request written in lowercase hexadecimal, two characters a
    byte, and expires one hour after the request's [Date.now()]; byte
    strings that differ give tokens that differ. *)
Theorem reset_tokens_are_the_bytes_in_hex :
  forall (rt : Runtime) (rq : Request) (s : State),
    let r := serve rt rq s in
    (forall t,
       In t (passwordResetTokens (db (snd r))) ->
       ~ In t (passwordResetTokens (db s)) ->
       tok_token t = Buffer_toString_hex (crypto_randomBytes rt) /\
       String.length (tok_token t) = (2 * List.length (crypto_randomBytes rt))%nat /\
       all_chars (fun c => existsb (Ascii.eqb c)
            ["0"; "1"; "2"; "3"; "4"; "5"; "6"; "7"; "8"; "9";
             "a"; "b"; "c"; "d"; "e"; "f"]%char) (tok_token t) = true /\
       tok_expiresAt t = date_now rt + 60 * 60 * 1000) /\
    (forall bytes,
       Buffer_toString_hex bytes = Buffer_toString_hex (crypto_randomBytes rt) ->
       bytes = crypto_randomBytes rt).
Proof.
  intros rt rq s r. split; [|intros bytes; apply Buffer_toString_hex_injective].
  intros t Hin Hnew. subst r.
  destruct (passwordResetTokens_after rt rq s) as [E | [(u & Hu & E & _) | (id & E & _)]];
    cbv zeta in E; rewrite E in Hin.
  - contradiction.
  - apply in_app_or in Hin as [Hin | [Hin | []]]; [contradiction|]. subst t.
    cbn [tok_token tok_expiresAt].
    split; [reflexivity|]. split; [apply Buffer_toString_hex_length|].
    split; [apply Buffer_toString_hex_chars | reflexivity].
  - apply remove_token_in in Hin as [Hin _]. contradiction.
Qed.

(** ** Responses *)

(** What a handler leaves in the response object, by the way it ends.  A
    handler that returns has set status 200 (201 in [signup]) and a body
    with [success: true].  A handler that throws has written no body; if the
    error is one the controller made, the status is 400, 401, 403 or 404; if
    it comes from the mail service or from a library, no status was set. *)
Theorem responses_are_consistent :
  forall (rt : Runtime) (rq : Request) (s : State),
    let r := serve rt rq s in
    match fst r with
    | Returned _ =>
        statusCode (res (snd r)) = match rq with Signup _ _ _ => 201 | _ => 200 end /\
        exists j, body (res (snd r)) = Some j /\ success j = true
    | Thrown (Error msg) =>
        body (res (snd r)) = None /\
        (In (statusCode (res (snd r))) [400; 401; 403; 404] \/
         statusCode (res (snd r)) = 200 /\
         exists what error_message,
           msg = "Failed to send " ++ what ++ ": " ++ error_message)
    | Thrown _ =>
        body (res (snd r)) = None /\ statusCode (res (snd r)) = 200
    end.
Proof.
  intros rt rq s. cbv zeta.
  destruct rq; run_all; try discriminate;
    first [ split; [reflexivity | eexists; split; reflexivity]
          | split; [reflexivity | left; cbn; solve [auto 6]]
          | split; [reflexivity | right; split; [reflexivity |];
            match goal with
            | H : Thrown (Error (_ ++ ?what ++ _ ++ ?m)) = Thrown (Error _) |- _ =>
                exists what, m; injection H as <-; reflexivity
            end ]
          | split; reflexivity ].
Qed.

(** A session cookie is set only by a request that returns, and only by
    [signup], [verifyEmail], [login] and [google]; the token in it is signed
    for the id and email of a user record the store holds after the
    request. *)
Theorem session_cookie_only_on_success :
  forall (rt : Runtime) (rq : Request) (s : State) (name value : string)
         (options : CookieOptions),
    let r := serve rt rq s in
    In (Cookie name value options) (setCookie (res (snd r))) ->
    fst r = Returned tt /\
    match rq with
    | Signup _ _ _ | VerifyEmail _ _ | Login _ _ | Google _ => True
    | _ => False
    end /\
    exists user,
      In user (users (db (snd r))) /\
      value = jwt_sign {| jwt_userId := user_id user; jwt_email := user_email user |}
                (JWT_SECRET env) "7d" (date_now rt).
Proof.
  intros rt rq s name value options. cbv zeta.
  destruct rq; run_all; intros Hin; cbn in Hin;
    repeat match goal with
           | H : _ \/ _ |- _ => destruct H
           | H : False |- _ => destruct H
           | H : Cookie _ _ _ = Cookie _ _ _ |- _ => inversion H; clear H; subst
           | H : ClearCookie _ _ = Cookie _ _ _ |- _ => discriminate H
           end;
    (split; [reflexivity|]; split; [exact I|]).
  all: cbn [user_id user_email set_isVerified].
  all: try (eexists; split; [apply in_or_app; right; left; reflexivity | reflexivity]).
  all: try (match goal with
            | H : user_by_email _ _ = Some ?u |- exists user, In user (users (db _)) /\ _ =>
                exists u; split; [eapply user_by_email_in; eassumption | reflexivity]
            end).
  all: match goal with
       | H : user_by_id ?i _ = Some ?u |- _ =>
           exists (set_isVerified u); split; [|reflexivity];
           apply in_map_iff; exists u;
           pose proof (find_some _ _ H) as [Hmem Hkey]; cbv beta in Hkey;
           rewrite Hkey; split; [reflexivity | exact Hmem]
       end.
Qed.

End Handlers.

(** * Several tokens at once *)

Section Coexistence.

Context {ext : Externals}.

(** The store after a [regenerateVerificationToken] that found an
    unverified account. *)
Lemma regenerateVerificationToken_db rt email s user :
  falsy email = false ->
  isEmail (str email) = true ->
  user_by_email (str email) (db s) = Some user ->
  user_isVerified user = false ->
  db (snd (serve rt (RegenerateVerificationToken email) s)) =
  insert_verificationToken
    {| tok_id := new_id (next_verificationToken (db s));
       tok_token := verificationCode (math_random rt);
       tok_expiresAt := date_now rt + verification_lifetime;
       tok_userId := user_id user |} (db s).
Proof.
  intros He Hv Hu Hunverified. unfold serve, handler, regenerateVerificationToken.
  rewrite He, Hv. cbn [negb].
  unfold_controller. step. rewrite Hu. step. rewrite Hunverified. step.
  destruct (ses_send _); reflexivity.
Qed.

Lemma verificationCode_nonempty r : falsy (Some (verificationCode r)) = false.
Proof. apply falsy_Some. unfold verificationCode. apply Number_toString_nonempty. Qed.

Lemma Buffer_toString_hex_nonempty bytes :
  bytes <> [] -> falsy (Some (Buffer_toString_hex bytes)) = false.
Proof.
  intros H. apply falsy_Some. destruct bytes; [congruence | discriminate].
Qed.

(** C10.  [regenerateVerificationToken] and [forgotPassword] never delete or
    alter a row: whatever the request, the other tables are as before and
    their own table is as before or has one row more at its end.  When they
    get to the store (the request passes validation, the account exists and,
    for [regenerateVerificationToken], is unverified), the table afterwards
    is exactly the table before followed by the new row, and in the state
    they leave [verifyEmail] / [resetPassword] accept every earlier row that
    is unexpired as well as the new one: several codes, or several reset
    tokens, of one user are valid at once.  In any state at all,
    [verifyEmail] accepts any unexpired row of the user carrying the
    submitted code, and [resetPassword] any unexpired row carrying the
    submitted token (for a store whose token rows refer to existing
    users). *)
Theorem issuing_keeps_earlier_tokens :
  forall (rt : Runtime) (s : State),
    (forall email,
       let d' := db (snd (serve rt (RegenerateVerificationToken email) s)) in
       users d' = users (db s) /\
       passwordResetTokens d' = passwordResetTokens (db s) /\
       (verificationTokens d' = verificationTokens (db s) \/
        exists t, verificationTokens d' = (verificationTokens (db s) ++ [t])%list)) /\
    (forall email user,
       falsy email = false -> isEmail (str email) = true ->
       user_by_email (str email) (db s) = Some user ->
       user_isVerified user = false ->
       let s' := snd (serve rt (RegenerateVerificationToken email) s) in
       let code := verificationCode (math_random rt) in
       verificationTokens (db s') =
       (verificationTokens (db s) ++
        [{| tok_id := new_id (next_verificationToken (db s));
            tok_token := code;
            tok_expiresAt := date_now rt + 24 * 60 * 60 * 1000;
            tok_userId := user_id user |}])%list /\
       (forall rt' submitted earlier,
          falsy submitted = false ->
          In earlier (verificationTokens (db s)) ->
          valid_verificationToken (user_id user) (str submitted) (date_now rt') earlier ->
          let r := serve rt' (VerifyEmail submitted email) s' in
          fst r = Returned tt /\ statusCode (res (snd r)) = 200) /\
       (forall rt',
          date_now rt' < date_now rt + 24 * 60 * 60 * 1000 ->
          let r := serve rt' (VerifyEmail (Some code) email) s' in
          fst r = Returned tt /\ statusCode (res (snd r)) = 200)) /\
    (forall email,
       let d' := db (snd (serve rt (ForgotPassword email) s)) in
       users d' = users (db s) /\
       verificationTokens d' = verificationTokens (db s) /\
       (passwordResetTokens d' = passwordResetTokens (db s) \/
        exists t, passwordResetTokens d' = (passwordResetTokens (db s) ++ [t])%list)) /\
    (forall email user,
       falsy email = false -> isEmail (str email) = true ->
       user_by_email (str email) (db s) = Some user ->
       references_users (db s) ->
       let s' := snd (serve rt (ForgotPassword email) s) in
       let token := Buffer_toString_hex (crypto_randomBytes rt) in
       passwordResetTokens (db s') =
       (passwordResetTokens (db s) ++
        [{| tok_id := new_id (next_passwordResetToken (db s));
            tok_token := token;
            tok_expiresAt := date_now rt + 60 * 60 * 1000;
            tok_userId := user_id user |}])%list /\
       (forall rt' submitted password earlier,
          falsy submitted = false -> falsy password = false ->
          In earlier (passwordResetTokens (db s)) ->
          valid_passwordResetToken (str submitted) (date_now rt') earlier ->
          resetPassword_accepted rt' submitted password s') /\
       (forall rt' password,
          crypto_randomBytes rt <> [] -> falsy password = false ->
          date_now rt' < date_now rt + 60 * 60 * 1000 ->
          resetPassword_accepted rt' (Some token) password s')) /\
    (forall code email user t,
       falsy code = false -> falsy email = false -> isEmail (str email) = true ->
       user_by_email (str email) (db s) = Some user ->
       In t (verificationTokens (db s)) ->
       valid_verificationToken (user_id user) (str code) (date_now rt) t ->
       let r := serve rt (VerifyEmail code email) s in
       fst r = Returned tt /\ statusCode (res (snd r)) = 200) /\
    (forall token password t,
       falsy token = false -> falsy password = false ->
       In t (passwordResetTokens (db s)) ->
       valid_passwordResetToken (str token) (date_now rt) t ->
       references_users (db s) ->
       resetPassword_accepted rt token password s).
Proof.
  intros rt s. repeat apply conj.
  - intros email. apply regenerateVerificationToken_frame.
  - (* a code is issued *)
    intros email user He Hv Hu Hunverified. cbv zeta.
    pose proof (regenerateVerificationToken_db rt email s user He Hv Hu Hunverified) as Hdb.
    set (s' := snd (serve rt (RegenerateVerificationToken email) s)) in *.
    assert (Hu' : user_by_email (str email) (db s') = Some user)
      by (rewrite Hdb; exact Hu).
    assert (Htable : verificationTokens (db s') =
                     (verificationTokens (db s) ++
                      [{| tok_id := new_id (next_verificationToken (db s));
                          tok_token := verificationCode (math_random rt);
                          tok_expiresAt := date_now rt + 24 * 60 * 60 * 1000;
                          tok_userId := user_id user |}])%list)
      by (rewrite Hdb; reflexivity).
    split; [exact Htable|]. split.
    + intros rt' submitted earlier Hs Hin Hval.
      apply (verifyEmail_accepts rt' submitted email s' user earlier Hs He Hv Hu');
        [|exact Hval].
      rewrite Htable. apply in_or_app. left. exact Hin.
    + intros rt' Hlater.
      eapply (verifyEmail_accepts rt' _ email s' user _ (verificationCode_nonempty _)
                He Hv Hu').
      * rewrite Htable. apply in_or_app. right. left. reflexivity.
      * repeat split. exact Hlater.
  - intros email. apply forgotPassword_frame.
  - (* a reset token is issued *)
    intros email user He Hv Hu Href. cbv zeta.
    pose proof (forgotPassword_db rt email s user He Hv Hu) as Hdb.
    pose proof (references_users_preserved rt (ForgotPassword email) s Href) as Href'.
    set (s' := snd (serve rt (ForgotPassword email) s)) in *.
    assert (Htable : passwordResetTokens (db s') =
                     (passwordResetTokens (db s) ++
                      [{| tok_id := new_id (next_passwordResetToken (db s));
                          tok_token := Buffer_toString_hex (crypto_randomBytes rt);
                          tok_expiresAt := date_now rt + 60 * 60 * 1000;
                          tok_userId := user_id user |}])%list)
      by (rewrite Hdb; reflexivity).
    split; [exact Htable|]. split.
    + intros rt' submitted password earlier Hs Hp Hin Hval.
      apply (resetPassword_accepts rt' submitted password s' earlier Hs Hp);
        [|exact Hval | exact Href'].
      rewrite Htable. apply in_or_app. left. exact Hin.
    + intros rt' password Hbytes Hp Hlater.
      eapply (resetPassword_accepts rt' _ password s' _
                (Buffer_toString_hex_nonempty _ Hbytes) Hp); [| |exact Href'].
      * rewrite Htable. apply in_or_app. right. left. reflexivity.
      * split; [reflexivity | exact Hlater].
  - intros code email user t. apply verifyEmail_accepts.
  - intros token password t. apply resetPassword_accepts.
Qed.

End Coexistence.

(** ** The properties at work on the sample deployment *)

Lemma verifyEmail_succeeds_iff_valid_token_witness :
  (fst (@serve sample sample_runtime (VerifyEmail (Some "550000") (Some "a@x.io"))
          (initial_state sample_store)) = Returned tt /\
   statusCode (res (snd (@serve sample sample_runtime
                           (VerifyEmail (Some "550000") (Some "a@x.io"))
                           (initial_state sample_store)))) = 200) /\
  fst (@serve sample sample_runtime (VerifyEmail (Some "123456") (Some "a@x.io"))
         (initial_state sample_store))
  = Thrown (Error "Invalid or expired verification code").
Proof.
  split.
  - destruct (@verifyEmail_succeeds_iff_valid_token sample sample_runtime
                (Some "550000") (Some "a@x.io") (initial_state sample_store)) as [[_ H] _].
    apply H. repeat (split; [reflexivity|]).
    exists alice. split; [reflexivity|].
    eexists. split; [left; reflexivity|]. repeat split.
  - destruct (@verifyEmail_succeeds_iff_valid_token sample sample_runtime
                (Some "123456") (Some "a@x.io") (initial_state sample_store)) as [_ H].
    apply (H alice eq_refl eq_refl eq_refl eq_refl).
    intros (t & [E | [E | []]] & _ & Hcode & _); subst t; discriminate Hcode.
Defined.

Lemma login_validates_credentials_witness :
  fst (@serve sample sample_runtime (Login (Some "a@x.io") (Some "pw"))
         (initial_state sample_store)) = Returned tt /\
  fst (@serve sample sample_runtime (Login (Some "a@x.io") (Some "guess"))
         (initial_state sample_store)) = Thrown (Error "Invalid credentials") /\
  fst (@serve sample sample_runtime (Login (Some "b@x.io") (Some "pw"))
         (initial_state sample_store)) = Thrown (Error "User does not exist") /\
  fst (@serve sample sample_runtime (Login (Some "a@x.io") None)
         (initial_state sample_store))
  = Thrown (Error "Please provide both email and password") /\
  fst (@serve sample sample_runtime (Login (Some "a.x.io") (Some "pw"))
         (initial_state sample_store)) = Thrown (Error "Please enter a valid email").
Proof.
  split; [|split; [|split; [|split]]].
  - destruct (@login_validates_credentials sample sample_runtime (Some "a@x.io") (Some "pw")
                (initial_state sample_store)) as (_ & _ & _ & H).
    destruct (H eq_refl eq_refl eq_refl) as (_ & _ & H3).
    apply (H3 alice eq_refl eq_refl).
  - destruct (@login_validates_credentials sample sample_runtime (Some "a@x.io") (Some "guess")
                (initial_state sample_store)) as (_ & _ & _ & H).
    destruct (H eq_refl eq_refl eq_refl) as (_ & H2 & _).
    apply (H2 alice eq_refl eq_refl).
  - destruct (@login_validates_credentials sample sample_runtime (Some "b@x.io") (Some "pw")
                (initial_state sample_store)) as (_ & _ & _ & H).
    destruct (H eq_refl eq_refl eq_refl) as (H1 & _).
    apply (H1 eq_refl).
  - destruct (@login_validates_credentials sample sample_runtime (Some "a@x.io") None
                (initial_state sample_store)) as (_ & H & _).
    apply (H eq_refl).
  - destruct (@login_validates_credentials sample sample_runtime (Some "a.x.io") (Some "pw")
                (initial_state sample_store)) as (_ & _ & H & _).
    apply (H eq_refl eq_refl eq_refl).
Defined.

Lemma length_append (s1 s2 : string) :
  String.length (s1 ++ s2) = (String.length s1 + String.length s2)%nat.
Proof. induction s1 as [|c s1 IH]; cbn; [reflexivity | rewrite IH; reflexivity]. Qed.

Lemma sample_hash_is_not_identity :
  forall plain salt : string, @bcrypt_hash sample plain 10 salt <> plain.
Proof.
  intros plain salt E. apply (f_equal String.length) in E.
  cbn [bcrypt_hash sample] in E. rewrite !length_append in E.
  cbn [String.length] in E. lia.
Qed.

Lemma passwords_are_stored_hashed_witness :
  @passwords_hashed sample
    (db (snd (@serve sample sample_runtime (Signup (Some "b@x.io") (Some "hunter2") (Some "Bob"))
                (initial_state sample_store)))).
Proof.
  apply (@passwords_are_stored_hashed sample sample_runtime
           (Signup (Some "b@x.io") (Some "hunter2") (Some "Bob"))
           (initial_state sample_store) sample_hash_is_not_identity).
  constructor; [|constructor]. exists "pw", "salt". reflexivity.
Defined.

Lemma validation_precedes_store_access_witness :
  calls (snd (@serve sample sample_runtime (Signup (Some "not an address") (Some "pw") (Some "Bob"))
                (initial_state sample_store))) = [] /\
  statusCode (res (snd (@serve sample sample_runtime
                          (Signup (Some "not an address") (Some "pw") (Some "Bob"))
                          (initial_state sample_store)))) = 400.
Proof.
  destruct (@validation_precedes_store_access sample sample_runtime
              (Signup (Some "not an address") (Some "pw") (Some "Bob"))
              (initial_state sample_store) eq_refl) as (_ & Hs & _ & _ & Hc).
  split; [exact Hc | exact Hs].
Defined.

Lemma sample_random_in_unit_interval : F64.unit_interval (math_random sample_runtime).
Proof.
  repeat split.
  - vm_compute. discriminate.
Qed.

Lemma verification_codes_have_six_digits_witness :
  exists t,
    verificationTokens
      (db (snd (@serve sample sample_runtime (RegenerateVerificationToken (Some "a@x.io"))
                  (initial_state sample_store))))
    = (verificationTokens sample_store ++ [t])%list.
Proof.
  destruct (@verification_codes_have_six_digits sample sample_runtime
              (RegenerateVerificationToken (Some "a@x.io"))
              (initial_state sample_store) sample_random_in_unit_interval) as [_ H].
  apply H. reflexivity.
Defined.

Lemma consumed_tokens_are_deleted_witness :
  let code := Some "550000" in
  let email := Some "a@x.io" in
  let first := @serve sample sample_runtime (VerifyEmail code email)
                 (initial_state sample_store) in
  let second := @serve sample later_runtime (VerifyEmail code email) (snd first) in
  fst first = Returned tt /\
  fst second = Thrown (Error "Invalid or expired verification code") /\
  statusCode (res (snd second)) = 403.
Proof.
  cbv zeta. split; [reflexivity|].
  destruct (@consumed_tokens_are_deleted sample sample_runtime later_runtime
              (initial_state sample_store)) as [H _].
  destruct (H (Some "550000") (Some "a@x.io") eq_refl)
    as (user & t & Hu & Hin & Hval & _ & _ & Hsecond).
  assert (Ht : tok_id t = "0").
  { destruct Hval as (_ & Hcode & _).
    destruct Hin as [E | [E | []]]; subst t; [reflexivity | discriminate Hcode]. }
  destruct Hsecond as (H1 & H2 & _).
  - intros t' Hin' (_ & Hcode' & _). rewrite Ht.
    destruct Hin' as [E | [E | []]]; subst t'; [reflexivity | discriminate Hcode'].
  - cbn. lia.
  - split; assumption.
Defined.

Lemma handlers_validate_access_store_and_notify_witness :
  grows [] (sent (snd (@serve sample sample_runtime
                         (Signup (Some "b@x.io") (Some "hunter2") (Some "Bob"))
                         (initial_state sample_store)))) /\
  grows [] (calls (snd (@serve sample sample_runtime
                          (Signup (Some "b@x.io") (Some "hunter2") (Some "Bob"))
                          (initial_state sample_store)))).
Proof.
  destruct (@handlers_validate_access_store_and_notify sample sample_runtime
              (Signup (Some "b@x.io") (Some "hunter2") (Some "Bob"))
              (initial_state sample_store)) as [[_ Hc] Hm].
  split; [apply Hm | apply Hc]; reflexivity.
Defined.

Lemma bob_references_users : references_users (db bob_signed_up).
Proof. intros t [[E | []] | []]. subst t. eexists. reflexivity. Qed.

Lemma issuing_keeps_earlier_tokens_witness :
  let coded := snd (@serve sample third_runtime
                      (RegenerateVerificationToken (Some "b@x.io")) bob_signed_up) in
  let asked := snd (@serve sample sample_runtime (ForgotPassword (Some "b@x.io"))
                      bob_signed_up) in
  let asked_again := snd (@serve sample third_runtime (ForgotPassword (Some "b@x.io"))
                            asked) in
  (map tok_token (verificationTokens (db coded)) = ["550000"; "325000"] /\
   fst (@serve sample later_runtime (VerifyEmail (Some "550000") (Some "b@x.io")) coded)
   = Returned tt /\
   fst (@serve sample later_runtime (VerifyEmail (Some "325000") (Some "b@x.io")) coded)
   = Returned tt) /\
  (map tok_token (passwordResetTokens (db asked_again)) = ["0aff"; "1234"] /\
   @resetPassword_accepted sample later_runtime (Some "0aff") (Some "s3cret") asked_again /\
   @resetPassword_accepted sample later_runtime (Some "1234") (Some "s3cret") asked_again).
Proof.
  cbv zeta. split.
  - destruct (@issuing_keeps_earlier_tokens sample third_runtime bob_signed_up)
      as (_ & Hcode & _).
    destruct (Hcode (Some "b@x.io")
                {| user_id := "0"; user_email := "b@x.io";
                   user_password := "$2a$10$salt$hunter2";
                   user_name := "Bob"; user_isVerified := false |}
                eq_refl eq_refl eq_refl eq_refl) as (Htable & Hearlier & Hnew).
    split; [rewrite Htable; reflexivity|]. split.
    + refine (proj1 (Hearlier later_runtime (Some "550000") _ eq_refl
                       (or_introl eq_refl) _)).
      repeat split.
    + exact (proj1 (Hnew later_runtime eq_refl)).
  - destruct (@issuing_keeps_earlier_tokens sample third_runtime
                (snd (@serve sample sample_runtime (ForgotPassword (Some "b@x.io"))
                        bob_signed_up)))
      as (_ & _ & _ & Htoken & _).
    destruct (Htoken (Some "b@x.io")
                {| user_id := "0"; user_email := "b@x.io";
                   user_password := "$2a$10$salt$hunter2";
                   user_name := "Bob"; user_isVerified := false |}
                eq_refl eq_refl eq_refl
                (@references_users_preserved sample sample_runtime
                   (ForgotPassword (Some "b@x.io")) bob_signed_up bob_references_users))
      as (Htable & Hearlier & Hnew).
    split; [rewrite Htable; reflexivity|]. split.
    + refine (Hearlier later_runtime (Some "0aff") (Some "s3cret") _ eq_refl eq_refl
                (or_introl eq_refl) _).
      split; reflexivity.
    + refine (Hnew later_runtime (Some "s3cret") _ eq_refl eq_refl). discriminate.
Defined.

(** C8 as stated fails where [login] stops at its own checks, before it
    looks at the credentials: no user has the email "nobody", and the
    answer is "Please enter a valid email", not "User does not exist"; the
    empty password does not match the stored hash, and the answer is
    "Please provide both email and password", not "Invalid credentials". *)
Lemma login_checks_the_fields_first :
  (user_by_email "nobody" sample_store = None /\
   fst (@serve sample sample_runtime (Login (Some "nobody") (Some "pw"))
          (initial_state sample_store)) = Thrown (Error "Please enter a valid email") /\
   fst (@serve sample sample_runtime (Login (Some "nobody") (Some "pw"))
          (initial_state sample_store)) <> Thrown (Error "User does not exist")) /\
  (user_by_email "a@x.io" sample_store = Some alice /\
   @bcrypt_compare sample "" (user_password alice) = false /\
   fst (@serve sample sample_runtime (Login (Some "a@x.io") (Some ""))
          (initial_state sample_store))
   = Thrown (Error "Please provide both email and password") /\
   fst (@serve sample sample_runtime (Login (Some "a@x.io") (Some ""))
          (initial_state sample_store)) <> Thrown (Error "Invalid credentials")).
Proof.
  split; (split; [reflexivity|]); [|split; [reflexivity|]];
    (split; [reflexivity | discriminate]).
Qed.

(** C6 as stated fails at [checkAuth]: a request without the token cookie
    is answered 401, not 400. *)
Lemma checkAuth_without_token_answers_401 :
  fst (@serve sample sample_runtime (CheckAuth None) (initial_state sample_store))
  = Thrown (Error "Unauthorized – no token provided") /\
  statusCode (res (snd (@serve sample sample_runtime (CheckAuth None)
                          (initial_state sample_store)))) = 401 /\
  statusCode (res (snd (@serve sample sample_runtime (CheckAuth None)
                          (initial_state sample_store)))) <> 400.
Proof. split; [reflexivity|]. split; [reflexivity | discriminate]. Qed.

(** C7 as stated fails: no run of [logout] makes a Prisma call or sends
    mail, and no run of [login], [verifyEmail] or [checkAuth] sends mail. *)
Lemma logout_touches_neither_store_nor_mailer :
  ~ (exists (ext : Externals) (rt : Runtime) (s : State),
       calls (snd (serve rt Logout s)) <> calls s \/
       sent (snd (serve rt Logout s)) <> sent s \/
       db (snd (serve rt Logout s)) <> db s) /\
  ~ (exists (ext : Externals) (rt : Runtime) (rq : Request) (s : State),
       match rq with
       | Login _ _ | VerifyEmail _ _ | CheckAuth _ => True
       | _ => False
       end /\
       sent (snd (serve rt rq s)) <> sent s).
Proof.
  split.
  - intros (ext & rt & s & H). destruct (@logout_run ext rt s) as [o E].
    rewrite E in H. cbn in H. intuition congruence.
  - intros (ext & rt & rq & s & Hrq & H). apply H.
    pose proof (@no_mail_from ext rt rq s) as N.
    destruct rq; try contradiction; exact N.
Qed.

(** C3 as stated fails.  From the empty store: sign up, ask for a second
    code (the two draws differ and round to the same six digits), then
    submit that code twice.  Both submissions are accepted. *)
Lemma verification_code_accepted_twice :
  let email := Some "a@x.io" in
  let code := Some "550000" in
  let s1 := snd (@serve sample sample_runtime (Signup email (Some "pw") (Some "Alice"))
                   (initial_state empty_store)) in
  let s2 := snd (@serve sample later_runtime (RegenerateVerificationToken email) s1) in
  let first := @serve sample later_runtime (VerifyEmail code email) s2 in
  let second := @serve sample later_runtime (VerifyEmail code email) (snd first) in
  math_random sample_runtime <> math_random later_runtime /\
  fst first = Returned tt /\ statusCode (res (snd first)) = 200 /\
  fst second = Returned tt /\ statusCode (res (snd second)) = 200.
Proof.
  cbv zeta. split; [vm_compute; discriminate|].
  vm_compute. repeat split.
Qed.

(** ** The further properties at work on the two sample deployments *)

Lemma signup_stores_before_mailing_witness :
  fst (@serve second sample_runtime (Signup (Some "b@x.io") (Some "hunter2") (Some "Bob"))
         (initial_state empty_store))
  = Thrown (Error "Failed to send welcome email: Throttling") /\
  List.length (users (db bob_signed_up_second)) = 1%nat /\
  List.length (verificationTokens (db bob_signed_up_second)) = 1%nat /\
  setCookie (res bob_signed_up_second) = [].
Proof.
  destruct (@signup_stores_before_mailing second sample_runtime
              (Some "b@x.io") (Some "hunter2") (Some "Bob") (initial_state empty_store)
              eq_refl eq_refl eq_refl eq_refl eq_refl) as (Hdb & _ & Hthrown & _ & Hcookie).
  split; [exact Hthrown|]. unfold bob_signed_up_second.
  rewrite Hdb. split; [reflexivity | split; [reflexivity | exact Hcookie]].
Defined.

Lemma signup_rejects_registered_email_witness :
  fst (@serve sample sample_runtime (Signup (Some "a@x.io") (Some "other") (Some "Al"))
         (initial_state sample_store)) = Thrown (Error "User already exists") /\
  db (snd (@serve sample sample_runtime (Signup (Some "a@x.io") (Some "other") (Some "Al"))
             (initial_state sample_store))) = sample_store.
Proof.
  destruct (@signup_rejects_registered_email sample sample_runtime
              (Some "a@x.io") (Some "other") (Some "Al") (initial_state sample_store) alice
              eq_refl eq_refl eq_refl eq_refl eq_refl) as (Hthrown & _ & Hdb & _).
  split; [exact Hthrown | exact Hdb].
Defined.

Lemma signup_is_not_rolled_back_witness :
  fst (@serve second later_runtime (Signup (Some "b@x.io") (Some "again") (Some "Bob"))
         bob_signed_up_second) = Thrown (Error "User already exists").
Proof.
  exact (proj1 (@signup_is_not_rolled_back second sample_runtime later_runtime
                  (Some "b@x.io") (Some "hunter2") (Some "Bob") (Some "again") (Some "Bob")
                  (initial_state empty_store)
                  eq_refl eq_refl eq_refl eq_refl eq_refl eq_refl eq_refl)).
Defined.

Lemma signup_then_verifyEmail_witness :
  fst (@serve second later_runtime (VerifyEmail (Some "550000") (Some "b@x.io"))
         bob_signed_up_second) = Returned tt.
Proof.
  exact (proj1 (@signup_then_verifyEmail second sample_runtime later_runtime
                  (Some "b@x.io") (Some "hunter2") (Some "Bob") (initial_state empty_store)
                  eq_refl eq_refl eq_refl eq_refl eq_refl eq_refl)).
Defined.

Lemma verifyEmail_unknown_user_witness :
  fst (@serve sample sample_runtime (VerifyEmail (Some "550000") (Some "nobody@x.io"))
         (initial_state sample_store)) = Thrown (Error "User not found") /\
  statusCode (res (snd (@serve sample sample_runtime
                          (VerifyEmail (Some "550000") (Some "nobody@x.io"))
                          (initial_state sample_store)))) = 404.
Proof.
  destruct (@verifyEmail_unknown_user sample sample_runtime
              (Some "550000") (Some "nobody@x.io") (initial_state sample_store)
              eq_refl eq_refl eq_refl eq_refl) as (Hthrown & Hstatus & _).
  split; [exact Hthrown | exact Hstatus].
Defined.

Lemma regenerateVerificationToken_outcome_witness :
  fst (@serve sample sample_runtime (RegenerateVerificationToken (Some "a@x.io"))
         (initial_state sample_store)) = Returned tt /\
  sent (snd (@serve sample sample_runtime (RegenerateVerificationToken (Some "a@x.io"))
               (initial_state sample_store))) = [VerificationEmail "a@x.io" "550000"] /\
  setCookie (res (snd (@serve sample sample_runtime
                         (RegenerateVerificationToken (Some "a@x.io"))
                         (initial_state sample_store)))) = [].
Proof.
  destruct (@regenerateVerificationToken_outcome sample sample_runtime (Some "a@x.io")
              (initial_state sample_store) eq_refl eq_refl)
    as (Hcookie & _ & Hsent & Hreturned & _).
  split; [exact Hreturned | split; [exact Hsent | exact Hcookie]].
Defined.

Lemma no_new_code_after_verification_witness :
  fst (@serve sample later_runtime (RegenerateVerificationToken (Some "a@x.io"))
         (snd (@serve sample sample_runtime (VerifyEmail (Some "550000") (Some "a@x.io"))
                 (initial_state sample_store))))
  = Thrown (Error "User already verified").
Proof.
  exact (proj1 (@no_new_code_after_verification sample sample_runtime later_runtime
                  (Some "550000") (Some "a@x.io") (initial_state sample_store) eq_refl)).
Defined.

Lemma forgotPassword_outcome_witness :
  fst (@serve sample sample_runtime (ForgotPassword (Some "a@x.io"))
         (initial_state sample_store)) = Returned tt /\
  sent (snd (@serve sample sample_runtime (ForgotPassword (Some "a@x.io"))
               (initial_state sample_store)))
  = [PasswordResetEmail "a@x.io" "http://localhost:5173/reset-password/0aff"].
Proof.
  destruct (@forgotPassword_outcome sample sample_runtime (Some "a@x.io")
              (initial_state sample_store) eq_refl eq_refl)
    as (_ & _ & Hsent & Hreturned & _).
  split; [exact Hreturned | exact Hsent].
Defined.

Lemma forgotPassword_then_resetPassword_witness :
  @user_by_email "b@x.io"
    (db (snd (@serve sample later_runtime (ResetPassword (Some "0aff") (Some "s3cret"))
                (snd (@serve sample sample_runtime (ForgotPassword (Some "b@x.io"))
                        bob_signed_up)))))
  = Some {| user_id := "0"; user_email := "b@x.io";
            user_password := "$2a$10$salt$s3cret";
            user_name := "Bob"; user_isVerified := false |}.
Proof.
  refine (proj1 (@forgotPassword_then_resetPassword sample sample_runtime later_runtime
                   later_runtime (Some "b@x.io") (Some "s3cret") bob_signed_up
                   {| user_id := "0"; user_email := "b@x.io";
                      user_password := "$2a$10$salt$hunter2";
                      user_name := "Bob"; user_isVerified := false |}
                   eq_refl eq_refl eq_refl _ eq_refl eq_refl _)).
  - discriminate.
  - intros t Hin. destruct Hin.
Defined.

Lemma signup_then_login_witness :
  fst (@serve sample later_runtime (Login (Some "b@x.io") (Some "hunter2")) bob_signed_up)
  = Returned tt.
Proof.
  apply (@signup_then_login sample sample_runtime later_runtime
           (Some "b@x.io") (Some "hunter2") (Some "Bob") (Some "hunter2")
           (initial_state empty_store) eq_refl eq_refl eq_refl eq_refl eq_refl eq_refl).
  reflexivity.
Defined.

Lemma login_then_checkAuth_witness :
  fst (@serve second later_runtime (CheckAuth (Some "0:a@x.io"))
         (snd (@serve second sample_runtime (Login (Some "a@x.io") (Some "pw"))
                 (initial_state sample_store)))) = Returned tt.
Proof.
  destruct (@login_then_checkAuth second sample_runtime later_runtime
              (Some "a@x.io") (Some "pw") (initial_state sample_store) alice
              eq_refl eq_refl eq_refl ltac:(discriminate) eq_refl) as (_ & Hreturned & _).
  exact Hreturned.
Defined.

Lemma google_rejections_witness :
  fst (@serve second sample_runtime (Google (Some "forged")) (initial_state sample_store))
  = Thrown (LibraryError "google-auth-library") /\
  calls (snd (@serve second sample_runtime (Google (Some "forged"))
                (initial_state sample_store))) = [].
Proof.
  destruct (@google_rejections second sample_runtime (Some "forged")
              (initial_state sample_store) eq_refl) as (Hthrown & _ & _ & _ & Hcalls & _).
  split; [exact Hthrown | exact Hcalls].
Defined.

Lemma google_leaves_a_verified_account_witness :
  @user_by_email "a@x.io"
    (db (snd (@serve sample sample_runtime (Google (Some "a@x.io"))
                (initial_state sample_store))))
  = Some {| user_id := "0"; user_email := "a@x.io"; user_password := "$2a$10$salt$pw";
            user_name := "Alice"; user_isVerified := true |}.
Proof.
  destruct (@google_leaves_a_verified_account sample sample_runtime (Some "a@x.io")
              (initial_state sample_store)
              {| gp_email := Some "a@x.io"; gp_name := Some "G";
                 gp_email_verified := Some true |}
              eq_refl eq_refl eq_refl eq_refl eq_refl) as (_ & _ & (_ & _ & Hdb) & _).
  rewrite Hdb. reflexivity.
Defined.

Lemma accounts_persist_witness :
  exists u',
    @user_by_email "a@x.io"
      (db (@serve_all sample
             [(sample_runtime, VerifyEmail (Some "550000") (Some "a@x.io"));
              (later_runtime, Signup (Some "b@x.io") (Some "hunter2") (Some "Bob"));
              (later_runtime, ResetPassword (Some "0aff") (Some "s3cret"))]
             (initial_state sample_store))) = Some u' /\
    user_id u' = "0" /\ user_name u' = "Alice".
Proof.
  destruct (@accounts_persist sample
              [(sample_runtime, VerifyEmail (Some "550000") (Some "a@x.io"));
               (later_runtime, Signup (Some "b@x.io") (Some "hunter2") (Some "Bob"));
               (later_runtime, ResetPassword (Some "0aff") (Some "s3cret"))]
              (initial_state sample_store) "a@x.io" alice eq_refl)
    as ((u' & Hfound & Hid & Hname & _) & _).
  exists u'. split; [exact Hfound | split; [exact Hid | exact Hname]].
Defined.

Lemma resetPassword_refuses_iff_no_valid_row_witness :
  fst (@serve sample sample_runtime (ResetPassword (Some "dead") (Some "s3cret"))
         (initial_state sample_store)) = Thrown (Error "Invalid or expired reset token").
Proof.
  apply (@resetPassword_refuses_iff_no_valid_row sample sample_runtime
           (Some "dead") (Some "s3cret") (initial_state sample_store) eq_refl eq_refl).
  intros t [E | []] [Htoken _]. subst t. discriminate Htoken.
Defined.

Lemma tally_injective (a b : nat) : tally a = tally b -> a = b.
Proof.
  revert b. induction a as [|a IH]; intros [|b] E; cbn in E;
    try discriminate; [reflexivity|].
  injection E as E. f_equal. apply IH, E.
Qed.

Lemma bob_signed_up_reachable : @reachable sample bob_signed_up.
Proof. apply reachable_serve, reachable_start. Qed.

Lemma bob_signed_up_second_reachable : @reachable second bob_signed_up_second.
Proof. apply reachable_serve, reachable_start. Qed.

Lemma emails_are_unique_witness :
  NoDup (map user_email
           (users (db (snd (@serve sample later_runtime (Google (Some "g@x.io"))
                              bob_signed_up))))).
Proof.
  apply (@emails_are_unique sample).
  apply reachable_serve, bob_signed_up_reachable.
Defined.

Lemma primary_keys_are_distinct_witness :
  NoDup (map user_id
           (users (db (snd (@serve second later_runtime (Google (Some "g@x.io"))
                              bob_signed_up_second))))) /\
  @user_by_id "ik"
    (db (snd (@serve second later_runtime (Google (Some "g@x.io")) bob_signed_up_second)))
  = Some {| user_id := "ik"; user_email := "g@x.io";
            user_password := "$2a$10$salt$Uakgb_J5";
            user_name := "G"; user_isVerified := true |}.
Proof.
  destruct (@primary_keys_are_distinct second
              (snd (@serve second later_runtime (Google (Some "g@x.io"))
                      bob_signed_up_second))
              tally_injective
              (reachable_serve _ _ _ bob_signed_up_second_reachable))
    as (Hkeys & _ & _ & Hlookup).
  split; [exact Hkeys|].
  apply (Hlookup {| user_id := "ik"; user_email := "g@x.io";
                    user_password := "$2a$10$salt$Uakgb_J5";
                    user_name := "G"; user_isVerified := true |}).
  right; left; reflexivity.
Defined.

Lemma consuming_removes_exactly_one_row_witness :
  List.length
    (verificationTokens
       (db (snd (@serve second later_runtime (VerifyEmail (Some "550000") (Some "b@x.io"))
                   bob_signed_up_second)))) = 0%nat.
Proof.
  destruct (@consuming_removes_exactly_one_row second later_runtime bob_signed_up_second
              tally_injective bob_signed_up_second_reachable) as [Hverify _].
  destruct (Hverify (Some "550000") (Some "b@x.io") eq_refl) as (t & _ & _ & Hlength & _).
  exact (eq_add_S _ 0%nat Hlength).
Defined.

Lemma reachable_references_users_witness :
  references_users
    (db (snd (@serve sample later_runtime (ForgotPassword (Some "b@x.io")) bob_signed_up))).
Proof.
  apply (@reachable_references_users sample).
  apply reachable_serve, bob_signed_up_reachable.
Defined.

Lemma session_cookie_only_on_success_witness :
  fst (@serve sample sample_runtime (Login (Some "a@x.io") (Some "pw"))
         (initial_state sample_store)) = Returned tt.
Proof.
  refine (proj1 (@session_cookie_only_on_success sample sample_runtime
                   (Login (Some "a@x.io") (Some "pw")) (initial_state sample_store)
                   "token" "secret.0"
                   {| httpOnly := true; secure := false; sameSite := "strict";
                      maxAge := Some 604800000; domain := None; path := "/" |} _)).
  left. reflexivity.
Defined.
